(** * Xen event channels (drivers/xen/events.c): a shallow embedding

    The driver keeps its state in file-scope and per-CPU variables and in
    two pages shared with the hypervisor.  The embedding threads that
    state explicitly through a small state-and-fault monad: a function of
    the driver becomes a function [xen_state -> outcome A], where a run
    either returns a value and a new state or stops the kernel ([BUG()],
    [panic()], an access outside an array).

    Integers are [Z]; the conversions the C code performs silently
    (to [unsigned short], to [unsigned int], to [unsigned long]) are
    written out.  Arrays are lists read and written by index, bitmaps
    are lists of 64-bit words.  The spinlock [irq_mapping_update_lock]
    and the atomicity of the [sync_*] bit operations are not part of
    this sequential model. *)

From Stdlib Require Import ZArith List Bool Lia.
From stdpp Require Import base tactics option list list_numbers.

Local Open Scope Z_scope.

(** ** Data model *)

(** [enum xen_irq_type] *)
Inductive xen_irq_type : Type :=
| IRQT_UNBOUND
| IRQT_PIRQ
| IRQT_VIRQ
| IRQT_IPI
| IRQT_EVTCHN.

#[global] Instance xen_irq_type_eq_dec : EqDecision xen_irq_type.
Proof. solve_decision. Defined.

(** The [pirq] member of the union [u] of [struct irq_info]. *)
Record pirq_payload : Type := mk_pirq_payload {
  gsi : Z;        (* unsigned short *)
  vector : Z;     (* unsigned char *)
  flags : Z;      (* unsigned char *)
  domid : Z       (* uint16_t *)
}.

(** The union [u] of [struct irq_info].  The driver builds every
    [irq_info] with one of the [mk_*_info] constructors, which zero the
    union and then set at most one member; [u_zero] is the zeroed union. *)
Inductive irq_info_u : Type :=
| u_zero
| u_virq (virq : Z)
| u_ipi (ipi : Z)
| u_pirq (pirq : pirq_payload).

(** [struct irq_info] *)
Record irq_info_t : Type := mk_irq_info {
  info_type : xen_irq_type;
  info_evtchn : Z;          (* unsigned short *)
  info_cpu : Z;             (* unsigned short *)
  info_u : irq_info_u
}.

(** The three chips of this file, [no_irq_chip] of the IRQ core, and any
    chip of another driver. *)
Inductive irq_chip : Type :=
| no_irq_chip
| xen_dynamic_chip
| xen_percpu_chip
| xen_pirq_chip
| foreign_chip.

#[global] Instance irq_chip_eq_dec : EqDecision irq_chip.
Proof. solve_decision. Defined.

(** The flow handlers passed to [set_irq_chip_and_handler_name]. *)
Inductive flow_handler : Type :=
| handle_fasteoi_irq
| handle_percpu_irq.

(** Modelled from the spec: [struct irq_desc] belongs to the IRQ core
    (the IrqCore collaborator), whose headers are not among the sources.
    The record has what events.c reads and writes of a descriptor: the
    chip, the flags of the registered action (if any), the status word
    and the affinity (one CPU, as [cpumask_of] builds it). *)
Record irq_desc : Type := mk_irq_desc {
  chip : irq_chip;
  action : option Z;
  status : Z;
  affinity : Z
}.

(** Modelled from the spec: [struct vcpu_info] is declared in the Xen
    interface headers, which are not among the sources.  The record has
    the fields events.c uses, the spec's per-CPU VcpuInfo: the upcall
    flag and the selector word. *)
Record vcpu_info : Type := mk_vcpu_info {
  evtchn_upcall_pending : Z;    (* uint8_t *)
  evtchn_pending_sel : Z        (* unsigned long *)
}.

(** Modelled from the spec: [struct shared_info] is declared in the Xen
    interface headers, which are not among the sources.  The record has
    the two bitmaps events.c uses, the spec's SharedBitmaps [pending]
    and [mask]. *)
Record shared_info : Type := mk_shared_info {
  evtchn_pending : list Z;
  evtchn_mask : list Z
}.

(** Hypercalls issued by the modelled functions, with the arguments the
    driver fills in. *)
Inductive hypercall : Type :=
| EVTCHNOP_unmask (port : Z)
| EVTCHNOP_close (port : Z)
| EVTCHNOP_bind_pirq (pirq bind_flags : Z)
| EVTCHNOP_bind_virq (virq vcpu : Z)
| EVTCHNOP_bind_ipi (vcpu : Z)
| EVTCHNOP_bind_interdomain (remote_dom remote_port : Z)
| PHYSDEVOP_eoi (irq : Z)
| PHYSDEVOP_irq_status_query (irq : Z)
| PHYSDEVOP_pirq_eoi_gmfn
| SCHEDOP_poll (port timeout : Z).

#[global] Instance hypercall_eq_dec : EqDecision hypercall.
Proof. solve_decision. Defined.

(** What the driver does to the outside, in order: hypercalls, and
    interrupts handed to the IRQ core by [generic_handle_irq_desc]. *)
Inductive event : Type :=
| Hypercall (h : hypercall)
| HandleIrq (irq : Z).

#[global] Instance event_eq_dec : EqDecision event.
Proof. solve_decision. Defined.

(** The answer of the hypervisor to a hypercall: the return code and the
    one field of the argument structure it fills in (the port of a bind,
    the flags of a status query). *)
Record hv_reply : Type := mk_hv_reply {
  rc : Z;
  out : Z
}.

(** The variables of events.c, the shared pages, the descriptors of the
    IRQ core, the executing CPU and its interrupt flag, and the trace of
    what has been done to the outside so far. *)
Record xen_state : Type := mk_xen_state {
  virq_to_irq : list (list Z);          (* per CPU, [NR_VIRQS] *)
  ipi_to_irq : list (list Z);           (* per CPU, [XEN_NR_IPIS] *)
  pirq_eoi_does_unmask : bool;
  pirq_needs_eoi_bits : list Z;
  irq_info : list irq_info_t;
  evtchn_to_irq : list Z;
  cpu_evtchn_mask_p : list (list Z);     (* per CPU, [struct cpu_evtchn_s] *)
  xed_nesting_count : list Z;           (* per CPU *)
  current_word_idx : list Z;            (* per CPU *)
  current_bit_idx : list Z;             (* per CPU *)
  HYPERVISOR_shared_info : shared_info;
  xen_vcpu : list vcpu_info;            (* per CPU *)
  irq_descs : list (option irq_desc);   (* [irq_to_desc], [None] is NULL *)
  smp_processor_id : Z;
  irqs_disabled : bool;
  trace : list event
}.

(** Field updates. *)
Definition with_virq_to_irq (v : list (list Z)) (s : xen_state) : xen_state :=
  mk_xen_state v (ipi_to_irq s) (pirq_eoi_does_unmask s)
    (pirq_needs_eoi_bits s) (irq_info s) (evtchn_to_irq s)
    (cpu_evtchn_mask_p s) (xed_nesting_count s) (current_word_idx s)
    (current_bit_idx s) (HYPERVISOR_shared_info s) (xen_vcpu s)
    (irq_descs s) (smp_processor_id s) (irqs_disabled s) (trace s).

Definition with_ipi_to_irq (v : list (list Z)) (s : xen_state) : xen_state :=
  mk_xen_state (virq_to_irq s) v (pirq_eoi_does_unmask s)
    (pirq_needs_eoi_bits s) (irq_info s) (evtchn_to_irq s)
    (cpu_evtchn_mask_p s) (xed_nesting_count s) (current_word_idx s)
    (current_bit_idx s) (HYPERVISOR_shared_info s) (xen_vcpu s)
    (irq_descs s) (smp_processor_id s) (irqs_disabled s) (trace s).

Definition with_pirq_needs_eoi_bits (v : list Z) (s : xen_state) : xen_state :=
  mk_xen_state (virq_to_irq s) (ipi_to_irq s) (pirq_eoi_does_unmask s)
    v (irq_info s) (evtchn_to_irq s)
    (cpu_evtchn_mask_p s) (xed_nesting_count s) (current_word_idx s)
    (current_bit_idx s) (HYPERVISOR_shared_info s) (xen_vcpu s)
    (irq_descs s) (smp_processor_id s) (irqs_disabled s) (trace s).

Definition with_irq_info (v : list irq_info_t) (s : xen_state) : xen_state :=
  mk_xen_state (virq_to_irq s) (ipi_to_irq s) (pirq_eoi_does_unmask s)
    (pirq_needs_eoi_bits s) v (evtchn_to_irq s)
    (cpu_evtchn_mask_p s) (xed_nesting_count s) (current_word_idx s)
    (current_bit_idx s) (HYPERVISOR_shared_info s) (xen_vcpu s)
    (irq_descs s) (smp_processor_id s) (irqs_disabled s) (trace s).

Definition with_evtchn_to_irq (v : list Z) (s : xen_state) : xen_state :=
  mk_xen_state (virq_to_irq s) (ipi_to_irq s) (pirq_eoi_does_unmask s)
    (pirq_needs_eoi_bits s) (irq_info s) v
    (cpu_evtchn_mask_p s) (xed_nesting_count s) (current_word_idx s)
    (current_bit_idx s) (HYPERVISOR_shared_info s) (xen_vcpu s)
    (irq_descs s) (smp_processor_id s) (irqs_disabled s) (trace s).

Definition with_cpu_evtchn_mask_p (v : list (list Z)) (s : xen_state) : xen_state :=
  mk_xen_state (virq_to_irq s) (ipi_to_irq s) (pirq_eoi_does_unmask s)
    (pirq_needs_eoi_bits s) (irq_info s) (evtchn_to_irq s)
    v (xed_nesting_count s) (current_word_idx s)
    (current_bit_idx s) (HYPERVISOR_shared_info s) (xen_vcpu s)
    (irq_descs s) (smp_processor_id s) (irqs_disabled s) (trace s).

Definition with_xed_nesting_count (v : list Z) (s : xen_state) : xen_state :=
  mk_xen_state (virq_to_irq s) (ipi_to_irq s) (pirq_eoi_does_unmask s)
    (pirq_needs_eoi_bits s) (irq_info s) (evtchn_to_irq s)
    (cpu_evtchn_mask_p s) v (current_word_idx s)
    (current_bit_idx s) (HYPERVISOR_shared_info s) (xen_vcpu s)
    (irq_descs s) (smp_processor_id s) (irqs_disabled s) (trace s).

Definition with_current_word_idx (v : list Z) (s : xen_state) : xen_state :=
  mk_xen_state (virq_to_irq s) (ipi_to_irq s) (pirq_eoi_does_unmask s)
    (pirq_needs_eoi_bits s) (irq_info s) (evtchn_to_irq s)
    (cpu_evtchn_mask_p s) (xed_nesting_count s) v
    (current_bit_idx s) (HYPERVISOR_shared_info s) (xen_vcpu s)
    (irq_descs s) (smp_processor_id s) (irqs_disabled s) (trace s).

Definition with_current_bit_idx (v : list Z) (s : xen_state) : xen_state :=
  mk_xen_state (virq_to_irq s) (ipi_to_irq s) (pirq_eoi_does_unmask s)
    (pirq_needs_eoi_bits s) (irq_info s) (evtchn_to_irq s)
    (cpu_evtchn_mask_p s) (xed_nesting_count s) (current_word_idx s)
    v (HYPERVISOR_shared_info s) (xen_vcpu s)
    (irq_descs s) (smp_processor_id s) (irqs_disabled s) (trace s).

Definition with_shared_info (v : shared_info) (s : xen_state) : xen_state :=
  mk_xen_state (virq_to_irq s) (ipi_to_irq s) (pirq_eoi_does_unmask s)
    (pirq_needs_eoi_bits s) (irq_info s) (evtchn_to_irq s)
    (cpu_evtchn_mask_p s) (xed_nesting_count s) (current_word_idx s)
    (current_bit_idx s) v (xen_vcpu s)
    (irq_descs s) (smp_processor_id s) (irqs_disabled s) (trace s).

Definition with_xen_vcpu (v : list vcpu_info) (s : xen_state) : xen_state :=
  mk_xen_state (virq_to_irq s) (ipi_to_irq s) (pirq_eoi_does_unmask s)
    (pirq_needs_eoi_bits s) (irq_info s) (evtchn_to_irq s)
    (cpu_evtchn_mask_p s) (xed_nesting_count s) (current_word_idx s)
    (current_bit_idx s) (HYPERVISOR_shared_info s) v
    (irq_descs s) (smp_processor_id s) (irqs_disabled s) (trace s).

Definition with_irq_descs (v : list (option irq_desc)) (s : xen_state) : xen_state :=
  mk_xen_state (virq_to_irq s) (ipi_to_irq s) (pirq_eoi_does_unmask s)
    (pirq_needs_eoi_bits s) (irq_info s) (evtchn_to_irq s)
    (cpu_evtchn_mask_p s) (xed_nesting_count s) (current_word_idx s)
    (current_bit_idx s) (HYPERVISOR_shared_info s) (xen_vcpu s)
    v (smp_processor_id s) (irqs_disabled s) (trace s).

Definition with_trace (v : list event) (s : xen_state) : xen_state :=
  mk_xen_state (virq_to_irq s) (ipi_to_irq s) (pirq_eoi_does_unmask s)
    (pirq_needs_eoi_bits s) (irq_info s) (evtchn_to_irq s)
    (cpu_evtchn_mask_p s) (xed_nesting_count s) (current_word_idx s)
    (current_bit_idx s) (HYPERVISOR_shared_info s) (xen_vcpu s)
    (irq_descs s) (smp_processor_id s) (irqs_disabled s) v.

Definition with_evtchn_pending (v : list Z) (s : xen_state) : xen_state :=
  with_shared_info
    (mk_shared_info v (evtchn_mask (HYPERVISOR_shared_info s))) s.

Definition with_evtchn_mask (v : list Z) (s : xen_state) : xen_state :=
  with_shared_info
    (mk_shared_info (evtchn_pending (HYPERVISOR_shared_info s)) v) s.

(** ** The state-and-fault monad *)

(** Why a run stopped: [BUG()] or a failed [BUG_ON], [panic()], an
    access outside an array or through a NULL descriptor (which C leaves
    undefined), or a loop of the model that ran out of fuel. *)
Inductive fault : Type :=
| BUG
| PANIC
| MEMORY
| FUEL.

Inductive outcome (A : Type) : Type :=
| Ok (a : A) (s : xen_state)
| Stop (f : fault).

Arguments Ok {A} a s.
Arguments Stop {A} f.

Definition M (A : Type) : Type := xen_state -> outcome A.

Definition ret {A} (a : A) : M A := fun s => Ok a s.

Definition bind {A B} (m : M A) (k : A -> M B) : M B :=
  fun s => match m s with
           | Ok a s' => k a s'
           | Stop f => Stop f
           end.

Definition stop {A} (f : fault) : M A := fun _ => Stop f.

Definition gets {A} (f : xen_state -> A) : M A := fun s => Ok (f s) s.

Definition modify (f : xen_state -> xen_state) : M unit := fun s => Ok tt (f s).

Declare Scope xen_scope.
Delimit Scope xen_scope with xen.

Notation "x <- m ;; k" := (bind m (fun x => k))
  (at level 100, m at next level, right associativity) : xen_scope.
Notation "m ;;; k" := (bind m (fun _ => k))
  (at level 100, right associativity) : xen_scope.

Local Open Scope xen_scope.

(** [BUG_ON(cond)] *)
Definition BUG_ON (cond : bool) : M unit :=
  if cond then stop BUG else ret tt.

(** A value read through a pointer or index that may be invalid. *)
Definition deref {A} (o : option A) : M A :=
  match o with
  | Some a => ret a
  | None => stop MEMORY
  end.

(** [when c m] is [if (c) m;] *)
Definition when (c : bool) (m : M unit) : M unit :=
  if c then m else ret tt.

(** A [for] loop over the given values of the loop variable. *)
Fixpoint for_each {A} (l : list A) (body : A -> M unit) : M unit :=
  match l with
  | [] => ret tt
  | x :: l' => body x ;;; for_each l' body
  end.

(** ** Arrays and bitmaps *)

(** Modelled from the spec: [BITS_PER_LONG] comes from a kernel header
    that is not among the sources; the specification fixes the word
    size at 64. *)
Definition BITS_PER_LONG : Z := 64.

(** [a[i]] *)
Definition index {A} (a : list A) (i : Z) : option A :=
  if decide (0 <= i) then a !! Z.to_nat i else None.

(** [a[i] = x] *)
Definition store {A} (a : list A) (i : Z) (x : A) : option (list A) :=
  match index a i with
  | Some _ => Some (<[Z.to_nat i := x]> a)
  | None => None
  end.

(** Conversions to the unsigned types of the driver. *)
Definition to_ushort (z : Z) : Z := z mod 2 ^ 16.
Definition to_uint (z : Z) : Z := z mod 2 ^ 32.
Definition to_ulong (z : Z) : Z := z mod 2 ^ 64.
(** Conversion of an [unsigned int] to [int] (two's complement). *)
Definition to_int (z : Z) : Z :=
  let u := z mod 2 ^ 32 in if decide (u < 2 ^ 31) then u else u - 2 ^ 32.

(** [test_bit(nr, addr)] *)
Definition test_bit (nr : Z) (addr : list Z) : option bool :=
  w ← index addr (nr / BITS_PER_LONG);
  Some (Z.testbit w (nr mod BITS_PER_LONG)).

(** [set_bit(nr, addr)] *)
Definition set_bit (nr : Z) (addr : list Z) : option (list Z) :=
  w ← index addr (nr / BITS_PER_LONG);
  store addr (nr / BITS_PER_LONG) (Z.setbit w (nr mod BITS_PER_LONG)).

(** [clear_bit(nr, addr)] *)
Definition clear_bit (nr : Z) (addr : list Z) : option (list Z) :=
  w ← index addr (nr / BITS_PER_LONG);
  store addr (nr / BITS_PER_LONG) (Z.clearbit w (nr mod BITS_PER_LONG)).

(** [test_and_set_bit(nr, addr)]: the old bit and the new bitmap. *)
Definition test_and_set_bit (nr : Z) (addr : list Z) : option (bool * list Z) :=
  old ← test_bit nr addr;
  addr' ← set_bit nr addr;
  Some (old, addr').

(** [__ffs(word)]: the index of the least significant set bit; the C
    function is undefined on 0, where the model answers 0. *)
Fixpoint ffs_pos (p : positive) : Z :=
  match p with
  | xO p' => 1 + ffs_pos p'
  | _ => 0
  end.

Definition __ffs (word : Z) : Z :=
  match word with
  | Zpos p => ffs_pos p
  | _ => 0
  end.

(** [#define MASK_LSBS(w, i) (w & ((~0UL) << i))] *)
Definition MASK_LSBS (w i : Z) : Z :=
  Z.land w (to_ulong (Z.shiftl (Z.ones 64) i)).

(** ** Collaborators *)

(** Constants and configuration that events.c takes from headers and
    from the rest of the kernel. *)
Class Platform : Type := {
  NR_EVENT_CHANNELS : Z;
  NR_VIRQS : Z;
  XEN_NR_IPIS : Z;
  nr_irqs : Z;
  nr_cpu_ids : Z;                (* the possible CPUs are 0 .. nr_cpu_ids-1 *)
  get_nr_irqs_gsi : Z;
  IRQ_DISABLED : Z;
  IRQF_NO_SUSPEND : Z;
  IRQF_FORCE_RESUME : Z;
  IRQF_EARLY_RESUME : Z;
  BIND_PIRQ__WILL_SHARE : Z;
  XENIRQSTAT_needs_eoi : Z
}.

(** The hypervisor: its answer to a hypercall, given everything the
    driver did before. *)
Class HvCall : Type := {
  hypervisor : list event -> hypercall -> hv_reply
}.

(** The IRQ core.  The descriptor operations act on the descriptor table
    only; [request_irq] and the handling of an interrupt may run code of
    this driver again (chip callbacks) and so act on the whole state. *)
Class IrqCore : Type := {
  irq_to_desc_alloc_node :
    Z -> Z -> list (option irq_desc) -> list (option irq_desc);
  dynamic_irq_init_keep_chip_data :
    Z -> list (option irq_desc) -> list (option irq_desc);
  dynamic_irq_cleanup :
    Z -> list (option irq_desc) -> list (option irq_desc);
  set_irq_chip_and_handler_name :
    Z -> irq_chip -> flow_handler -> list (option irq_desc) ->
    list (option irq_desc);
  (* irq, handler, irqflags, devname, dev_id *)
  request_irq : Z -> Z -> Z -> Z -> Z -> M Z;
  (* what the flow handler and the action of an irq do *)
  irq_handler : Z -> xen_state -> xen_state
}.

(** ** The driver *)

Section Events.

Context {plat : Platform} {hv : HvCall} {core : IrqCore}.

(** A hypercall: the driver sees the reply, the trace grows by one. *)
Definition HYPERVISOR_op (h : hypercall) : M hv_reply :=
  fun s => Ok (hypervisor (trace s) h) (with_trace (trace s ++ [Hypercall h]) s).

Definition HYPERVISOR_event_channel_op : hypercall -> M hv_reply := HYPERVISOR_op.
Definition HYPERVISOR_physdev_op : hypercall -> M hv_reply := HYPERVISOR_op.
Definition HYPERVISOR_sched_op : hypercall -> M hv_reply := HYPERVISOR_op.

(** [irq_to_desc(irq)]; [None] is the NULL pointer. *)
Definition irq_to_desc (irq : Z) : M (option irq_desc) :=
  descs <- gets irq_descs;;
  ret (mjoin (index descs irq)).

(** [generic_handle_irq_desc(irq, desc)] *)
Definition generic_handle_irq_desc (irq : Z) : M unit :=
  modify (fun s => with_trace (trace s ++ [HandleIrq irq]) s) ;;;
  modify (irq_handler irq).

(** [#define PIRQ_SHAREABLE (1 << 1)] *)
Definition PIRQ_SHAREABLE : Z := Z.shiftl 1 1.

(** [#define VALID_EVTCHN(chn) ((chn) != 0)] *)
Definition VALID_EVTCHN (chn : Z) : bool := negb (chn =? 0).

(** Constructors for packed IRQ information. *)
Definition mk_unbound_info : irq_info_t :=
  mk_irq_info IRQT_UNBOUND 0 0 u_zero.

Definition mk_evtchn_info (evtchn : Z) : irq_info_t :=
  mk_irq_info IRQT_EVTCHN (to_ushort evtchn) 0 u_zero.

Definition mk_ipi_info (evtchn ipi : Z) : irq_info_t :=
  mk_irq_info IRQT_IPI (to_ushort evtchn) 0 (u_ipi ipi).

Definition mk_virq_info (evtchn virq : Z) : irq_info_t :=
  mk_irq_info IRQT_VIRQ (to_ushort evtchn) 0 (u_virq (to_ushort virq)).

(** Members of the union; a member that was not the one set by the
    constructor reads as in the zeroed union. *)
Definition u_virq_of (u : irq_info_u) : Z :=
  match u with u_virq v => v | _ => 0 end.

Definition u_ipi_of (u : irq_info_u) : Z :=
  match u with u_ipi i => i | _ => 0 end.

Definition u_pirq_of (u : irq_info_u) : pirq_payload :=
  match u with u_pirq p => p | _ => mk_pirq_payload 0 0 0 0 end.

(** Accessors for packed IRQ information.  [info_for_irq] returns a
    pointer in C; here it reads the record the pointer designates. *)
Definition info_for_irq (irq : Z) : M irq_info_t :=
  infos <- gets irq_info;;
  deref (index infos irq).

(** [irq_info[irq] = info] *)
Definition set_info (irq : Z) (info : irq_info_t) : M unit :=
  infos <- gets irq_info;;
  infos' <- deref (store infos irq info);;
  modify (with_irq_info infos').

Definition evtchn_from_irq (irq : Z) : M Z :=
  info <- info_for_irq irq;;
  ret (info_evtchn info).

Definition ipi_from_irq (irq : Z) : M Z :=
  info <- info_for_irq irq;;
  BUG_ON (negb (bool_decide (info_type info = IRQT_IPI))) ;;;
  ret (u_ipi_of (info_u info)).

Definition virq_from_irq (irq : Z) : M Z :=
  info <- info_for_irq irq;;
  BUG_ON (negb (bool_decide (info_type info = IRQT_VIRQ))) ;;;
  ret (u_virq_of (info_u info)).

Definition type_from_irq (irq : Z) : M xen_irq_type :=
  info <- info_for_irq irq;;
  ret (info_type info).

Definition cpu_from_irq (irq : Z) : M Z :=
  info <- info_for_irq irq;;
  ret (info_cpu info).

Definition cpu_from_evtchn (evtchn : Z) : M Z :=
  tbl <- gets evtchn_to_irq;;
  irq <- deref (index tbl evtchn);;
  if irq =? -1 then ret 0 else cpu_from_irq irq.

Definition pirq_needs_eoi (irq : Z) : M bool :=
  info <- info_for_irq irq;;
  BUG_ON (negb (bool_decide (info_type info = IRQT_PIRQ))) ;;;
  bits <- gets pirq_needs_eoi_bits;;
  deref (test_bit (gsi (u_pirq_of (info_u info))) bits).

(** [cpu_evtchn_mask(cpu)] *)
Definition cpu_evtchn_mask (cpu : Z) : M (list Z) :=
  masks <- gets cpu_evtchn_mask_p;;
  deref (index masks cpu).

Definition set_cpu_evtchn_mask (cpu : Z) (bits : list Z) : M unit :=
  masks <- gets cpu_evtchn_mask_p;;
  masks' <- deref (store masks cpu bits);;
  modify (with_cpu_evtchn_mask_p masks').

Definition active_evtchns (cpu idx : Z) : M Z :=
  sh <- gets HYPERVISOR_shared_info;;
  pending <- deref (index (evtchn_pending sh) idx);;
  cmask <- cpu_evtchn_mask cpu;;
  local <- deref (index cmask idx);;
  masked <- deref (index (evtchn_mask sh) idx);;
  ret (Z.land (Z.land pending local) (to_ulong (Z.lnot masked))).

(** [cpumask_copy(desc->affinity, cpumask_of(cpu))] *)
Definition desc_set_affinity (cpu : Z) (d : irq_desc) : irq_desc :=
  mk_irq_desc (chip d) (action d) (status d) cpu.

Definition bind_evtchn_to_cpu (chn cpu : Z) : M unit :=
  tbl <- gets evtchn_to_irq;;
  irq <- deref (index tbl chn);;
  BUG_ON (irq =? -1) ;;;
  (* CONFIG_SMP: cpumask_copy(irq_to_desc(irq)->affinity, cpumask_of(cpu)) *)
  desc <- irq_to_desc irq;;
  d <- deref desc;;
  descs <- gets irq_descs;;
  descs' <- deref (store descs irq (Some (desc_set_affinity cpu d)));;
  modify (with_irq_descs descs') ;;;
  old <- cpu_from_irq irq;;
  bits <- cpu_evtchn_mask old;;
  bits' <- deref (clear_bit chn bits);;
  set_cpu_evtchn_mask old bits' ;;;
  bits <- cpu_evtchn_mask cpu;;
  bits' <- deref (set_bit chn bits);;
  set_cpu_evtchn_mask cpu bits' ;;;
  info <- info_for_irq irq;;
  set_info irq (mk_irq_info (info_type info) (info_evtchn info)
                  (to_ushort cpu) (info_u info)).

Definition init_evtchn_cpu_bindings : M unit :=
  (* CONFIG_SMP: by default all event channels notify CPU#0. *)
  modify (fun s => with_irq_descs
    (fmap (M:=list) (fmap (M:=option) (desc_set_affinity 0)) (irq_descs s)) s) ;;;
  for_each (seqZ 0 nr_cpu_ids) (fun i =>
    set_cpu_evtchn_mask i
      (replicate (Z.to_nat (NR_EVENT_CHANNELS / BITS_PER_LONG))
         (if i =? 0 then Z.ones 64 else 0))).

Definition clear_evtchn (port : Z) : M unit :=
  s <- gets HYPERVISOR_shared_info;;
  bits <- deref (clear_bit port (evtchn_pending s));;
  modify (with_evtchn_pending bits).

Definition set_evtchn (port : Z) : M unit :=
  s <- gets HYPERVISOR_shared_info;;
  bits <- deref (set_bit port (evtchn_pending s));;
  modify (with_evtchn_pending bits).

Definition test_evtchn (port : Z) : M bool :=
  s <- gets HYPERVISOR_shared_info;;
  deref (test_bit port (evtchn_pending s)).

Definition mask_evtchn (port : Z) : M unit :=
  s <- gets HYPERVISOR_shared_info;;
  bits <- deref (set_bit port (evtchn_mask s));;
  modify (with_evtchn_mask bits).

Definition mask_irq (irq : Z) : M unit :=
  evtchn <- evtchn_from_irq irq;;
  when (VALID_EVTCHN evtchn) (mask_evtchn evtchn).

(** [__get_cpu_var(xen_vcpu)] on the given CPU. *)
Definition get_vcpu_info (cpu : Z) : M vcpu_info :=
  vcpus <- gets xen_vcpu;;
  deref (index vcpus cpu).

Definition set_vcpu_info (cpu : Z) (v : vcpu_info) : M unit :=
  vcpus <- gets xen_vcpu;;
  vcpus' <- deref (store vcpus cpu v);;
  modify (with_xen_vcpu vcpus').

Definition unmask_evtchn (port : Z) : M unit :=
  cpu <- gets smp_processor_id;;
  dis <- gets irqs_disabled;;
  BUG_ON (negb dis) ;;;
  home <- cpu_from_evtchn port;;
  (* Slow path (hypercall) if this is a non-local port. *)
  if negb (cpu =? home) then
    HYPERVISOR_event_channel_op (EVTCHNOP_unmask port) ;;; ret tt
  else
    s <- gets HYPERVISOR_shared_info;;
    bits <- deref (clear_bit port (evtchn_mask s));;
    modify (with_evtchn_mask bits) ;;;
    pending <- test_evtchn port;;
    if pending then
      vcpu <- get_vcpu_info cpu;;
      r <- deref (test_and_set_bit (port ÷ BITS_PER_LONG)
                    [evtchn_pending_sel vcpu]);;
      sel <- deref (index r.2 0);;
      set_vcpu_info cpu (mk_vcpu_info (evtchn_upcall_pending vcpu) sel) ;;;
      if negb r.1 then
        set_vcpu_info cpu (mk_vcpu_info 1 sel)
      else ret tt
    else ret tt.

Definition unmask_irq (irq : Z) : M unit :=
  evtchn <- evtchn_from_irq irq;;
  when (VALID_EVTCHN evtchn) (unmask_evtchn evtchn).

(** [get_nr_hw_irqs()], with CONFIG_X86_IO_APIC. *)
Definition get_nr_hw_irqs : Z := get_nr_irqs_gsi.

(** The search loop of [find_unbound_irq]: [cands] are the values the
    loop variable takes, from [nr_irqs-1] down to [start+1]; the result
    is the value of [irq] when the loop is left. *)
Fixpoint find_unbound_irq_loop (cands : list Z) (start : Z) : M Z :=
  match cands with
  | [] => ret start
  | irq :: cands' =>
    desc <- irq_to_desc irq;;
    match desc with
    | None => ret irq
    | Some d =>
      if bool_decide (chip d = no_irq_chip) then ret irq
      else if negb (bool_decide (chip d = xen_dynamic_chip)) then
        find_unbound_irq_loop cands' start
      else
        type <- type_from_irq irq;;
        if bool_decide (type = IRQT_UNBOUND) then ret irq
        else find_unbound_irq_loop cands' start
    end
  end.

Definition find_unbound_irq : M Z :=
  let start := get_nr_hw_irqs in
  if start =? nr_irqs then stop PANIC
  else
    irq <- (if nr_irqs - 1 >? start
            then find_unbound_irq_loop
                   (reverse (seqZ (start + 1) (nr_irqs - 1 - start))) start
            else ret (nr_irqs - 1));;
    if irq =? start then stop PANIC
    else
      modify (fun s => with_irq_descs
                (irq_to_desc_alloc_node irq (-1) (irq_descs s)) s) ;;;
      desc <- irq_to_desc irq;;
      match desc with
      | None => ret (-1)
      | Some _ =>
        modify (fun s => with_irq_descs
                  (dynamic_irq_init_keep_chip_data irq (irq_descs s)) s) ;;;
        ret irq
      end.

Definition pirq_eoi (irq : Z) : M unit :=
  info <- info_for_irq irq;;
  let eoi := PHYSDEVOP_eoi (gsi (u_pirq_of (info_u info))) in
  need_eoi <- pirq_needs_eoi irq;;
  does_unmask <- gets pirq_eoi_does_unmask;;
  when (negb need_eoi || negb does_unmask) (unmask_evtchn (info_evtchn info)) ;;;
  when need_eoi (HYPERVISOR_physdev_op eoi ;;; ret tt).

Definition pirq_query_unmask (irq : Z) : M unit :=
  does_unmask <- gets pirq_eoi_does_unmask;;
  if does_unmask then ret tt
  else
    info <- info_for_irq irq;;
    BUG_ON (negb (bool_decide (info_type info = IRQT_PIRQ))) ;;;
    let g := gsi (u_pirq_of (info_u info)) in
    r <- HYPERVISOR_physdev_op (PHYSDEVOP_irq_status_query g);;
    let irq_status_flags := if negb (rc r =? 0) then 0 else out r in
    bits <- gets pirq_needs_eoi_bits;;
    bits' <- deref (clear_bit g bits);;
    modify (with_pirq_needs_eoi_bits bits') ;;;
    when (negb (Z.land irq_status_flags XENIRQSTAT_needs_eoi =? 0))
      (bits <- gets pirq_needs_eoi_bits;;
       bits' <- deref (set_bit g bits);;
       modify (with_pirq_needs_eoi_bits bits')).

(** [evtchn_to_irq[evtchn] = irq] *)
Definition set_evtchn_to_irq (evtchn irq : Z) : M unit :=
  tbl <- gets evtchn_to_irq;;
  tbl' <- deref (store tbl evtchn irq);;
  modify (with_evtchn_to_irq tbl').

Definition startup_pirq (irq : Z) : M Z :=
  info <- info_for_irq irq;;
  evtchn <- evtchn_from_irq irq;;
  BUG_ON (negb (bool_decide (info_type info = IRQT_PIRQ))) ;;;
  if VALID_EVTCHN evtchn then
    (* goto out *)
    pirq_eoi irq ;;; ret 0
  else
    let p := u_pirq_of (info_u info) in
    (* NB. We are happy to share unless we are probing. *)
    let bind_pirq_flags :=
      if negb (Z.land (flags p) PIRQ_SHAREABLE =? 0)
      then BIND_PIRQ__WILL_SHARE else 0 in
    r <- HYPERVISOR_event_channel_op (EVTCHNOP_bind_pirq (gsi p) bind_pirq_flags);;
    if negb (rc r =? 0) then
      (* the message printed unless probing_irq(irq) is not modelled *)
      ret 0
    else
      let evtchn := out r in
      pirq_query_unmask irq ;;;
      set_evtchn_to_irq evtchn irq ;;;
      bind_evtchn_to_cpu evtchn 0 ;;;
      info <- info_for_irq irq;;
      set_info irq (mk_irq_info (info_type info) (to_ushort evtchn)
                      (info_cpu info) (info_u info)) ;;;
      pirq_eoi irq ;;;
      ret 0.

(** [set_irq_chip_and_handler_name(irq, chip, handle, name)] *)
Definition set_chip (irq : Z) (c : irq_chip) (h : flow_handler) : M unit :=
  modify (fun s => with_irq_descs
            (set_irq_chip_and_handler_name irq c h (irq_descs s)) s).

Definition bind_evtchn_to_irq (evtchn : Z) : M Z :=
  tbl <- gets evtchn_to_irq;;
  irq <- deref (index tbl evtchn);;
  if irq =? -1 then
    irq <- find_unbound_irq;;
    set_chip irq xen_dynamic_chip handle_fasteoi_irq ;;;
    set_evtchn_to_irq evtchn irq ;;;
    set_info irq (mk_evtchn_info evtchn) ;;;
    ret irq
  else ret irq.

(** [per_cpu(tbl, cpu)[i]] *)
Definition per_cpu_get (tbl : xen_state -> list (list Z)) (cpu i : Z) : M Z :=
  t <- gets tbl;;
  row <- deref (index t cpu);;
  deref (index row i).

(** [per_cpu(tbl, cpu)[i] = v] *)
Definition per_cpu_set (tbl : xen_state -> list (list Z))
    (upd : list (list Z) -> xen_state -> xen_state) (cpu i v : Z) : M unit :=
  t <- gets tbl;;
  row <- deref (index t cpu);;
  row' <- deref (store row i v);;
  t' <- deref (store t cpu row');;
  modify (upd t').

Definition bind_ipi_to_irq (ipi cpu : Z) : M Z :=
  irq <- per_cpu_get ipi_to_irq cpu ipi;;
  if irq =? -1 then
    irq <- find_unbound_irq;;
    if irq <? 0 then ret irq
    else
      set_chip irq xen_percpu_chip handle_percpu_irq ;;;
      r <- HYPERVISOR_event_channel_op (EVTCHNOP_bind_ipi cpu);;
      BUG_ON (negb (rc r =? 0)) ;;;
      let evtchn := out r in
      set_evtchn_to_irq evtchn irq ;;;
      set_info irq (mk_ipi_info evtchn ipi) ;;;
      per_cpu_set ipi_to_irq with_ipi_to_irq cpu ipi irq ;;;
      bind_evtchn_to_cpu evtchn cpu ;;;
      ret irq
  else ret irq.

Definition bind_interdomain_evtchn_to_irq (remote_domain remote_port : Z) : M Z :=
  (* bind_interdomain.remote_dom is a domid_t, a 16-bit unsigned integer
     (include/xen/interface/xen.h): the assignment truncates *)
  r <- HYPERVISOR_event_channel_op
         (EVTCHNOP_bind_interdomain (to_ushort remote_domain) remote_port);;
  let err := rc r in
  if negb (err =? 0) then ret err else bind_evtchn_to_irq (out r).

Definition bind_virq_to_irq (virq cpu : Z) : M Z :=
  irq <- per_cpu_get virq_to_irq cpu virq;;
  if irq =? -1 then
    irq <- find_unbound_irq;;
    set_chip irq xen_percpu_chip handle_percpu_irq ;;;
    r <- HYPERVISOR_event_channel_op (EVTCHNOP_bind_virq virq cpu);;
    BUG_ON (negb (rc r =? 0)) ;;;
    let evtchn := out r in
    set_evtchn_to_irq evtchn irq ;;;
    set_info irq (mk_virq_info evtchn virq) ;;;
    per_cpu_set virq_to_irq with_virq_to_irq cpu virq irq ;;;
    bind_evtchn_to_cpu evtchn cpu ;;;
    ret irq
  else ret irq.

Definition unbind_from_irq (irq : Z) : M unit :=
  evtchn <- evtchn_from_irq irq;;
  when (VALID_EVTCHN evtchn)
    (r <- HYPERVISOR_event_channel_op (EVTCHNOP_close evtchn);;
     BUG_ON (negb (rc r =? 0)) ;;;
     type <- type_from_irq irq;;
     match type with
     | IRQT_VIRQ =>
       cpu <- cpu_from_evtchn evtchn;;
       virq <- virq_from_irq irq;;
       per_cpu_set virq_to_irq with_virq_to_irq cpu virq (-1)
     | IRQT_IPI =>
       cpu <- cpu_from_evtchn evtchn;;
       ipi <- ipi_from_irq irq;;
       per_cpu_set ipi_to_irq with_ipi_to_irq cpu ipi (-1)
     | _ => ret tt
     end ;;;
     (* Closed ports are implicitly re-bound to VCPU0. *)
     bind_evtchn_to_cpu evtchn 0 ;;;
     set_evtchn_to_irq evtchn (-1)) ;;;
  info <- info_for_irq irq;;
  when (negb (bool_decide (info_type info = IRQT_UNBOUND)))
    (set_info irq mk_unbound_info ;;;
     modify (fun s => with_irq_descs (dynamic_irq_cleanup irq (irq_descs s)) s)).

(** The four [bind_*_to_irqhandler] functions.  In the first and the
    third the local [irq] is an [unsigned int] that is returned as
    [int]. *)
Definition bind_evtchn_to_irqhandler
    (evtchn handler irqflags devname dev_id : Z) : M Z :=
  i <- bind_evtchn_to_irq evtchn;;
  let irq := to_uint i in
  retval <- request_irq irq handler irqflags devname dev_id;;
  if negb (retval =? 0) then
    unbind_from_irq irq ;;; ret retval
  else ret (to_int irq).

Definition bind_interdomain_evtchn_to_irqhandler
    (remote_domain remote_port handler irqflags devname dev_id : Z) : M Z :=
  irq <- bind_interdomain_evtchn_to_irq remote_domain remote_port;;
  if irq <? 0 then ret irq
  else
    retval <- request_irq irq handler irqflags devname dev_id;;
    if negb (retval =? 0) then
      unbind_from_irq irq ;;; ret retval
    else ret irq.

Definition bind_virq_to_irqhandler
    (virq cpu handler irqflags devname dev_id : Z) : M Z :=
  i <- bind_virq_to_irq virq cpu;;
  let irq := to_uint i in
  retval <- request_irq irq handler irqflags devname dev_id;;
  if negb (retval =? 0) then
    unbind_from_irq irq ;;; ret retval
  else ret (to_int irq).

Definition bind_ipi_to_irqhandler
    (ipi cpu handler irqflags devname dev_id : Z) : M Z :=
  irq <- bind_ipi_to_irq ipi cpu;;
  if irq <? 0 then ret irq
  else
    let irqflags :=
      Z.lor irqflags
        (Z.lor (Z.lor IRQF_NO_SUSPEND IRQF_FORCE_RESUME) IRQF_EARLY_RESUME) in
    retval <- request_irq irq handler irqflags devname dev_id;;
    if negb (retval =? 0) then
      unbind_from_irq irq ;;; ret retval
    else ret irq.

(** *** The upcall *)

(** Per-CPU scalars: [__get_cpu_var(v)] and [__get_cpu_var(v) = x]. *)
Definition get_cpu_var (v : xen_state -> list Z) (cpu : Z) : M Z :=
  t <- gets v;;
  deref (index t cpu).

Definition set_cpu_var (v : xen_state -> list Z)
    (upd : list Z -> xen_state -> xen_state) (cpu x : Z) : M unit :=
  t <- gets v;;
  t' <- deref (store t cpu x);;
  modify (upd t').

(** The inner [do ... while (bit_idx != 0)] loop of
    [__xen_evtchn_do_upcall]: the ports of one word. *)
Fixpoint upcall_scan_bits (fuel : nat) (cpu word_idx pending_bits bit_idx : Z)
    : M unit :=
  match fuel with
  | O => stop FUEL
  | S fuel' =>
    let bits := MASK_LSBS pending_bits bit_idx in
    (* If we masked out all events, move on. *)
    if bits =? 0 then ret tt
    else
      let bit_idx := __ffs bits in
      (* Process port. *)
      let port := word_idx * BITS_PER_LONG + bit_idx in
      tbl <- gets evtchn_to_irq;;
      irq <- deref (index tbl port);;
      mask_evtchn port ;;;
      clear_evtchn port ;;;
      when (negb (irq =? -1))
        (desc <- irq_to_desc irq;;
         match desc with
         | Some _ => generic_handle_irq_desc irq
         | None => ret tt
         end) ;;;
      let bit_idx := Z.rem (bit_idx + 1) BITS_PER_LONG in
      (* Next caller starts at last processed + 1 *)
      set_cpu_var current_word_idx with_current_word_idx cpu
        (if negb (bit_idx =? 0) then word_idx
         else Z.rem (word_idx + 1) BITS_PER_LONG) ;;;
      set_cpu_var current_bit_idx with_current_bit_idx cpu bit_idx ;;;
      if negb (bit_idx =? 0)
      then upcall_scan_bits fuel' cpu word_idx pending_bits bit_idx
      else ret tt
  end.

(** The [for (i = 0; pending_words != 0; i++)] loop. *)
Fixpoint upcall_scan_words (fuel : nat)
    (cpu start_word_idx start_bit_idx i pending_words word_idx : Z) : M unit :=
  match fuel with
  | O => stop FUEL
  | S fuel' =>
    if pending_words =? 0 then ret tt
    else
      let words := MASK_LSBS pending_words word_idx in
      (* If we masked out all events, wrap to beginning. *)
      if words =? 0 then
        upcall_scan_words fuel' cpu start_word_idx start_bit_idx
          (i + 1) pending_words 0
      else
        let word_idx := __ffs words in
        pending_bits <- active_evtchns cpu word_idx;;
        let bit_idx := 0 in (* usually scan entire word from start *)
        let bit_idx :=
          if word_idx =? start_word_idx then
            (* We scan the starting word in two parts *)
            if i =? 0 then
              (* 1st time: start in the middle *)
              start_bit_idx
            else
              (* 2nd time: mask bits done already *)
              to_int (Z.land (to_ulong bit_idx)
                        (to_ulong (Z.shiftl 1 start_bit_idx - 1)))
          else bit_idx in
        upcall_scan_bits fuel cpu word_idx pending_bits bit_idx ;;;
        (* Scan start_l1i twice; all others once. *)
        let pending_words :=
          if negb (word_idx =? start_word_idx) || negb (i =? 0)
          then Z.land pending_words (to_ulong (Z.lnot (Z.shiftl 1 word_idx)))
          else pending_words in
        let word_idx := Z.rem (word_idx + 1) BITS_PER_LONG in
        upcall_scan_words fuel' cpu start_word_idx start_bit_idx
          (i + 1) pending_words word_idx
  end.

(** The outer [do ... while (count != 1 || evtchn_upcall_pending)]. *)
Fixpoint upcall_loop (fuel : nat) (cpu : Z) : M unit :=
  match fuel with
  | O => stop FUEL
  | S fuel' =>
    vcpu <- get_vcpu_info cpu;;
    set_vcpu_info cpu (mk_vcpu_info 0 (evtchn_pending_sel vcpu)) ;;;
    nesting <- get_cpu_var xed_nesting_count cpu;;
    set_cpu_var xed_nesting_count with_xed_nesting_count cpu
      (to_uint (nesting + 1)) ;;;
    if negb (nesting =? 0) then ret tt (* goto out *)
    else
      (* pending_words = xchg(&vcpu_info->evtchn_pending_sel, 0) *)
      vcpu <- get_vcpu_info cpu;;
      let pending_words := evtchn_pending_sel vcpu in
      set_vcpu_info cpu (mk_vcpu_info (evtchn_upcall_pending vcpu) 0) ;;;
      start_word_idx <- get_cpu_var current_word_idx cpu;;
      start_bit_idx <- get_cpu_var current_bit_idx cpu;;
      upcall_scan_words fuel cpu start_word_idx start_bit_idx 0
        pending_words start_word_idx ;;;
      dis <- gets irqs_disabled;;
      BUG_ON (negb dis) ;;;
      count <- get_cpu_var xed_nesting_count cpu;;
      set_cpu_var xed_nesting_count with_xed_nesting_count cpu 0 ;;;
      vcpu <- get_vcpu_info cpu;;
      if negb (count =? 1) || negb (evtchn_upcall_pending vcpu =? 0)
      then upcall_loop fuel' cpu
      else ret tt
  end.

(** [__xen_evtchn_do_upcall(regs)]; [fuel] bounds the iterations of each
    of its three loops. *)
Definition __xen_evtchn_do_upcall (fuel : nat) : M unit :=
  cpu <- gets smp_processor_id;;
  upcall_loop fuel cpu.

(** *** The scanner as the specification words it

    The same three loops, except that on the second visit of the
    starting word the bits at positions [>= start_bit_idx] are masked
    out of the pending bits of the word (step 4 of the description of
    the scan).  These definitions are not taken from events.c; they are
    what the code is compared with. *)
Fixpoint upcall_scan_words_as_specified (fuel : nat)
    (cpu start_word_idx start_bit_idx i pending_words word_idx : Z) : M unit :=
  match fuel with
  | O => stop FUEL
  | S fuel' =>
    if pending_words =? 0 then ret tt
    else
      let words := MASK_LSBS pending_words word_idx in
      if words =? 0 then
        upcall_scan_words_as_specified fuel' cpu start_word_idx start_bit_idx
          (i + 1) pending_words 0
      else
        let word_idx := __ffs words in
        pending_bits <- active_evtchns cpu word_idx;;
        let second_visit := (word_idx =? start_word_idx) && negb (i =? 0) in
        let pending_bits :=
          if second_visit
          then Z.land pending_bits (to_ulong (Z.shiftl 1 start_bit_idx - 1))
          else pending_bits in
        let bit_idx :=
          if (word_idx =? start_word_idx) && (i =? 0)
          then start_bit_idx else 0 in
        upcall_scan_bits fuel cpu word_idx pending_bits bit_idx ;;;
        let pending_words :=
          if negb (word_idx =? start_word_idx) || negb (i =? 0)
          then Z.land pending_words (to_ulong (Z.lnot (Z.shiftl 1 word_idx)))
          else pending_words in
        let word_idx := Z.rem (word_idx + 1) BITS_PER_LONG in
        upcall_scan_words_as_specified fuel' cpu start_word_idx start_bit_idx
          (i + 1) pending_words word_idx
  end.

Fixpoint upcall_loop_as_specified (fuel : nat) (cpu : Z) : M unit :=
  match fuel with
  | O => stop FUEL
  | S fuel' =>
    vcpu <- get_vcpu_info cpu;;
    set_vcpu_info cpu (mk_vcpu_info 0 (evtchn_pending_sel vcpu)) ;;;
    nesting <- get_cpu_var xed_nesting_count cpu;;
    set_cpu_var xed_nesting_count with_xed_nesting_count cpu
      (to_uint (nesting + 1)) ;;;
    if negb (nesting =? 0) then ret tt
    else
      vcpu <- get_vcpu_info cpu;;
      let pending_words := evtchn_pending_sel vcpu in
      set_vcpu_info cpu (mk_vcpu_info (evtchn_upcall_pending vcpu) 0) ;;;
      start_word_idx <- get_cpu_var current_word_idx cpu;;
      start_bit_idx <- get_cpu_var current_bit_idx cpu;;
      upcall_scan_words_as_specified fuel cpu start_word_idx start_bit_idx 0
        pending_words start_word_idx ;;;
      dis <- gets irqs_disabled;;
      BUG_ON (negb dis) ;;;
      count <- get_cpu_var xed_nesting_count cpu;;
      set_cpu_var xed_nesting_count with_xed_nesting_count cpu 0 ;;;
      vcpu <- get_vcpu_info cpu;;
      if negb (count =? 1) || negb (evtchn_upcall_pending vcpu =? 0)
      then upcall_loop_as_specified fuel' cpu
      else ret tt
  end.

Definition upcall_as_specified (fuel : nat) : M unit :=
  cpu <- gets smp_processor_id;;
  upcall_loop_as_specified fuel cpu.

(** *** Resume *)

Definition restore_cpu_virqs (cpu : Z) : M unit :=
  for_each (seqZ 0 NR_VIRQS) (fun virq =>
    irq <- per_cpu_get virq_to_irq cpu virq;;
    if irq =? -1 then ret tt
    else
      v <- virq_from_irq irq;;
      BUG_ON (negb (v =? virq)) ;;;
      (* Get a new binding from Xen. *)
      r <- HYPERVISOR_event_channel_op (EVTCHNOP_bind_virq virq cpu);;
      BUG_ON (negb (rc r =? 0)) ;;;
      let evtchn := out r in
      (* Record the new mapping. *)
      set_evtchn_to_irq evtchn irq ;;;
      set_info irq (mk_virq_info evtchn virq) ;;;
      bind_evtchn_to_cpu evtchn cpu).

Definition restore_cpu_ipis (cpu : Z) : M unit :=
  for_each (seqZ 0 XEN_NR_IPIS) (fun ipi =>
    irq <- per_cpu_get ipi_to_irq cpu ipi;;
    if irq =? -1 then ret tt
    else
      v <- ipi_from_irq irq;;
      BUG_ON (negb (v =? ipi)) ;;;
      (* Get a new binding from Xen. *)
      r <- HYPERVISOR_event_channel_op (EVTCHNOP_bind_ipi cpu);;
      BUG_ON (negb (rc r =? 0)) ;;;
      let evtchn := out r in
      (* Record the new mapping. *)
      set_evtchn_to_irq evtchn irq ;;;
      set_info irq (mk_ipi_info evtchn ipi) ;;;
      bind_evtchn_to_cpu evtchn cpu).

(** *** Pending bits and polling *)

Definition xen_clear_irq_pending (irq : Z) : M unit :=
  evtchn <- evtchn_from_irq irq;;
  when (VALID_EVTCHN evtchn) (clear_evtchn evtchn).

Definition xen_set_irq_pending (irq : Z) : M unit :=
  evtchn <- evtchn_from_irq irq;;
  when (VALID_EVTCHN evtchn) (set_evtchn evtchn).

Definition xen_test_irq_pending (irq : Z) : M bool :=
  evtchn <- evtchn_from_irq irq;;
  if VALID_EVTCHN evtchn then test_evtchn evtchn else ret false.

Definition xen_poll_irq_timeout (irq timeout : Z) : M unit :=
  evtchn <- evtchn_from_irq irq;;
  when (VALID_EVTCHN evtchn)
    (r <- HYPERVISOR_sched_op (SCHEDOP_poll evtchn timeout);;
     BUG_ON (negb (rc r =? 0))).

(** *** [xen_irq_resume] *)

(** The first part of [xen_irq_resume], up to and including the loop
    that clears [evtchn_to_irq]. *)
Definition xen_irq_resume_invalidate : M unit :=
  init_evtchn_cpu_bindings ;;;
  (* New event-channel space is not 'live' yet. *)
  for_each (seqZ 0 NR_EVENT_CHANNELS) mask_evtchn ;;;
  (* No IRQ <-> event-channel mappings. *)
  for_each (seqZ 0 nr_irqs) (fun irq =>
    info <- info_for_irq irq;;
    (* zap event-channel binding *)
    set_info irq (mk_irq_info (info_type info) 0 (info_cpu info) (info_u info))) ;;;
  for_each (seqZ 0 NR_EVENT_CHANNELS) (fun evtchn =>
    set_evtchn_to_irq evtchn (-1)).

(** The rest of [xen_irq_resume]. *)
Definition xen_irq_resume_restore : M unit :=
  for_each (seqZ 0 nr_cpu_ids) (fun cpu =>
    restore_cpu_virqs cpu ;;;
    restore_cpu_ipis cpu) ;;;
  (* Unmask any IRQF_NO_SUSPEND IRQs which are enabled. *)
  for_each (seqZ 0 nr_irqs) (fun irq =>
    desc <- irq_to_desc irq;;
    match desc with
    | None => ret tt
    | Some d =>
      match action d with
      | None => ret tt
      | Some action_flags =>
        if Z.land action_flags IRQF_NO_SUSPEND =? 0 then ret tt
        else if negb (Z.land (status d) IRQ_DISABLED =? 0) then ret tt
        else
          evtchn <- evtchn_from_irq irq;;
          if evtchn =? to_uint (-1) then ret tt
          else unmask_evtchn evtchn
      end
    end) ;;;
  does_unmask <- gets pirq_eoi_does_unmask;;
  when does_unmask
    (r <- HYPERVISOR_physdev_op PHYSDEVOP_pirq_eoi_gmfn;;
     BUG_ON (negb (rc r =? 0))).

Definition xen_irq_resume : M unit :=
  xen_irq_resume_invalidate ;;;
  xen_irq_resume_restore.

End Events.

(** ** The rest of the driver *)

(** Two services that the functions below take from the rest of the
    kernel, their code being outside events.c.  A service may run code
    of this driver again (a chip callback), so it acts on the whole
    state. *)
Class Kernel : Type := {
  notify_remote_via_evtchn : Z -> M unit;
  (* irq, dev_id *)
  free_irq : Z -> Z -> M unit
}.

Section MoreEvents.

Context {plat : Platform} {hv : HvCall} {core : IrqCore} {kern : Kernel}.

Definition irq_from_evtchn (evtchn : Z) : M Z :=
  tbl <- gets evtchn_to_irq;;
  irq <- deref (index tbl evtchn);;
  ret (to_uint irq).

Definition gsi_from_irq (irq : Z) : M Z :=
  info <- info_for_irq irq;;
  (* BUG_ON(info == NULL): info is the address of a table entry *)
  BUG_ON (negb (bool_decide (info_type info = IRQT_PIRQ))) ;;;
  ret (gsi (u_pirq_of (info_u info))).

Definition notify_remote_via_irq (irq : Z) : M unit :=
  evtchn <- evtchn_from_irq irq;;
  when (VALID_EVTCHN evtchn) (notify_remote_via_evtchn evtchn).

(** [identity_mapped_irq(irq)]: the comparison is between unsigned
    values. *)
Definition identity_mapped_irq (irq : Z) : bool :=
  (* identity map all the hardware irqs *)
  irq <? to_uint get_nr_hw_irqs.

Definition shutdown_pirq (irq : Z) : M unit :=
  info <- info_for_irq irq;;
  evtchn <- evtchn_from_irq irq;;
  BUG_ON (negb (bool_decide (info_type info = IRQT_PIRQ))) ;;;
  if negb (VALID_EVTCHN evtchn) then ret tt
  else
    mask_evtchn evtchn ;;;
    r <- HYPERVISOR_event_channel_op (EVTCHNOP_close evtchn);;
    BUG_ON (negb (rc r =? 0)) ;;;
    bind_evtchn_to_cpu evtchn 0 ;;;
    set_evtchn_to_irq evtchn (-1) ;;;
    (* info->evtchn = 0 *)
    info <- info_for_irq irq;;
    set_info irq (mk_irq_info (info_type info) 0 (info_cpu info) (info_u info)).

(** The loop of [find_irq_by_gsi]: [cands] are the values of the loop
    variable still to come. *)
Fixpoint find_irq_by_gsi_loop (cands : list Z) (gsi : Z) : M Z :=
  match cands with
  | [] => ret (-1)
  | irq :: cands' =>
    info <- info_for_irq irq;;
    if negb (bool_decide (info_type info = IRQT_PIRQ))
    then find_irq_by_gsi_loop cands' gsi
    else
      g <- gsi_from_irq irq;;
      if g =? gsi then ret irq
      else find_irq_by_gsi_loop cands' gsi
  end.

Definition find_irq_by_gsi (gsi : Z) : M Z :=
  find_irq_by_gsi_loop (seqZ 0 nr_irqs) gsi.

Definition unbind_from_irqhandler (irq dev_id : Z) : M unit :=
  free_irq irq dev_id ;;;
  unbind_from_irq irq.

Definition xen_send_IPI_one (cpu vector : Z) : M unit :=
  irq <- per_cpu_get ipi_to_irq cpu vector;;
  BUG_ON (irq <? 0) ;;;
  notify_remote_via_irq irq.

Definition resend_irq_on_evtchn (irq : Z) : M Z :=
  evtchn <- evtchn_from_irq irq;;
  if negb (VALID_EVTCHN evtchn) then ret 1
  else
    s <- gets HYPERVISOR_shared_info;;
    masked <- deref (test_and_set_bit evtchn (evtchn_mask s));;
    modify (with_evtchn_mask masked.2) ;;;
    s <- gets HYPERVISOR_shared_info;;
    bits <- deref (set_bit evtchn (evtchn_pending s));;
    modify (with_evtchn_pending bits) ;;;
    when (negb masked.1) (unmask_evtchn evtchn) ;;;
    ret 1.

Definition retrigger_irq (irq : Z) : M Z :=
  evtchn <- evtchn_from_irq irq;;
  if VALID_EVTCHN evtchn then
    sh <- gets HYPERVISOR_shared_info;;
    masked <- deref (test_and_set_bit evtchn (evtchn_mask sh));;
    modify (with_evtchn_mask masked.2) ;;;
    sh <- gets HYPERVISOR_shared_info;;
    bits <- deref (set_bit evtchn (evtchn_pending sh));;
    modify (with_evtchn_pending bits) ;;;
    when (negb masked.1) (unmask_evtchn evtchn) ;;;
    ret 1
  else ret 0.

End MoreEvents.

(** ** Vocabulary of the statements *)

(** The mapping invariants of the driver at one IRQ: the port of the
    IRQ maps back to it, no other port maps to it, and a VIRQ or IPI
    binding has a port. *)
Definition binding_consistent (st : xen_state) (irq : Z) (info : irq_info_t)
    : Prop :=
  index (irq_info st) irq = Some info /\
  (info_evtchn info <> 0 ->
   index (evtchn_to_irq st) (info_evtchn info) = Some irq) /\
  (forall port, index (evtchn_to_irq st) port = Some irq ->
                port = info_evtchn info /\ port <> 0) /\
  (info_type info = IRQT_VIRQ \/ info_type info = IRQT_IPI ->
   info_evtchn info <> 0).

(** [irq_info[irq].evtchn = 0] *)
Definition zap_evtchn (info : irq_info_t) : irq_info_t :=
  mk_irq_info (info_type info) 0 (info_cpu info) (info_u info).

(** The tables that record the bindings are the same in [s] and [s']. *)
Definition same_bindings (s s' : xen_state) : Prop :=
  evtchn_to_irq s' = evtchn_to_irq s /\ irq_info s' = irq_info s /\
  virq_to_irq s' = virq_to_irq s /\ ipi_to_irq s' = ipi_to_irq s.

(** Nothing is left in [st'] of the binding of [port] to [irq] that was
    made from the state [st] and taken back from the state [s2]: the
    record of [irq] is the unbound record, [port] maps to no IRQ, every
    other record and every other port is as in [st], the per-CPU tables
    of the VIRQs and of the IPIs are those of [st], and the one
    hypercall since [s2] has closed [port]. *)
Definition rolled_back (st s2 st' : xen_state) (irq port : Z) : Prop :=
  index (irq_info st') irq = Some mk_unbound_info /\
  (forall j, j <> irq -> index (irq_info st') j = index (irq_info st) j) /\
  index (evtchn_to_irq st') port = Some (-1) /\
  (forall q, q <> port ->
     index (evtchn_to_irq st') q = index (evtchn_to_irq st) q) /\
  virq_to_irq st' = virq_to_irq st /\
  ipi_to_irq st' = ipi_to_irq st /\
  trace st' = trace s2 ++ [Hypercall (EVTCHNOP_close port)].

(** What a [bind_*_to_irqhandler] function must do once the bind step,
    started in [st], has bound [port] to [irq] and [request_irq] has
    returned [retval] in state [s2]: on failure, unbind [irq] and
    return [retval] unchanged, so that a run that returns leaves
    nothing of the binding; on success, return [irq]. *)
Definition irqhandler_outcome {plat : Platform} {hv : HvCall} {core : IrqCore}
    (run : outcome Z) (st : xen_state) (irq port retval : Z)
    (s2 : xen_state) : Prop :=
  (retval <> 0 ->
   run = (unbind_from_irq irq ;;; ret retval) s2 /\
   forall r st', run = Ok r st' ->
     r = retval /\ rolled_back st s2 st' irq port) /\
  (retval = 0 -> run = Ok irq s2).

(** A state in which [unmask_evtchn port] has what it reads:
    interrupts are disabled, the CPU of the port can be looked up, the
    port lies within the shared bitmaps and within the reach of the
    selector word, and the executing CPU has its [vcpu_info]. *)
Definition unmask_ready (st : xen_state) (port : Z) : Prop :=
  irqs_disabled st = true /\
  0 <= port < BITS_PER_LONG * BITS_PER_LONG /\
  (exists home, cpu_from_evtchn port st = Ok home st) /\
  is_Some (test_bit port (evtchn_mask (HYPERVISOR_shared_info st))) /\
  is_Some (test_bit port (evtchn_pending (HYPERVISOR_shared_info st))) /\
  is_Some (index (xen_vcpu st) (smp_processor_id st)).

(** A state in which [startup_pirq irq] has what it reads and writes
    when the event channel [port] is bound to the IRQ: [port] is the
    port the IRQ already has, or the one a successful EVTCHNOP_bind_pirq
    hands out. *)
Definition startup_ready (st : xen_state) (irq : Z) (info : irq_info_t)
    (port : Z) : Prop :=
  is_Some (test_bit (gsi (u_pirq_of (info_u info))) (pirq_needs_eoi_bits st)) /\
  if info_evtchn info =? 0 then
    irqs_disabled st = true /\
    0 < port < BITS_PER_LONG * BITS_PER_LONG /\
    is_Some (index (evtchn_to_irq st) port) /\
    is_Some (test_bit port (evtchn_mask (HYPERVISOR_shared_info st))) /\
    is_Some (test_bit port (evtchn_pending (HYPERVISOR_shared_info st))) /\
    is_Some (index (xen_vcpu st) (smp_processor_id st)) /\
    (exists d, index (irq_descs st) irq = Some (Some d)) /\
    (exists row, index (cpu_evtchn_mask_p st) (info_cpu info) = Some row /\
                 is_Some (test_bit port row)) /\
    (exists row, index (cpu_evtchn_mask_p st) 0 = Some row /\
                 is_Some (test_bit port row))
  else unmask_ready st port.

(** ** More vocabulary *)

(** An IRQ that [find_unbound_irq] takes when it comes to it: it has no
    descriptor, or its descriptor has no chip, or its descriptor has the
    dynamic chip and the IRQ is unbound. *)
Definition irq_unused (st : xen_state) (irq : Z) : Prop :=
  match mjoin (index (irq_descs st) irq) with
  | None => True
  | Some d =>
    chip d = no_irq_chip \/
    (chip d = xen_dynamic_chip /\
     exists info, index (irq_info st) irq = Some info /\
                  info_type info = IRQT_UNBOUND)
  end.

(** Every port is in the port mask of the CPU it is bound to
    ([cpu_from_evtchn]) and of no other CPU. *)
Definition port_cpu_consistent (st : xen_state) : Prop :=
  forall port cpu bits b,
    index (cpu_evtchn_mask_p st) cpu = Some bits ->
    test_bit port bits = Some b ->
    exists home,
      cpu_from_evtchn port st = Ok home st /\ b = bool_decide (cpu = home).

(** No IRQ has two ports. *)
Definition ports_distinct (st : xen_state) : Prop :=
  forall p1 p2 irq,
    index (evtchn_to_irq st) p1 = Some irq ->
    index (evtchn_to_irq st) p2 = Some irq ->
    irq <> -1 -> p1 = p2.

(** The IRQ is a pass-through IRQ for the GSI [g]. *)
Definition pirq_with_gsi (st : xen_state) (irq g : Z) : Prop :=
  exists info,
    index (irq_info st) irq = Some info /\
    info_type info = IRQT_PIRQ /\
    gsi (u_pirq_of (info_u info)) = g.

(** The interrupt that the scan of the upcall hands to the IRQ core
    for a port: that of the IRQ of the port, if the port has one and
    the IRQ has a descriptor. *)
Definition port_event (st : xen_state) (port : Z) : option event :=
  irq ← index (evtchn_to_irq st) port;
  if irq =? -1 then None
  else _ ← mjoin (index (irq_descs st) irq); Some (HandleIrq irq).

(** The positions at or above [bit_idx] of the set bits of a word, in
    increasing order. *)
Definition set_bits_from (w bit_idx : Z) : list Z :=
  filter (fun k => Z.testbit w k = true) (seqZ bit_idx (64 - bit_idx)).

(** A state in which the scan of word [word_idx] on [cpu] stays within
    the tables. *)
Definition scan_ready (st : xen_state) (cpu word_idx : Z) : Prop :=
  0 <= word_idx /\
  word_idx * BITS_PER_LONG + 64 <= Z.of_nat (length (evtchn_to_irq st)) /\
  word_idx <
    Z.of_nat (length (evtchn_pending (HYPERVISOR_shared_info st))) /\
  word_idx < Z.of_nat (length (evtchn_mask (HYPERVISOR_shared_info st))) /\
  0 <= cpu < Z.of_nat (length (current_word_idx st)) /\
  0 <= cpu < Z.of_nat (length (current_bit_idx st)).

(** ** Scenarios *)

(** The constants of the scenarios of the specification: 1024 event
    channels, 64-bit words, two CPUs. *)
Definition scenario_platform : Platform := {|
  NR_EVENT_CHANNELS := 1024;
  NR_VIRQS := 24;
  XEN_NR_IPIS := 4;
  nr_irqs := 512;
  nr_cpu_ids := 2;
  get_nr_irqs_gsi := 16;
  IRQ_DISABLED := 2;
  IRQF_NO_SUSPEND := 16384;
  IRQF_FORCE_RESUME := 32768;
  IRQF_EARLY_RESUME := 131072;
  BIND_PIRQ__WILL_SHARE := 1;
  XENIRQSTAT_needs_eoi := 1
|}.

(** A hypervisor that accepts every hypercall and hands out port 32. *)
Definition hv_accepts : HvCall := {|
  hypervisor := fun _ _ => mk_hv_reply 0 32
|}.

(** A hypervisor that refuses every hypercall with -EBUSY. *)
Definition hv_refuses : HvCall := {|
  hypervisor := fun _ _ => mk_hv_reply (-16) 0
|}.

(** An IRQ core whose descriptor operations allocate and reset
    descriptors, whose [request_irq] returns [request_result], and whose
    interrupt handling is [handler]. *)
Definition irq_core (request_result : Z)
    (handler : Z -> xen_state -> xen_state) : IrqCore := {|
  irq_to_desc_alloc_node := fun irq _ descs =>
    match index descs irq with
    | Some None => <[Z.to_nat irq := Some (mk_irq_desc no_irq_chip None 0 0)]> descs
    | _ => descs
    end;
  dynamic_irq_init_keep_chip_data := fun irq descs =>
    match index descs irq with
    | Some (Some d) =>
      <[Z.to_nat irq := Some (mk_irq_desc no_irq_chip None 2 (affinity d))]> descs
    | _ => descs
    end;
  dynamic_irq_cleanup := fun irq descs =>
    match index descs irq with
    | Some (Some d) =>
      match action d with
      | Some _ => descs
      | None =>
        <[Z.to_nat irq := Some (mk_irq_desc no_irq_chip None 2 (affinity d))]> descs
      end
    | _ => descs
    end;
  set_irq_chip_and_handler_name := fun irq c _ descs =>
    match index descs irq with
    | Some (Some d) =>
      <[Z.to_nat irq := Some (mk_irq_desc c (action d) (status d) (affinity d))]> descs
    | _ => descs
    end;
  request_irq := fun _ _ _ _ _ => ret request_result;
  irq_handler := handler
|}.

(** An IRQ core with handlers that do nothing. *)
Definition quiet_core : IrqCore := irq_core 0 (fun _ s => s).

(** An IRQ core whose [request_irq] fails with -EBUSY. *)
Definition busy_core : IrqCore := irq_core (-16) (fun _ s => s).

(** The state after [xen_init_IRQ]: nothing bound, every port on CPU 0
    and masked, 16 hardware descriptors, interrupts disabled on CPU 0. *)
Definition boot_state : xen_state := {|
  virq_to_irq := replicate 2 (replicate 24 (-1));
  ipi_to_irq := replicate 2 (replicate 4 (-1));
  pirq_eoi_does_unmask := false;
  pirq_needs_eoi_bits := replicate 8 0;
  irq_info := replicate 512 (mk_irq_info IRQT_UNBOUND 0 0 u_zero);
  evtchn_to_irq := replicate 1024 (-1);
  cpu_evtchn_mask_p := [replicate 16 (Z.ones 64); replicate 16 0];
  xed_nesting_count := [0; 0];
  current_word_idx := [0; 0];
  current_bit_idx := [0; 0];
  HYPERVISOR_shared_info :=
    mk_shared_info (replicate 16 0) (replicate 16 (Z.ones 64));
  xen_vcpu := [mk_vcpu_info 0 0; mk_vcpu_info 0 0];
  irq_descs := replicate 16 (Some (mk_irq_desc foreign_chip None 0 0))
               ++ replicate 496 None;
  smp_processor_id := 0;
  irqs_disabled := true;
  trace := []
|}.

(** [port] bound to [irq] with the given [irq_info], on a descriptor
    with the dynamic chip and a registered action. *)
Definition with_binding (port irq : Z) (info : irq_info_t) (s : xen_state)
    : xen_state :=
  with_evtchn_to_irq (<[Z.to_nat port := irq]> (evtchn_to_irq s))
    (with_irq_info (<[Z.to_nat irq := info]> (irq_info s))
       (with_irq_descs
          (<[Z.to_nat irq := Some (mk_irq_desc xen_dynamic_chip (Some 0) 0 0)]>
             (irq_descs s)) s)).

(** A state with the given pending and mask bitmaps and selector of
    CPU 0. *)
Definition with_events (pending mask : list Z) (upcall_pending sel : Z)
    (s : xen_state) : xen_state :=
  with_xen_vcpu (<[0%nat := mk_vcpu_info upcall_pending sel]> (xen_vcpu s))
    (with_shared_info (mk_shared_info pending mask) s).

(** Scenario 2 of the specification: [pending[0] = 0b1010],
    [pending[5] = 0b1], nothing masked, [cpu_mask[0]] all ones, selector
    [(1<<0)|(1<<5)], cursor (0,0); ports 1, 3 and 320 are bound to the
    IRQs 17, 19 and 336. *)
Definition scan_scenario : xen_state :=
  with_binding 1 17 (mk_irq_info IRQT_EVTCHN 1 0 u_zero)
    (with_binding 3 19 (mk_irq_info IRQT_EVTCHN 3 0 u_zero)
       (with_binding 320 336 (mk_irq_info IRQT_EVTCHN 320 0 u_zero)
          (with_events (<[5%nat := 1]> (<[0%nat := 10]> (replicate 16 0)))
             (replicate 16 0) 1 33 boot_state))).

(** Port 3 bound to IRQ 19 and port 64 to IRQ 80.  Handling IRQ 19 ends
    with the unmask of its port (as [ack_dynirq] does); handling IRQ 80
    marks IRQ 19 pending again with [xen_set_irq_pending]. *)
Definition rescan_handler (irq : Z) (s : xen_state) : xen_state :=
  let run (m : M unit) :=
    match m s with
    | Ok _ s' => s'
    | Stop _ => s
    end in
  if irq =? 19 then run (unmask_irq (hv:=hv_accepts) 19)
  else if irq =? 80 then run (xen_set_irq_pending 19)
  else s.

Definition rescan_core : IrqCore := irq_core 0 rescan_handler.

(** The cursor of CPU 0 is at (0, 2); ports 3 and 64 are pending. *)
Definition rescan_scenario : xen_state :=
  with_current_bit_idx [2; 0]
    (with_binding 3 19 (mk_irq_info IRQT_EVTCHN 3 0 u_zero)
       (with_binding 64 80 (mk_irq_info IRQT_EVTCHN 64 0 u_zero)
          (with_events (<[1%nat := 1]> (<[0%nat := 8]> (replicate 16 0)))
             (replicate 16 0) 1 3 boot_state))).


(** Scenario 5 of the specification before the resume, with an
    inter-domain binding added: virq 0 of CPU 1 on port 42 and IRQ 500,
    ipi 0 of CPU 0 on port 17 and IRQ 501, port 33 on IRQ 502. *)
Definition bound_scenario : xen_state :=
  with_virq_to_irq [replicate 24 (-1); <[0%nat := 500]> (replicate 24 (-1))]
    (with_ipi_to_irq [<[0%nat := 501]> (replicate 4 (-1)); replicate 4 (-1)]
       (with_cpu_evtchn_mask_p
          [<[0%nat := Z.clearbit (Z.ones 64) 42]> (replicate 16 (Z.ones 64));
           <[0%nat := Z.setbit 0 42]> (replicate 16 0)]
          (with_binding 42 500 (mk_irq_info IRQT_VIRQ 42 1 (u_virq 0))
             (with_binding 17 501 (mk_irq_info IRQT_IPI 17 0 (u_ipi 0))
                (with_binding 33 502 (mk_irq_info IRQT_EVTCHN 33 0 u_zero)
                   boot_state))))).

(** Scenario 3 of the specification: port 7, bound to IRQ 20 on CPU 0,
    is masked and pending; [sel] and [upcall_pending] are the selector
    word and the upcall flag of CPU 0. *)
Definition unmask_scenario (upcall_pending sel : Z) : xen_state :=
  with_binding 7 20 (mk_irq_info IRQT_EVTCHN 7 0 u_zero)
    (with_events (<[0%nat := 128]> (replicate 16 0))
       (replicate 16 (Z.ones 64)) upcall_pending sel boot_state).

(** Two pass-through IRQs: IRQ 9 (GSI 9) has no port yet; IRQ 10
    (GSI 10) is on port 40, which is masked, and its GSI needs an EOI.
    [does_unmask] is [pirq_eoi_does_unmask]. *)
Definition pirq_scenario (does_unmask : bool) : xen_state :=
  let s :=
    with_pirq_needs_eoi_bits (<[0%nat := Z.setbit 0 10]> (replicate 8 0))
      (with_binding 40 10
         (mk_irq_info IRQT_PIRQ 40 0 (u_pirq (mk_pirq_payload 10 0 0 32752)))
         (with_irq_info
            (<[9%nat := mk_irq_info IRQT_PIRQ 0 0
                          (u_pirq (mk_pirq_payload 9 0 0 32752))]>
               (irq_info boot_state)) boot_state)) in
  mk_xen_state (virq_to_irq s) (ipi_to_irq s) does_unmask
    (pirq_needs_eoi_bits s) (irq_info s) (evtchn_to_irq s)
    (cpu_evtchn_mask_p s) (xed_nesting_count s) (current_word_idx s)
    (current_bit_idx s) (HYPERVISOR_shared_info s) (xen_vcpu s)
    (irq_descs s) (smp_processor_id s) (irqs_disabled s) (trace s).

(** ** More scenarios *)

(** Kernel services that leave the state alone. *)
Definition quiet_kernel : Kernel := {|
  notify_remote_via_evtchn := fun _ => ret tt;
  free_irq := fun _ _ => ret tt
|}.

(** An IRQ core that has no memory for a descriptor: the allocation is
    the only operation that differs from [quiet_core]. *)
Definition no_memory_core : IrqCore := {|
  irq_to_desc_alloc_node := fun _ _ descs => descs;
  dynamic_irq_init_keep_chip_data :=
    dynamic_irq_init_keep_chip_data (IrqCore:=quiet_core);
  dynamic_irq_cleanup := dynamic_irq_cleanup (IrqCore:=quiet_core);
  set_irq_chip_and_handler_name :=
    set_irq_chip_and_handler_name (IrqCore:=quiet_core);
  request_irq := request_irq (IrqCore:=quiet_core);
  irq_handler := irq_handler (IrqCore:=quiet_core)
|}.

(** The state after boot with every descriptor in the hands of another
    driver. *)
Definition crowded_state : xen_state :=
  with_irq_descs (replicate 512 (Some (mk_irq_desc foreign_chip None 0 0)))
    boot_state.

(** Port 34 bound to IRQ 511 on CPU 0, as [bind_evtchn_to_irq] leaves
    it after boot. *)
Definition evtchn_bound_state : xen_state :=
  with_binding 34 511 (mk_irq_info IRQT_EVTCHN 34 0 u_zero) boot_state.

(** Port 7, bound to IRQ 20 on CPU 0, is neither masked nor pending. *)
Definition idle_port_scenario : xen_state :=
  with_binding 7 20 (mk_irq_info IRQT_EVTCHN 7 0 u_zero)
    (with_events (replicate 16 0) (replicate 16 0) 0 0 boot_state).

(** ** Properties *)

(** *** Arrays and bitmaps *)

Lemma index_Some {A} (a : list A) (i : Z) (x : A) :
  index a i = Some x <-> 0 <= i /\ a !! Z.to_nat i = Some x.
Proof.
  unfold index. case_decide; split; intros; try tauto; try discriminate.
Qed.

Lemma index_lt {A} (a : list A) (i : Z) :
  0 <= i < Z.of_nat (length a) -> exists x, index a i = Some x.
Proof.
  intros [Hlo Hhi]. unfold index. rewrite decide_True by done.
  apply lookup_lt_is_Some_2. lia.
Qed.

Lemma index_range {A} (a : list A) (i : Z) (x : A) :
  index a i = Some x -> 0 <= i < Z.of_nat (length a).
Proof.
  rewrite index_Some. intros [Hlo Hx]. apply lookup_lt_Some in Hx. lia.
Qed.

Lemma store_Some {A} (a a' : list A) (i : Z) (x : A) :
  store a i x = Some a' ->
  0 <= i < Z.of_nat (length a) /\ a' = <[Z.to_nat i := x]> a.
Proof.
  unfold store. destruct (index a i) as [y|] eqn:Hy; [|discriminate].
  intros [= <-]. split; [|done]. by eapply index_range.
Qed.

Lemma store_lt {A} (a : list A) (i : Z) (x : A) :
  0 <= i < Z.of_nat (length a) -> store a i x = Some (<[Z.to_nat i := x]> a).
Proof.
  intros Hi. unfold store. destruct (index_lt a i Hi) as [y ->]. done.
Qed.

Lemma store_length {A} (a a' : list A) (i : Z) (x : A) :
  store a i x = Some a' -> length a' = length a.
Proof. intros [_ ->]%store_Some. apply length_insert. Qed.

Lemma index_store_eq {A} (a a' : list A) (i : Z) (x : A) :
  store a i x = Some a' -> index a' i = Some x.
Proof.
  intros [Hi ->]%store_Some. apply index_Some. split; [lia|].
  apply list_lookup_insert_eq. lia.
Qed.

Lemma index_store_ne {A} (a a' : list A) (i j : Z) (x : A) :
  store a i x = Some a' -> i <> j -> index a' j = index a j.
Proof.
  intros [Hi ->]%store_Some Hne. unfold index. case_decide; [|done].
  apply list_lookup_insert_ne. lia.
Qed.

Lemma bit_pos (nr : Z) : 0 <= nr mod BITS_PER_LONG < BITS_PER_LONG.
Proof. apply Z.mod_pos_bound. reflexivity. Qed.

Lemma bit_split (nr nr' : Z) :
  nr / BITS_PER_LONG = nr' / BITS_PER_LONG ->
  nr mod BITS_PER_LONG = nr' mod BITS_PER_LONG -> nr = nr'.
Proof.
  intros Hd Hm.
  rewrite (Z.div_mod nr BITS_PER_LONG), (Z.div_mod nr' BITS_PER_LONG) by done.
  congruence.
Qed.

Lemma word_lt_inv (nr n : Z) :
  0 <= nr / BITS_PER_LONG < n -> 0 <= nr < BITS_PER_LONG * n.
Proof.
  intros Hn. pose proof (bit_pos nr) as Hm.
  pose proof (Z.div_mod nr BITS_PER_LONG ltac:(done)) as Hd.
  unfold BITS_PER_LONG in *. lia.
Qed.

Lemma set_bit_Some (nr : Z) (addr addr' : list Z) :
  set_bit nr addr = Some addr' ->
  0 <= nr < BITS_PER_LONG * Z.of_nat (length addr) /\ length addr' = length addr.
Proof.
  unfold set_bit. destruct (index addr _) as [w|] eqn:Hw; [|discriminate].
  simpl. intros Hs. split; [|by eapply store_length].
  apply index_range in Hw. by apply word_lt_inv.
Qed.

Lemma clear_bit_Some (nr : Z) (addr addr' : list Z) :
  clear_bit nr addr = Some addr' ->
  0 <= nr < BITS_PER_LONG * Z.of_nat (length addr) /\ length addr' = length addr.
Proof.
  unfold clear_bit. destruct (index addr _) as [w|] eqn:Hw; [|discriminate].
  simpl. intros Hs. split; [|by eapply store_length].
  apply index_range in Hw. by apply word_lt_inv.
Qed.

Lemma test_bit_Some (nr : Z) (addr : list Z) (b : bool) :
  test_bit nr addr = Some b ->
  0 <= nr < BITS_PER_LONG * Z.of_nat (length addr).
Proof.
  unfold test_bit. destruct (index addr _) as [w|] eqn:Hw; [|discriminate].
  intros _. apply index_range in Hw. by apply word_lt_inv.
Qed.

Lemma word_lt (nr : Z) (addr : list Z) :
  0 <= nr < BITS_PER_LONG * Z.of_nat (length addr) ->
  0 <= nr / BITS_PER_LONG < Z.of_nat (length addr).
Proof.
  intros Hn. unfold BITS_PER_LONG in *. split.
  - apply Z.div_pos; lia.
  - apply Z.div_lt_upper_bound; lia.
Qed.

Lemma set_bit_lt (nr : Z) (addr : list Z) :
  0 <= nr < BITS_PER_LONG * Z.of_nat (length addr) ->
  exists addr', set_bit nr addr = Some addr'.
Proof.
  intros Hn%word_lt. unfold set_bit.
  destruct (index_lt addr _ Hn) as [w Hw]. rewrite Hw. simpl.
  rewrite store_lt by done. eauto.
Qed.

Lemma clear_bit_lt (nr : Z) (addr : list Z) :
  0 <= nr < BITS_PER_LONG * Z.of_nat (length addr) ->
  exists addr', clear_bit nr addr = Some addr'.
Proof.
  intros Hn%word_lt. unfold clear_bit.
  destruct (index_lt addr _ Hn) as [w Hw]. rewrite Hw. simpl.
  rewrite store_lt by done. eauto.
Qed.

Lemma test_bit_lt (nr : Z) (addr : list Z) :
  0 <= nr < BITS_PER_LONG * Z.of_nat (length addr) ->
  exists b, test_bit nr addr = Some b.
Proof.
  intros Hn%word_lt. unfold test_bit.
  destruct (index_lt addr _ Hn) as [w Hw]. rewrite Hw. simpl. eauto.
Qed.

Lemma test_bit_set_bit (nr nr' : Z) (addr addr' : list Z) :
  set_bit nr addr = Some addr' ->
  test_bit nr' addr' =
    if decide (nr' = nr) then Some true else test_bit nr' addr.
Proof.
  unfold set_bit. destruct (index addr (nr / _)) as [w|] eqn:Hw; [|discriminate].
  simpl. intros Hs. unfold test_bit.
  destruct (decide (nr' / BITS_PER_LONG = nr / BITS_PER_LONG)) as [Hd|Hd].
  - rewrite Hd, (index_store_eq _ _ _ _ Hs), Hw. simpl.
    pose proof (bit_pos nr). pose proof (bit_pos nr').
    case_decide as Hn.
    + subst. by rewrite Z.setbit_eq by lia.
    + rewrite Z.setbit_neq; [done|lia|].
      intros Hm. apply Hn. by apply bit_split.
  - rewrite (index_store_ne _ _ _ _ _ Hs) by done.
    rewrite decide_False; [done|]. by intros ->.
Qed.

Lemma test_bit_clear_bit (nr nr' : Z) (addr addr' : list Z) :
  clear_bit nr addr = Some addr' ->
  test_bit nr' addr' =
    if decide (nr' = nr) then Some false else test_bit nr' addr.
Proof.
  unfold clear_bit. destruct (index addr (nr / _)) as [w|] eqn:Hw; [|discriminate].
  simpl. intros Hs. unfold test_bit.
  destruct (decide (nr' / BITS_PER_LONG = nr / BITS_PER_LONG)) as [Hd|Hd].
  - rewrite Hd, (index_store_eq _ _ _ _ Hs), Hw. simpl.
    pose proof (bit_pos nr). pose proof (bit_pos nr').
    case_decide as Hn.
    + subst. by rewrite Z.clearbit_eq by lia.
    + rewrite Z.clearbit_neq; [done|].
      intros Hm. apply Hn. by apply bit_split.
  - rewrite (index_store_ne _ _ _ _ _ Hs) by done.
    rewrite decide_False; [done|]. by intros ->.
Qed.

(** *** Running the monad *)

Lemma bind_Ok {A B} (m : M A) (k : A -> M B) s b s' :
  bind m k s = Ok b s' -> exists a s1, m s = Ok a s1 /\ k a s1 = Ok b s'.
Proof. unfold bind. destruct (m s) as [a s1|f]; [eauto|discriminate]. Qed.

Lemma bind_eq {A B} (m : M A) (k : A -> M B) s a s1 :
  m s = Ok a s1 -> bind m k s = k a s1.
Proof. unfold bind. by intros ->. Qed.

Lemma deref_Ok {A} (o : option A) s a s' :
  deref o s = Ok a s' -> o = Some a /\ s' = s.
Proof. destruct o; simpl; [by intros [= -> ->]|discriminate]. Qed.

Lemma BUG_ON_Ok (c : bool) s u s' :
  BUG_ON c s = Ok u s' -> c = false /\ s' = s.
Proof. destruct c; simpl; [discriminate|by intros [= <- <-]]. Qed.

Lemma gets_Ok {A} (f : xen_state -> A) s a s' :
  gets f s = Ok a s' -> a = f s /\ s' = s.
Proof. by intros [= <- <-]. Qed.

Lemma modify_Ok (f : xen_state -> xen_state) s u s' :
  modify f s = Ok u s' -> s' = f s.
Proof. by intros [= <-]. Qed.

Lemma ret_Ok {A} (a : A) s b s' :
  ret a s = Ok b s' -> b = a /\ s' = s.
Proof. by intros [= <- <-]. Qed.

Lemma Ok_inj {A} (a b : A) s s' : Ok a s = Ok b s' -> a = b /\ s = s'.
Proof. by intros [= -> ->]. Qed.

Lemma bind_ret {A B} (a : A) (k : A -> M B) s : bind (ret a) k s = k a s.
Proof. reflexivity. Qed.

Lemma bind_gets {A B} (f : xen_state -> A) (k : A -> M B) s :
  bind (gets f) k s = k (f s) s.
Proof. reflexivity. Qed.

Lemma bind_modify {B} (f : xen_state -> xen_state) (k : unit -> M B) s :
  bind (modify f) k s = k tt (f s).
Proof. reflexivity. Qed.

Lemma bind_deref {A B} (a : A) (k : A -> M B) s :
  bind (deref (Some a)) k s = k a s.
Proof. reflexivity. Qed.

Lemma bind_BUG_ON {B} (k : unit -> M B) s :
  bind (BUG_ON false) k s = k tt s.
Proof. reflexivity. Qed.

Lemma bind_bind {A B C} (m : M A) (k : A -> M B) (k' : B -> M C) s :
  bind (bind m k) k' s = bind m (fun a => bind (k a) k') s.
Proof. unfold bind. by destruct (m s). Qed.

Lemma when_true (m : M unit) : when true m = m.
Proof. reflexivity. Qed.

Lemma when_false (m : M unit) : when false m = ret tt.
Proof. reflexivity. Qed.

Create Rewrite HintDb xen_run.
#[export] Hint Rewrite @bind_bind @bind_ret @bind_gets @bind_modify @bind_deref
  @bind_BUG_ON @when_true @when_false : xen_run.

(** Reading a field of an updated state. *)
Ltac sproj :=
  cbn [virq_to_irq ipi_to_irq pirq_eoi_does_unmask pirq_needs_eoi_bits
       irq_info evtchn_to_irq cpu_evtchn_mask_p xed_nesting_count
       current_word_idx current_bit_idx HYPERVISOR_shared_info xen_vcpu
       irq_descs smp_processor_id irqs_disabled trace
       evtchn_pending evtchn_mask
       with_virq_to_irq with_ipi_to_irq with_pirq_needs_eoi_bits
       with_irq_info with_evtchn_to_irq with_cpu_evtchn_mask_p
       with_xed_nesting_count with_current_word_idx with_current_bit_idx
       with_shared_info with_xen_vcpu with_irq_descs with_trace
       with_evtchn_pending with_evtchn_mask].

(** Running the next steps of a computation whose outcome is known. *)
Ltac sproj_all :=
  cbn [virq_to_irq ipi_to_irq pirq_eoi_does_unmask pirq_needs_eoi_bits
       irq_info evtchn_to_irq cpu_evtchn_mask_p xed_nesting_count
       current_word_idx current_bit_idx HYPERVISOR_shared_info xen_vcpu
       irq_descs smp_processor_id irqs_disabled trace
       evtchn_pending evtchn_mask
       with_virq_to_irq with_ipi_to_irq with_pirq_needs_eoi_bits
       with_irq_info with_evtchn_to_irq with_cpu_evtchn_mask_p
       with_xed_nesting_count with_current_word_idx with_current_bit_idx
       with_shared_info with_xen_vcpu with_irq_descs with_trace
       with_evtchn_pending with_evtchn_mask] in *.

Ltac mrun :=
  repeat (progress (autorewrite with xen_run; cbn [negb orb andb fst snd];
                    sproj)).

(** Taking apart a run that returned. *)
Ltac minv :=
  repeat match goal with
  | H : bind _ _ _ = Ok _ _ |- _ =>
    let a := fresh "a" in let s := fresh "s" in let Hm := fresh "Hm" in
    apply bind_Ok in H as (a & s & Hm & H)
  | H : gets _ _ = Ok _ _ |- _ => apply gets_Ok in H; destruct H; subst
  | H : modify _ _ = Ok _ _ |- _ => apply modify_Ok in H; subst
  | H : ret _ _ = Ok _ _ |- _ => apply ret_Ok in H; destruct H; subst
  | H : deref _ _ = Ok _ _ |- _ =>
    let E := fresh "E" in apply deref_Ok in H; destruct H as [H E]; subst
  | H : BUG_ON _ _ = Ok _ _ |- _ =>
    let E := fresh "E" in apply BUG_ON_Ok in H; destruct H as [H E]; subst
  | H : stop _ _ = Ok _ _ |- _ => discriminate H
  | H : Stop _ = Ok _ _ |- _ => discriminate H
  | H : Ok _ _ = Ok _ _ |- _ => apply Ok_inj in H; destruct H; subst
  end.

(** Case analysis on the condition a returned run branched on. *)
Ltac mcase :=
  match goal with
  | H : (if ?b then _ else _) _ = Ok _ _ |- _ => destruct b eqn:?
  end.

(** Following a run that returned through the same steps of another
    computation. *)
Ltac mfollow :=
  repeat match goal with
  | H : bind ?m _ ?s = Ok _ _ |- bind ?m _ ?s = Ok _ _ =>
    let a := fresh "a" in let s1 := fresh "s" in let Hm := fresh "Hm" in
    apply bind_Ok in H as (a & s1 & Hm & H);
    rewrite (bind_eq _ _ _ _ _ Hm)
  end.

(** Case analysis on a condition that a run and the goal share. *)
Ltac mbranch H :=
  match goal with
  | |- (if ?c then _ else _) _ = Ok _ _ => revert H; destruct c; intros H
  end.

(** A [for] loop over [a .. a+n-1] whose body keeps an invariant and
    always returns, returns with the invariant. *)
Lemma for_each_range (P : Z -> xen_state -> Prop) (body : Z -> M unit)
    (a n : Z) (st : xen_state) :
  P a st ->
  (forall i s, a <= i < a + n -> P i s ->
               exists s', body i s = Ok tt s' /\ P (i + 1) s') ->
  0 <= n ->
  exists st', for_each (seqZ a n) body st = Ok tt st' /\ P (a + n) st'.
Proof.
  intros HP Hbody Hn. revert a st HP Hbody.
  pattern n. apply natlike_ind; [| |done].
  - intros a st HP _. rewrite seqZ_nil by done.
    exists st. split; [done|]. by rewrite Z.add_0_r.
  - clear n Hn. intros n Hn IH a st HP Hbody.
    rewrite seqZ_cons by lia. cbn [for_each].
    destruct (Hbody a st ltac:(lia) HP) as (s1 & Hs1 & HP1).
    rewrite (bind_eq _ _ _ _ _ Hs1).
    replace (Z.pred (Z.succ n)) with n by lia.
    destruct (IH (Z.succ a) s1) as (st' & Hst' & HP').
    + by replace (Z.succ a) with (a + 1) by lia.
    + intros i s Hi. apply Hbody. lia.
    + exists st'. split; [done|].
      by replace (a + Z.succ n) with (Z.succ a + n) by lia.
Qed.

Section Properties.

Context {plat : Platform} {hv : HvCall} {core : IrqCore}.

Lemma bind_HYPERVISOR_op {B} (h : hypercall) (k : hv_reply -> M B) s :
  bind (HYPERVISOR_op h) k s =
    k (hypervisor (trace s) h) (with_trace (trace s ++ [Hypercall h]) s).
Proof. reflexivity. Qed.

Lemma info_for_irq_eq st irq info :
  index (irq_info st) irq = Some info -> info_for_irq irq st = Ok info st.
Proof. intros Hi. unfold info_for_irq, bind, gets. by rewrite Hi. Qed.

Lemma evtchn_from_irq_eq st irq info :
  index (irq_info st) irq = Some info ->
  evtchn_from_irq irq st = Ok (info_evtchn info) st.
Proof.
  intros Hi. unfold evtchn_from_irq.
  by rewrite (bind_eq _ _ _ _ _ (info_for_irq_eq _ _ _ Hi)).
Qed.

Lemma per_cpu_get_eq tbl st cpu i row v :
  index (tbl st) cpu = Some row -> index row i = Some v ->
  per_cpu_get tbl cpu i st = Ok v st.
Proof.
  intros Hr Hv. unfold per_cpu_get, bind, gets. rewrite Hr. simpl. by rewrite Hv.
Qed.

(** C9: for an IRQ whose [evtchn] field is 0, clearing and setting the
    pending bit return with the state as it was (so the shared pending
    bitmap is unchanged), testing it returns false, and polling returns
    without a hypercall (the trace, like the rest of the state, is
    unchanged). *)
Theorem unbound_irq_pending_poll_noop st irq info timeout :
  index (irq_info st) irq = Some info ->
  info_evtchn info = 0 ->
  xen_clear_irq_pending irq st = Ok tt st /\
  xen_set_irq_pending irq st = Ok tt st /\
  xen_test_irq_pending irq st = Ok false st /\
  xen_poll_irq_timeout irq timeout st = Ok tt st.
Proof.
  intros Hi Hz.
  unfold xen_clear_irq_pending, xen_set_irq_pending, xen_test_irq_pending,
    xen_poll_irq_timeout.
  rewrite !(bind_eq _ _ _ _ _ (evtchn_from_irq_eq _ _ _ Hi)), Hz.
  repeat split.
Qed.

(** C8: binding a key that is already bound returns the IRQ found in
    the reverse-lookup table and leaves the whole state as it was: no
    descriptor is allocated and the trace gets no hypercall.  This holds
    for [bind_virq_to_irq] over (virq, cpu), for [bind_ipi_to_irq] over
    (ipi, cpu) and for [bind_evtchn_to_irq] over a mapped port. *)
Theorem bind_existing_returns_same_irq st i :
  i <> -1 ->
  (forall virq cpu row,
     index (virq_to_irq st) cpu = Some row -> index row virq = Some i ->
     bind_virq_to_irq virq cpu st = Ok i st) /\
  (forall ipi cpu row,
     index (ipi_to_irq st) cpu = Some row -> index row ipi = Some i ->
     bind_ipi_to_irq ipi cpu st = Ok i st) /\
  (forall evtchn,
     index (evtchn_to_irq st) evtchn = Some i ->
     bind_evtchn_to_irq evtchn st = Ok i st).
Proof.
  intros Hne. apply Z.eqb_neq in Hne. repeat split.
  - intros virq cpu row Hr Hv. unfold bind_virq_to_irq.
    rewrite (bind_eq _ _ _ _ _ (per_cpu_get_eq virq_to_irq _ _ _ _ _ Hr Hv)).
    by rewrite Hne.
  - intros ipi cpu row Hr Hv. unfold bind_ipi_to_irq.
    rewrite (bind_eq _ _ _ _ _ (per_cpu_get_eq ipi_to_irq _ _ _ _ _ Hr Hv)).
    by rewrite Hne.
  - intros evtchn Hv. unfold bind_evtchn_to_irq, bind, gets.
    rewrite Hv. simpl. by rewrite Hne.
Qed.

Lemma cpu_from_evtchn_state st evtchn c st' :
  cpu_from_evtchn evtchn st = Ok c st' -> st' = st.
Proof.
  unfold cpu_from_evtchn, cpu_from_irq, info_for_irq. intros Hc. minv.
  destruct (_ =? _); minv; done.
Qed.

Lemma quot_word (port : Z) :
  0 <= port -> port ÷ BITS_PER_LONG = port / BITS_PER_LONG.
Proof. intros Hp. by apply Z.quot_div_nonneg. Qed.

(** [sync_test_and_set_bit(nr, &word)] on a single word. *)
Lemma test_and_set_bit_word (nr w : Z) :
  0 <= nr < BITS_PER_LONG ->
  test_and_set_bit nr [w] = Some (Z.testbit w nr, [Z.setbit w nr]).
Proof.
  intros Hn. unfold test_and_set_bit, test_bit, set_bit, store.
  rewrite (Z.div_small nr), (Z.mod_small nr) by done. reflexivity.
Qed.

Lemma unmask_evtchn_remote st port home :
  irqs_disabled st = true ->
  cpu_from_evtchn port st = Ok home st ->
  home <> smp_processor_id st ->
  unmask_evtchn port st =
    Ok tt (with_trace (trace st ++ [Hypercall (EVTCHNOP_unmask port)]) st).
Proof.
  intros Hd Hh Hne. unfold unmask_evtchn. mrun.
  rewrite Hd. mrun. rewrite (bind_eq _ _ _ _ _ Hh).
  apply not_eq_sym, Z.eqb_neq in Hne. by rewrite Hne.
Qed.

Lemma unmask_evtchn_local st port m' pend :
  irqs_disabled st = true ->
  cpu_from_evtchn port st = Ok (smp_processor_id st) st ->
  clear_bit port (evtchn_mask (HYPERVISOR_shared_info st)) = Some m' ->
  test_bit port (evtchn_pending (HYPERVISOR_shared_info st)) = Some pend ->
  unmask_evtchn port st =
    if pend then
      (vcpu <- get_vcpu_info (smp_processor_id st);;
       r <- deref (test_and_set_bit (port ÷ BITS_PER_LONG)
                     [evtchn_pending_sel vcpu]);;
       sel <- deref (index r.2 0);;
       set_vcpu_info (smp_processor_id st)
         (mk_vcpu_info (evtchn_upcall_pending vcpu) sel) ;;;
       if negb r.1 then
         set_vcpu_info (smp_processor_id st) (mk_vcpu_info 1 sel)
       else ret tt) (with_evtchn_mask m' st)
    else Ok tt (with_evtchn_mask m' st).
Proof.
  intros Hd Hh Hc Ht. unfold unmask_evtchn. mrun.
  rewrite Hd. mrun. rewrite (bind_eq _ _ _ _ _ Hh).
  rewrite Z.eqb_refl. mrun. rewrite Hc. mrun.
  unfold test_evtchn at 1. mrun.
  rewrite Ht. mrun. by destruct pend.
Qed.

(** The only hypercall of [unmask_evtchn] is the unmask of a port of
    another CPU. *)
Lemma unmask_evtchn_trace st port st' :
  unmask_evtchn port st = Ok tt st' ->
  exists home,
    cpu_from_evtchn port st = Ok home st /\
    trace st' =
      trace st ++
      (if decide (home = smp_processor_id st) then []
       else [Hypercall (EVTCHNOP_unmask port)]).
Proof.
  intros Hu. unfold unmask_evtchn in Hu. revert Hu. mrun.
  destruct (irqs_disabled st); mrun; [|discriminate].
  intros Hu. apply bind_Ok in Hu as (home & s1 & Hh & Hu).
  pose proof (cpu_from_evtchn_state _ _ _ _ Hh) as ->.
  exists home. split; [done|]. revert Hu. case_decide as Hcpu.
  - subst home. rewrite Z.eqb_refl. mrun. rewrite app_nil_r.
    unfold test_evtchn, get_vcpu_info, set_vcpu_info. intros Hu.
    repeat (minv; try mcase); done.
  - apply not_eq_sym, Z.eqb_neq in Hcpu. rewrite Hcpu. mrun.
    unfold HYPERVISOR_event_channel_op. rewrite bind_HYPERVISOR_op. mrun.
    by intros [= <-].
Qed.

(** C4 (as amended): for an IRQ whose port [p] is bound to the executing
    CPU, masked and pending, [unmask_irq] clears [mask[p]], sets bit
    [p / BITS_PER_LONG] of the selector, issues no hypercall, and sets
    [evtchn_upcall_pending] when that selector bit was clear before;
    when the selector bit was already set, [evtchn_upcall_pending] is
    left as it was.  And, for every port, [unmask_evtchn] issues the
    EVTCHNOP_unmask hypercall exactly when the CPU of the port differs
    from the executing CPU. *)
Theorem unmask_local_edge_recovery :
  (forall st irq info v,
     let port := info_evtchn info in
     let cpu := smp_processor_id st in
     index (irq_info st) irq = Some info ->
     0 < port < BITS_PER_LONG * BITS_PER_LONG ->
     irqs_disabled st = true ->
     cpu_from_evtchn port st = Ok cpu st ->
     index (xen_vcpu st) cpu = Some v ->
     test_bit port (evtchn_mask (HYPERVISOR_shared_info st)) = Some true ->
     test_bit port (evtchn_pending (HYPERVISOR_shared_info st)) = Some true ->
     exists st' v',
       unmask_irq irq st = Ok tt st' /\
       test_bit port (evtchn_mask (HYPERVISOR_shared_info st')) = Some false /\
       index (xen_vcpu st') cpu = Some v' /\
       Z.testbit (evtchn_pending_sel v') (port / BITS_PER_LONG) = true /\
       evtchn_upcall_pending v' =
         (if Z.testbit (evtchn_pending_sel v) (port / BITS_PER_LONG)
          then evtchn_upcall_pending v else 1) /\
       trace st' = trace st) /\
  (forall st port home st',
     cpu_from_evtchn port st = Ok home st ->
     unmask_evtchn port st = Ok tt st' ->
     trace st' =
       trace st ++
       (if decide (home = smp_processor_id st) then []
        else [Hypercall (EVTCHNOP_unmask port)])).
Proof.
  split.
  - intros st irq info v port cpu Hi Hp Hd Hh Hv Hm Hpe.
    assert (exists m', clear_bit port
              (evtchn_mask (HYPERVISOR_shared_info st)) = Some m') as [m' Hc].
    { by eapply clear_bit_lt, test_bit_Some. }
    assert (0 <= port / BITS_PER_LONG < BITS_PER_LONG) as Hq.
    { split; [apply Z.div_pos; unfold BITS_PER_LONG; lia|].
      apply Z.div_lt_upper_bound; unfold BITS_PER_LONG in *; lia. }
    pose proof (store_lt (xen_vcpu st) cpu) as Hst.
    destruct (index_range _ _ _ Hv) as [Hc0 Hc1].
    unfold unmask_irq.
    rewrite (bind_eq _ _ _ _ _ (evtchn_from_irq_eq _ _ _ Hi)).
    fold port. unfold VALID_EVTCHN.
    replace (port =? 0) with false by (symmetry; apply Z.eqb_neq; lia).
    simpl. rewrite (unmask_evtchn_local _ _ _ _ Hd Hh Hc Hpe).
    fold cpu. unfold get_vcpu_info. mrun.
    rewrite Hv. mrun.
    rewrite quot_word, test_and_set_bit_word by (done || lia). mrun.
    change (index [?x] 0) with (Some x). mrun.
    unfold set_vcpu_info at 1. mrun.
    rewrite Hst by lia. mrun.
    set (sel := Z.setbit _ _).
    assert (Z.testbit sel (port / BITS_PER_LONG) = true) as Hsel
      by (apply Z.setbit_eq; lia).
    destruct (Z.testbit (evtchn_pending_sel v) _) eqn:Hold; mrun.
    + eexists _, _. split; [reflexivity|]. sproj.
      rewrite (test_bit_clear_bit _ _ _ _ Hc), decide_True by done.
      split; [done|]. split.
      { apply index_Some. split; [done|]. apply list_lookup_insert_eq. lia. }
      done.
    + unfold set_vcpu_info. mrun.
      rewrite store_lt by (rewrite length_insert; lia). mrun.
      eexists _, _. split; [reflexivity|]. sproj.
      rewrite (test_bit_clear_bit _ _ _ _ Hc), decide_True by done.
      split; [done|]. split.
      { apply index_Some. split; [done|]. apply list_lookup_insert_eq.
        rewrite length_insert. lia. }
      done.
  - intros st port home st' Hh Hu.
    apply unmask_evtchn_trace in Hu as (home' & Hh' & ->).
    rewrite Hh in Hh'. by injection Hh' as <-.
Qed.

(** What [bind_evtchn_to_cpu] does when it returns: the descriptor gets
    the new affinity, the port leaves the mask of the CPU the IRQ was on
    and enters the mask of the new CPU, and the IRQ records the new
    CPU. *)
Lemma bind_evtchn_to_cpu_Ok st chn cpu st' :
  bind_evtchn_to_cpu chn cpu st = Ok tt st' ->
  exists irq info descs' masks',
    index (evtchn_to_irq st) chn = Some irq /\
    irq <> -1 /\
    index (irq_info st) irq = Some info /\
    st' = with_irq_info
            (<[Z.to_nat irq := mk_irq_info (info_type info) (info_evtchn info)
                                 (to_ushort cpu) (info_u info)]> (irq_info st))
            (with_cpu_evtchn_mask_p masks' (with_irq_descs descs' st)) /\
    (exists bits, index masks' cpu = Some bits /\
                  test_bit chn bits = Some true) /\
    (info_cpu info <> cpu ->
     exists bits, index masks' (info_cpu info) = Some bits /\
                  test_bit chn bits = Some false).
Proof.
  unfold bind_evtchn_to_cpu, irq_to_desc, cpu_from_irq, cpu_evtchn_mask,
    set_cpu_evtchn_mask, info_for_irq, set_info.
  intros Hb. minv. sproj_all.
  rename select (index (evtchn_to_irq st) chn = Some _) into Hirq.
  rename select ((_ =? -1) = false) into Hne.
  rename select (store (irq_info st) _ _ = Some _) into Hinfo'.
  rename select (clear_bit chn _ = Some _) into Hclear.
  rename select (set_bit chn _ = Some _) into Hset.
  rename select (store (cpu_evtchn_mask_p st) _ _ = Some _) into Hold.
  rename select (store _ cpu _ = Some _) into Hnew.
  simplify_eq.
  apply store_Some in Hinfo' as [_ ->].
  eexists _, _, _, _. split; [done|]. split; [by apply Z.eqb_neq|].
  split; [done|]. split; [done|]. split.
  - eexists. split; [by eapply index_store_eq|].
    by rewrite (test_bit_set_bit _ _ _ _ Hset), decide_True.
  - intros Hcpu. eexists. split.
    + rewrite (index_store_ne _ _ _ _ _ Hnew) by done.
      by eapply index_store_eq.
    + by rewrite (test_bit_clear_bit _ _ _ _ Hclear), decide_True.
Qed.

Lemma per_cpu_set_Ok tbl upd cpu i v st st' :
  per_cpu_set tbl upd cpu i v st = Ok tt st' ->
  exists t' row',
    st' = upd t' st /\ index t' cpu = Some row' /\ index row' i = Some v.
Proof.
  unfold per_cpu_set. intros Hp. minv.
  eexists _, _. split; [done|]. split; by eapply index_store_eq.
Qed.

(** The last step of [unbind_from_irq]: the IRQ is demoted. *)
Lemma unbind_demote_Ok s irq info s' :
  index (irq_info s) irq = Some info ->
  when (negb (bool_decide (info_type info = IRQT_UNBOUND)))
    (set_info irq mk_unbound_info ;;;
     modify (fun s => with_irq_descs
                        (dynamic_irq_cleanup irq (irq_descs s)) s)) s
    = Ok tt s' ->
  exists infos' descs',
    s' = with_irq_descs descs' (with_irq_info infos' s) /\
    exists info', index infos' irq = Some info' /\
                  info_type info' = IRQT_UNBOUND.
Proof.
  intros Hinfo. case_bool_decide as Ht; cbn [negb when].
  - intros Hr. minv. exists (irq_info s), (irq_descs s).
    split; [by destruct s|]. eauto.
  - unfold set_info. intros Hr. minv. sproj_all.
    eexists _, _. split; [done|]. eexists. split; [by eapply index_store_eq|done].
Qed.

(** The [switch] of [unbind_from_irq]: the reverse-map entry of a VIRQ
    or IPI binding is reset. *)
Lemma unbind_switch_Ok s irq evtchn info s' :
  index (irq_info s) irq = Some info ->
  index (evtchn_to_irq s) evtchn = Some irq ->
  match info_type info with
  | IRQT_VIRQ =>
    cpu <- cpu_from_evtchn evtchn;;
    virq <- virq_from_irq irq;;
    per_cpu_set virq_to_irq with_virq_to_irq cpu virq (-1)
  | IRQT_IPI =>
    cpu <- cpu_from_evtchn evtchn;;
    ipi <- ipi_from_irq irq;;
    per_cpu_set ipi_to_irq with_ipi_to_irq cpu ipi (-1)
  | _ => ret tt
  end s = Ok tt s' ->
  irq_info s' = irq_info s /\ evtchn_to_irq s' = evtchn_to_irq s /\
  cpu_evtchn_mask_p s' = cpu_evtchn_mask_p s /\ trace s' = trace s /\
  irq_descs s' = irq_descs s /\
  (info_type info = IRQT_VIRQ ->
   exists row, index (virq_to_irq s') (info_cpu info) = Some row /\
               index row (u_virq_of (info_u info)) = Some (-1)) /\
  (info_type info = IRQT_IPI ->
   exists row, index (ipi_to_irq s') (info_cpu info) = Some row /\
               index row (u_ipi_of (info_u info)) = Some (-1)).
Proof.
  intros Hinfo Hirq.
  assert (cpu_from_evtchn evtchn s = Ok (info_cpu info) s) as Hcpu.
  { unfold cpu_from_evtchn, cpu_from_irq. mrun. rewrite Hirq. mrun.
    pose proof (index_range _ _ _ Hinfo) as [Hlo _].
    replace (irq =? -1) with false by (symmetry; apply Z.eqb_neq; lia).
    by rewrite (bind_eq _ _ _ _ _ (info_for_irq_eq _ _ _ Hinfo)). }
  destruct (info_type info) eqn:Ht.
  1,2,5: intros Hr; minv; repeat split; done.
  - rewrite (bind_eq _ _ _ _ _ Hcpu). unfold virq_from_irq.
    mrun. rewrite (bind_eq _ _ _ _ _ (info_for_irq_eq _ _ _ Hinfo)).
    rewrite Ht. rewrite bool_decide_eq_true_2 by done. mrun.
    intros (t' & row' & -> & Ht' & Hrow')%per_cpu_set_Ok.
    repeat split; try done. eauto.
  - rewrite (bind_eq _ _ _ _ _ Hcpu). unfold ipi_from_irq.
    mrun. rewrite (bind_eq _ _ _ _ _ (info_for_irq_eq _ _ _ Hinfo)).
    rewrite Ht. rewrite bool_decide_eq_true_2 by done. mrun.
    intros (t' & row' & -> & Ht' & Hrow')%per_cpu_set_Ok.
    repeat split; try done. eauto.
Qed.

(** C5: from a state that satisfies the mapping invariants at [irq],
    when [unbind_from_irq irq] returns, the IRQ has type IRQT_UNBOUND,
    no entry of [evtchn_to_irq] is [irq], the per-CPU [virq_to_irq] (or
    [ipi_to_irq]) entry of a VIRQ (or IPI) binding is -1, the trace has
    grown by EVTCHNOP_close of the port exactly when the IRQ had a
    valid port, and that port is then in the port mask of CPU 0 and no
    longer in the mask of the CPU the IRQ was bound to. *)
Theorem unbind_from_irq_post st irq info st' :
  binding_consistent st irq info ->
  unbind_from_irq irq st = Ok tt st' ->
  let evtchn := info_evtchn info in
  (exists info', index (irq_info st') irq = Some info' /\
                 info_type info' = IRQT_UNBOUND) /\
  (forall port, index (evtchn_to_irq st') port <> Some irq) /\
  (info_type info = IRQT_VIRQ ->
   exists row, index (virq_to_irq st') (info_cpu info) = Some row /\
               index row (u_virq_of (info_u info)) = Some (-1)) /\
  (info_type info = IRQT_IPI ->
   exists row, index (ipi_to_irq st') (info_cpu info) = Some row /\
               index row (u_ipi_of (info_u info)) = Some (-1)) /\
  trace st' =
    trace st ++ (if decide (evtchn = 0) then []
                 else [Hypercall (EVTCHNOP_close evtchn)]) /\
  (evtchn <> 0 ->
   (exists bits, index (cpu_evtchn_mask_p st') 0 = Some bits /\
                 test_bit evtchn bits = Some true) /\
   (info_cpu info <> 0 ->
    exists bits, index (cpu_evtchn_mask_p st') (info_cpu info) = Some bits /\
                 test_bit evtchn bits = Some false)).
Proof.
  intros (Hinfo & Hfwd & Hbwd & Hvalid) Hu. cbn zeta.
  unfold unbind_from_irq in Hu.
  rewrite (bind_eq _ _ _ _ _ (evtchn_from_irq_eq _ _ _ Hinfo)) in Hu.
  unfold VALID_EVTCHN in Hu.
  remember (info_evtchn info) as evtchn eqn:Hev in *.
  destruct (decide (evtchn = 0)) as [Hz|Hnz].
  - rewrite Hz in Hu. revert Hu. change (negb (0 =? 0)) with false. mrun.
    rewrite (bind_eq _ _ _ _ _ (info_for_irq_eq _ _ _ Hinfo)).
    intros (infos' & descs' & -> & Hunb)%(unbind_demote_Ok _ _ _ _ Hinfo).
    sproj. split; [done|]. split.
    { intros port Hp. apply Hbwd in Hp as [-> Hp]. done. }
    split; [intros Ht; exfalso; apply Hvalid; [by left|done]|].
    split; [intros Ht; exfalso; apply Hvalid; [by right|done]|].
    split; [by rewrite app_nil_r|]. intros Hne. done.
  - specialize (Hfwd Hnz).
    revert Hu. replace (negb (evtchn =? 0)) with true
      by (symmetry; apply negb_true_iff, Z.eqb_neq; done).
    unfold HYPERVISOR_event_channel_op, type_from_irq. mrun.
    rewrite bind_HYPERVISOR_op. mrun.
    destruct (rc _ =? 0); cbn [negb]; [mrun|discriminate].
    unfold info_for_irq at 1. mrun. rewrite Hinfo. mrun.
    intros Hu. apply bind_Ok in Hu as ([] & s2 & Hsw & Hu).
    eapply unbind_switch_Ok in Hsw
      as (Hi2 & He2 & Hc2 & Ht2 & Hd2 & Hvirq & Hipi);
      [|exact Hinfo|exact Hfwd].
    apply bind_Ok in Hu as ([] & s4 & Hb & Hu).
    apply bind_Ok in Hb as ([] & s3 & Hb & Hset).
    apply bind_evtchn_to_cpu_Ok in Hb
      as (irq0 & info0 & descs' & masks' & Hirq0 & _ & Hinfo0 & -> & Hm0 & Hmold).
    rewrite He2 in Hirq0. rewrite Hi2 in Hinfo0. sproj_all.
    assert (irq0 = irq) as -> by congruence.
    assert (info0 = info) as -> by congruence.
    revert Hu. unfold set_evtchn_to_irq in Hset. minv. sproj_all.
    rename select (store _ _ (-1) = Some _) into Htbl. rewrite He2 in Htbl.
    sproj_all.
    destruct (index_range _ _ _ Hinfo) as [Hlo Hhi].
    set (s4 := with_evtchn_to_irq _ _).
    unfold info_for_irq at 1. mrun.
    assert (index (irq_info s4) irq =
            Some (mk_irq_info (info_type info) (info_evtchn info)
                    (to_ushort 0) (info_u info))) as Hinfo4.
    { unfold s4. sproj. rewrite Hi2. sproj. apply index_Some. split; [done|].
      apply list_lookup_insert_eq. lia. }
    rewrite Hinfo4. mrun.
    intros Hu. eapply (unbind_demote_Ok s4 irq) in Hu
      as (infos' & descs'' & -> & Hunb); [|exact Hinfo4].
    unfold s4. sproj. split; [done|]. split.
    { intros port Hp.
      destruct (decide (port = info_evtchn info)) as [->|Hne].
      - rewrite (index_store_eq _ _ _ _ Htbl) in Hp. simplify_eq.
      - rewrite (index_store_ne _ _ _ _ _ Htbl) in Hp by done.
        apply Hbwd in Hp as [? _]. done. }
    split; [done|]. split; [done|]. split; [by rewrite Ht2|].
    intros _. split; [done|]. intros Hcpu. apply Hmold. done.
Qed.

Lemma mask_all_evtchns st n :
  0 <= n <= BITS_PER_LONG *
            Z.of_nat (length (evtchn_mask (HYPERVISOR_shared_info st))) ->
  exists m,
    for_each (seqZ 0 n) mask_evtchn st = Ok tt (with_evtchn_mask m st) /\
    forall port, 0 <= port < n -> test_bit port m = Some true.
Proof.
  intros Hn.
  set (m0 := evtchn_mask (HYPERVISOR_shared_info st)) in *.
  destruct (for_each_range
    (fun i s => exists m, s = with_evtchn_mask m st /\
       length m = length m0 /\
       forall port, 0 <= port < i -> test_bit port m = Some true)
    mask_evtchn 0 n st) as (st' & Hrun & m & -> & _ & Hm).
  - exists m0. split; [by destruct st as [? ? ? ? ? ? ? ? ? ? []]|].
    split; [done|]. intros port ?. lia.
  - intros i s Hi (m & -> & Hlen & Hm).
    destruct (set_bit_lt i m) as [m' Hm']; [rewrite Hlen; lia|].
    exists (with_evtchn_mask m' st). split.
    + unfold mask_evtchn. mrun. rewrite Hm'. by mrun.
    + exists m'. split; [done|]. split.
      * apply set_bit_Some in Hm' as [_ ->]. done.
      * intros port Hp. rewrite (test_bit_set_bit _ _ _ _ Hm').
        case_decide; [done|]. apply Hm. lia.
  - lia.
  - exists m. split; [done|]. intros port Hp. apply Hm. lia.
Qed.

Lemma zap_all_evtchns st :
  for_each (seqZ 0 (Z.of_nat (length (irq_info st)))) (fun irq =>
    info <- info_for_irq irq;;
    set_info irq (mk_irq_info (info_type info) 0 (info_cpu info)
                    (info_u info))) st
  = Ok tt (with_irq_info (zap_evtchn <$> irq_info st) st).
Proof.
  set (l0 := irq_info st).
  set (body := fun irq : Z => _).
  destruct (for_each_range
    (fun i s => exists l, s = with_irq_info l st /\
       length l = length l0 /\
       forall k : nat, l !! k = if decide (Z.of_nat k < i)
                                then zap_evtchn <$> l0 !! k else l0 !! k)
    body 0 (Z.of_nat (length l0)) st)
    as (st' & Hrun & l & -> & Hlen & Hl); [| |apply Nat2Z.is_nonneg|].
  - exists l0. split; [by destruct st|]. split; [done|].
    intros k. by rewrite decide_False by lia.
  - intros i s Hi (l & -> & Hlen & Hl). subst l0 body.
    assert (exists x, irq_info st !! Z.to_nat i = Some x) as [x Hx]
      by (apply lookup_lt_is_Some_2; lia).
    assert (index l i = Some x) as Hix.
    { apply index_Some. split; [lia|]. rewrite Hl, decide_False by lia. done. }
    eexists. split.
    + unfold info_for_irq, set_info. mrun. rewrite Hix. mrun.
      rewrite store_lt by lia. mrun. reflexivity.
    + eexists. split; [done|]. split; [by rewrite length_insert|].
      intros k. destruct (decide (k = Z.to_nat i)) as [->|Hk].
      * rewrite list_lookup_insert_eq by lia.
        rewrite decide_True by lia. by rewrite Hx.
      * rewrite list_lookup_insert_ne by done. rewrite Hl.
        repeat case_decide; (done || lia).
  - subst l0. rewrite Hrun. f_equal. f_equal.
    apply list_eq. intros k. rewrite Hl, list_lookup_fmap.
    case_decide as Hk; [done|].
    rewrite !lookup_ge_None_2; (done || lia).
Qed.

Lemma clear_all_evtchn_to_irq st :
  for_each (seqZ 0 (Z.of_nat (length (evtchn_to_irq st))))
    (fun evtchn => set_evtchn_to_irq evtchn (-1)) st
  = Ok tt (with_evtchn_to_irq
             (replicate (length (evtchn_to_irq st)) (-1)) st).
Proof.
  set (l0 := evtchn_to_irq st).
  destruct (for_each_range
    (fun i s => exists l, s = with_evtchn_to_irq l st /\
       length l = length l0 /\
       forall k : nat, l !! k = if decide (Z.of_nat k < i)
                                then (fun _ => -1) <$> l0 !! k else l0 !! k)
    (fun evtchn => set_evtchn_to_irq evtchn (-1)) 0 (Z.of_nat (length l0)) st)
    as (st' & Hrun & l & -> & Hlen & Hl); [| |apply Nat2Z.is_nonneg|].
  - exists l0. split; [by destruct st|]. split; [done|].
    intros k. by rewrite decide_False by lia.
  - intros i s Hi (l & -> & Hlen & Hl). subst l0.
    eexists. split.
    + unfold set_evtchn_to_irq. mrun.
      rewrite store_lt by lia. mrun. reflexivity.
    + eexists. split; [done|]. split; [by rewrite length_insert|].
      intros k. destruct (decide (k = Z.to_nat i)) as [->|Hk].
      * rewrite list_lookup_insert_eq by lia.
        rewrite decide_True by lia.
        destruct (lookup_lt_is_Some_2 (evtchn_to_irq st) (Z.to_nat i))
          as [x ->]; [lia|done].
      * rewrite list_lookup_insert_ne by done. rewrite Hl.
        repeat case_decide; (done || lia).
  - subst l0. rewrite Hrun. f_equal. f_equal.
    apply list_eq. intros k. rewrite Hl.
    case_decide as Hk.
    + rewrite lookup_replicate_2 by lia.
      destruct (lookup_lt_is_Some_2 (evtchn_to_irq st) k) as [x ->]; [lia|done].
    + rewrite !lookup_ge_None_2; [done|rewrite length_replicate; lia|lia].
Qed.

Lemma init_evtchn_cpu_bindings_Ok st :
  0 <= nr_cpu_ids <= Z.of_nat (length (cpu_evtchn_mask_p st)) ->
  exists masks descs,
    init_evtchn_cpu_bindings st =
      Ok tt (with_cpu_evtchn_mask_p masks (with_irq_descs descs st)).
Proof.
  intros Hn. unfold init_evtchn_cpu_bindings. mrun.
  set (s0 := with_irq_descs _ st).
  destruct (for_each_range
    (fun i s => exists l, s = with_cpu_evtchn_mask_p l s0 /\
       length l = length (cpu_evtchn_mask_p st))
    (fun i => set_cpu_evtchn_mask i
                (replicate (Z.to_nat (NR_EVENT_CHANNELS / BITS_PER_LONG))
                   (if i =? 0 then Z.ones 64 else 0)))
    0 nr_cpu_ids s0) as (st' & Hrun & l & -> & Hlen); [| |lia|].
  - exists (cpu_evtchn_mask_p st). split; [by destruct st|done].
  - intros i s Hi (l & -> & Hlen).
    eexists. split.
    + unfold set_cpu_evtchn_mask. mrun. rewrite store_lt by lia. mrun.
      reflexivity.
    + eexists. split; [done|]. by rewrite length_insert.
  - eexists _, _. exact Hrun.
Qed.

(** C6: the first part of [xen_irq_resume] returns, and then every
    [irq_info] record has [evtchn] 0 with its type, cpu and union as
    before, every entry of [evtchn_to_irq] is -1, and every port is
    masked in the shared bitmap. *)
Theorem resume_invalidate_post st :
  0 <= nr_cpu_ids <= Z.of_nat (length (cpu_evtchn_mask_p st)) ->
  nr_irqs = Z.of_nat (length (irq_info st)) ->
  NR_EVENT_CHANNELS = Z.of_nat (length (evtchn_to_irq st)) ->
  NR_EVENT_CHANNELS <=
    BITS_PER_LONG * Z.of_nat (length (evtchn_mask (HYPERVISOR_shared_info st))) ->
  exists st',
    xen_irq_resume_invalidate st = Ok tt st' /\
    irq_info st' = zap_evtchn <$> irq_info st /\
    evtchn_to_irq st' = replicate (Z.to_nat NR_EVENT_CHANNELS) (-1) /\
    forall port, 0 <= port < NR_EVENT_CHANNELS ->
      test_bit port (evtchn_mask (HYPERVISOR_shared_info st')) = Some true.
Proof.
  intros Hcpu Hirqs Hchn Hmask. unfold xen_irq_resume_invalidate.
  destruct (init_evtchn_cpu_bindings_Ok st Hcpu) as (masks & descs & Hinit).
  rewrite (bind_eq _ _ _ _ _ Hinit).
  set (s1 := with_cpu_evtchn_mask_p _ _).
  destruct (mask_all_evtchns s1 NR_EVENT_CHANNELS) as (m & Hm & Hbits).
  { unfold s1. sproj. lia. }
  rewrite (bind_eq _ _ _ _ _ Hm).
  set (s2 := with_evtchn_mask _ _).
  rewrite Hirqs. change (irq_info st) with (irq_info s2) at 1.
  rewrite (bind_eq _ _ _ _ _ (zap_all_evtchns s2)).
  set (s3 := with_irq_info _ _).
  rewrite Hchn. change (evtchn_to_irq st) with (evtchn_to_irq s3) at 1.
  rewrite clear_all_evtchn_to_irq.
  eexists. split; [reflexivity|]. unfold s3, s2, s1. sproj.
  split; [done|]. split; [by rewrite Nat2Z.id|].
  intros port Hp. apply Hbits. lia.
Qed.

(** [pirq_eoi]: an unmask unless the EOI does it, then the EOI if the
    GSI needs one. *)
Lemma pirq_eoi_eq st irq info need :
  index (irq_info st) irq = Some info ->
  info_type info = IRQT_PIRQ ->
  test_bit (gsi (u_pirq_of (info_u info))) (pirq_needs_eoi_bits st)
    = Some need ->
  pirq_eoi irq st =
    ((if negb need || negb (pirq_eoi_does_unmask st)
      then unmask_evtchn (info_evtchn info) else ret tt) ;;;
     (if need
      then modify (fun s => with_trace
             (trace s ++ [Hypercall
                (PHYSDEVOP_eoi (gsi (u_pirq_of (info_u info))))]) s)
      else ret tt)) st.
Proof.
  intros Hinfo Htype Hneed. unfold pirq_eoi.
  rewrite (bind_eq _ _ _ _ _ (info_for_irq_eq _ _ _ Hinfo)).
  unfold pirq_needs_eoi. mrun.
  rewrite (bind_eq _ _ _ _ _ (info_for_irq_eq _ _ _ Hinfo)).
  rewrite Htype, bool_decide_eq_true_2 by done. mrun.
  rewrite Hneed. mrun. unfold when, bind.
  destruct (negb need || negb (pirq_eoi_does_unmask st));
    [destruct (unmask_evtchn _ st)|]; try done; by destruct need.
Qed.

(** C2 (as amended): [pirq_eoi] calls [unmask_evtchn] on the port
    exactly when the GSI's bit in [pirq_needs_eoi_bits] is clear or the
    hypervisor did NOT take over the unmask ([pirq_eoi_does_unmask] is
    false), and it issues PHYSDEVOP_eoi for the GSI exactly when the bit
    is set.  In a run that returns, the trace grows by at most an
    EVTCHNOP_unmask of the port, followed by the EOI exactly when the
    bit is set; with the bit set and [pirq_eoi_does_unmask] true the EOI
    is all that happens. *)
Theorem pirq_eoi_unmask_and_eoi st irq info need :
  index (irq_info st) irq = Some info ->
  info_type info = IRQT_PIRQ ->
  test_bit (gsi (u_pirq_of (info_u info))) (pirq_needs_eoi_bits st)
    = Some need ->
  let g := gsi (u_pirq_of (info_u info)) in
  let port := info_evtchn info in
  let eoi : M unit :=
    if need
    then modify (fun s => with_trace (trace s ++ [Hypercall (PHYSDEVOP_eoi g)]) s)
    else ret tt in
  pirq_eoi irq st =
    ((if negb need || negb (pirq_eoi_does_unmask st)
      then unmask_evtchn port else ret tt) ;;; eoi) st /\
  (need = true -> pirq_eoi_does_unmask st = true ->
   pirq_eoi irq st =
     Ok tt (with_trace (trace st ++ [Hypercall (PHYSDEVOP_eoi g)]) st)) /\
  (forall st', pirq_eoi irq st = Ok tt st' ->
     exists pre,
       trace st' =
         trace st ++ pre ++
         (if need then [Hypercall (PHYSDEVOP_eoi g)] else []) /\
       (pre = [] \/ pre = [Hypercall (EVTCHNOP_unmask port)])).
Proof.
  intros Hinfo Htype Hneed g port eoi.
  pose proof (pirq_eoi_eq _ _ _ _ Hinfo Htype Hneed) as Heq.
  fold g port eoi in Heq.
  split; [exact Heq|]. split.
  - intros -> Hd. rewrite Heq, Hd. reflexivity.
  - intros st'. rewrite Heq. intros Hr.
    apply bind_Ok in Hr as ([] & s1 & Hu & He).
    assert (trace st' =
            trace s1 ++ (if need then [Hypercall (PHYSDEVOP_eoi g)] else []))
      as ->.
    { unfold eoi in He. destruct need; minv; [done|by rewrite app_nil_r]. }
    destruct (negb need || negb (pirq_eoi_does_unmask st)).
    + apply unmask_evtchn_trace in Hu as (home & _ & ->).
      eexists. split; [by rewrite app_assoc|].
      case_decide; [by left|by right].
    + minv. exists []. split; [done|by left].
Qed.

(** Whatever else it does, [unbind_from_irq] leaves the IRQ unbound. *)
Lemma unbind_from_irq_unbound st irq st' :
  unbind_from_irq irq st = Ok tt st' ->
  exists info', index (irq_info st') irq = Some info' /\
                info_type info' = IRQT_UNBOUND.
Proof.
  unfold unbind_from_irq. intros Hu.
  apply bind_Ok in Hu as (evtchn & s0 & _ & Hu).
  apply bind_Ok in Hu as ([] & s1 & _ & Hu).
  apply bind_Ok in Hu as (info & s2 & Hinfo & Hu).
  unfold info_for_irq in Hinfo. minv.
  rename select (index _ irq = Some _) into Hinfo.
  apply (unbind_demote_Ok _ _ _ _ Hinfo) in Hu
    as (infos' & descs' & -> & Hunb). done.
Qed.

Lemma to_int_small (i : Z) : 0 <= i < 2 ^ 31 -> to_int i = i.
Proof.
  intros Hi. unfold to_int.
  rewrite Z.mod_small by lia. by rewrite decide_True by lia.
Qed.

Lemma unmask_evtchn_returns st port :
  unmask_ready st port -> exists st', unmask_evtchn port st = Ok tt st'.
Proof.
  intros (Hd & Hport & [home Hh] & [bm Hbm] & [bp Hbp] & [v Hv]).
  destruct (decide (home = smp_processor_id st)) as [->|Hne].
  - destruct (clear_bit_lt port (evtchn_mask (HYPERVISOR_shared_info st)))
      as [m' Hc]; [by eapply test_bit_Some|].
    rewrite (unmask_evtchn_local _ _ _ _ Hd Hh Hc Hbp).
    destruct bp; [|eauto].
    assert (0 <= port / BITS_PER_LONG < BITS_PER_LONG) as Hq.
    { split; [apply Z.div_pos; unfold BITS_PER_LONG; lia|].
      apply Z.div_lt_upper_bound; unfold BITS_PER_LONG in *; lia. }
    destruct (index_range _ _ _ Hv) as [Hc0 Hc1].
    unfold get_vcpu_info, set_vcpu_info. mrun. rewrite Hv. mrun.
    rewrite quot_word, test_and_set_bit_word by (done || lia). mrun.
    change (index [?x] 0) with (Some x). mrun.
    rewrite store_lt by lia. mrun.
    destruct (negb _); mrun; [|eauto].
    rewrite store_lt by (rewrite length_insert; lia). mrun. eauto.
  - rewrite (unmask_evtchn_remote _ _ _ Hd Hh Hne). eauto.
Qed.

Lemma pirq_eoi_returns st irq info :
  index (irq_info st) irq = Some info ->
  info_type info = IRQT_PIRQ ->
  is_Some (test_bit (gsi (u_pirq_of (info_u info))) (pirq_needs_eoi_bits st)) ->
  unmask_ready st (info_evtchn info) ->
  exists st', pirq_eoi irq st = Ok tt st'.
Proof.
  intros Hinfo Htype [need Hneed] Hready.
  rewrite (pirq_eoi_eq _ _ _ _ Hinfo Htype Hneed).
  destruct (unmask_evtchn_returns _ _ Hready) as [s1 Hs1].
  destruct (negb need || negb (pirq_eoi_does_unmask st)).
  - rewrite (bind_eq _ _ _ _ _ Hs1). destruct need; mrun; eauto.
  - mrun. destruct need; mrun; eauto.
Qed.

(** [pirq_query_unmask] returns when the GSI lies within the bitmap; it
    touches the bitmap (keeping its size) and the trace only. *)
Lemma pirq_query_unmask_returns st irq info :
  index (irq_info st) irq = Some info ->
  info_type info = IRQT_PIRQ ->
  is_Some (test_bit (gsi (u_pirq_of (info_u info))) (pirq_needs_eoi_bits st)) ->
  exists bits tr,
    pirq_query_unmask irq st =
      Ok tt (with_pirq_needs_eoi_bits bits (with_trace tr st)) /\
    is_Some (test_bit (gsi (u_pirq_of (info_u info))) bits).
Proof.
  intros Hinfo Htype [b Hb]. unfold pirq_query_unmask. mrun.
  destruct (pirq_eoi_does_unmask st) eqn:Hdu.
  { exists (pirq_needs_eoi_bits st), (trace st).
    split; [by destruct st|eauto]. }
  rewrite (bind_eq _ _ _ _ _ (info_for_irq_eq _ _ _ Hinfo)).
  rewrite Htype, bool_decide_eq_true_2 by done. mrun.
  unfold HYPERVISOR_physdev_op. rewrite bind_HYPERVISOR_op. mrun.
  pose proof (test_bit_Some _ _ _ Hb) as Hrange.
  destruct (clear_bit_lt _ _ Hrange) as [bits1 Hc]. rewrite Hc. mrun.
  pose proof (clear_bit_Some _ _ _ Hc) as [_ Hlen].
  destruct (negb (Z.land _ _ =? 0)); mrun.
  - destruct (set_bit_lt (gsi (u_pirq_of (info_u info))) bits1)
      as [bits2 Hs]; [by rewrite Hlen|].
    rewrite Hs. mrun. eexists _, _. split; [reflexivity|].
    apply set_bit_Some in Hs as [_ Hlen2].
    apply test_bit_lt. by rewrite Hlen2, Hlen.
  - eexists _, _. split; [reflexivity|].
    apply test_bit_lt. by rewrite Hlen.
Qed.

Lemma bind_evtchn_to_cpu_returns st chn cpu irq info d row_old row_new :
  index (evtchn_to_irq st) chn = Some irq ->
  index (irq_info st) irq = Some info ->
  index (irq_descs st) irq = Some (Some d) ->
  index (cpu_evtchn_mask_p st) (info_cpu info) = Some row_old ->
  is_Some (test_bit chn row_old) ->
  index (cpu_evtchn_mask_p st) cpu = Some row_new ->
  is_Some (test_bit chn row_new) ->
  exists st', bind_evtchn_to_cpu chn cpu st = Ok tt st'.
Proof.
  intros Hirq Hinfo Hdesc Hold [bo Hbo] Hnew [bn Hbn].
  pose proof (index_range _ _ _ Hinfo) as Hri.
  pose proof (index_range _ _ _ Hdesc) as Hrd.
  pose proof (index_range _ _ _ Hold) as Hro.
  pose proof (index_range _ _ _ Hnew) as Hrn.
  unfold bind_evtchn_to_cpu, irq_to_desc, cpu_from_irq, cpu_evtchn_mask,
    set_cpu_evtchn_mask, set_info, info_for_irq. mrun.
  rewrite Hirq. mrun.
  replace (irq =? -1) with false by (symmetry; apply Z.eqb_neq; lia). mrun.
  rewrite Hdesc. cbn [mjoin option_join]. mrun.
  rewrite store_lt by done. mrun.
  rewrite Hinfo. mrun. rewrite Hold. mrun.
  destruct (clear_bit_lt chn row_old) as [row1 Hc]; [by eapply test_bit_Some|].
  rewrite Hc. mrun. rewrite store_lt by done. mrun.
  pose proof (clear_bit_Some _ _ _ Hc) as [_ Hlen1].
  assert (exists row2, index (<[Z.to_nat (info_cpu info) := row1]>
                                (cpu_evtchn_mask_p st)) cpu = Some row2 /\
                       length row2 = length (if decide (info_cpu info = cpu)
                                             then row_old else row_new))
    as (row2 & Hrow2 & Hlen2).
  { case_decide as Hc'.
    - subst cpu. exists row1. split; [|done]. apply index_Some. split; [lia|].
      apply list_lookup_insert_eq. lia.
    - exists row_new. split; [|done]. apply index_Some. split; [lia|].
      rewrite list_lookup_insert_ne by lia. by apply index_Some in Hnew as [_ ?]. }
  rewrite Hrow2. mrun.
  destruct (set_bit_lt chn row2) as [row3 Hs].
  { rewrite Hlen2. case_decide; by eapply test_bit_Some. }
  rewrite Hs. mrun. rewrite store_lt by (rewrite length_insert; lia). mrun.
  rewrite Hinfo. mrun.
  rewrite store_lt by done. mrun. eauto.
Qed.

(** C10: whenever [startup_pirq] returns, it returns 0, whatever the
    hypervisor answers.  When the EVTCHNOP_bind_pirq hypercall fails, it
    returns 0 at once, the hypercall being the only thing that
    happened.  And in a state that has what the function reads and
    writes, it does return 0, both when the IRQ already has a port (the
    bind is skipped) and when the hypercall succeeds. *)
Theorem startup_pirq_returns_zero st irq :
  (forall r st', startup_pirq irq st = Ok r st' -> r = 0) /\
  (forall info,
     index (irq_info st) irq = Some info ->
     info_type info = IRQT_PIRQ ->
     let p := u_pirq_of (info_u info) in
     let h := EVTCHNOP_bind_pirq (gsi p)
                (if negb (Z.land (flags p) PIRQ_SHAREABLE =? 0)
                 then BIND_PIRQ__WILL_SHARE else 0) in
     let reply := hypervisor (trace st) h in
     (info_evtchn info = 0 -> rc reply <> 0 ->
      startup_pirq irq st =
        Ok 0 (with_trace (trace st ++ [Hypercall h]) st)) /\
     (info_evtchn info = 0 -> rc reply = 0 ->
      startup_ready st irq info (out reply) ->
      exists st', startup_pirq irq st = Ok 0 st') /\
     (info_evtchn info <> 0 ->
      startup_ready st irq info (info_evtchn info) ->
      exists st', startup_pirq irq st = Ok 0 st')).
Proof.
  split.
  - intros r st'. unfold startup_pirq. intros Hs.
    apply bind_Ok in Hs as (info & s0 & _ & Hs).
    apply bind_Ok in Hs as (evtchn & s1 & _ & Hs).
    apply bind_Ok in Hs as ([] & s2 & _ & Hs).
    destruct (VALID_EVTCHN evtchn).
    + apply bind_Ok in Hs as ([] & s3 & _ & Hs). by minv.
    + apply bind_Ok in Hs as (reply & s3 & _ & Hs).
      destruct (negb (rc reply =? 0)); [by minv|].
      do 6 (apply bind_Ok in Hs as (? & ? & _ & Hs)). by minv.
  - intros info Hinfo Htype p h reply. unfold startup_pirq.
    rewrite (bind_eq _ _ _ _ _ (info_for_irq_eq _ _ _ Hinfo)).
    rewrite (bind_eq _ _ _ _ _ (evtchn_from_irq_eq _ _ _ Hinfo)).
    rewrite Htype, bool_decide_eq_true_2 by done. mrun.
    unfold VALID_EVTCHN. split; [|split].
    + intros -> Hrc. cbn [Z.eqb negb].
      unfold HYPERVISOR_event_channel_op. rewrite bind_HYPERVISOR_op.
      fold p. fold h. fold reply. apply Z.eqb_neq in Hrc. by rewrite Hrc.
    + intros Hz Hrc [Hgsi Hready]. rewrite Hz in Hready |- *.
      cbn [Z.eqb negb] in Hready |- *.
      destruct Hready as (Hdis & Hport & [e He] & Hbm & Hbp & Hv & [d Hd]
                          & (row_old & Hold & Hbo) & (row0 & Hrow0 & Hb0)).
      unfold HYPERVISOR_event_channel_op. rewrite bind_HYPERVISOR_op.
      fold p. fold h. fold reply. rewrite Hrc. cbn [Z.eqb negb].
      set (port := out reply) in *.
      set (s1 := with_trace _ st).
      destruct (pirq_query_unmask_returns s1 irq info Hinfo Htype Hgsi)
        as (bits & tr & Hq & Hbits).
      rewrite (bind_eq _ _ _ _ _ Hq).
      unfold set_evtchn_to_irq. mrun.
      rewrite store_lt by (by eapply index_range). mrun.
      set (s3 := with_evtchn_to_irq _ _).
      pose proof (index_range _ _ _ He) as Hre.
      pose proof (index_range _ _ _ Hinfo) as Hri.
      assert (index (evtchn_to_irq s3) port = Some irq) as Htbl3.
      { unfold s3, s1. sproj. apply index_Some. split; [lia|].
        apply list_lookup_insert_eq. lia. }
      destruct (bind_evtchn_to_cpu_returns s3 port 0 irq info d row_old row0
                  Htbl3 Hinfo Hd Hold Hbo Hrow0 Hb0) as [s4 Hs4].
      rewrite (bind_eq _ _ _ _ _ Hs4).
      apply bind_evtchn_to_cpu_Ok in Hs4
        as (irq0 & info0 & descs' & masks' & Hirq0 & _ & Hinfo0 & -> & _ & _).
      assert (irq0 = irq) as -> by congruence.
      assert (info0 = info) as -> by (unfold s3, s1 in Hinfo0; sproj_all; congruence).
      unfold info_for_irq at 1, set_info. mrun.
      assert (forall (x : irq_info_t) l,
                length l = length (irq_info st) ->
                index (<[Z.to_nat irq := x]> l) irq = Some x) as Hins.
      { intros x l Hl. apply index_Some. split; [lia|].
        apply list_lookup_insert_eq. lia. }
      rewrite Hins by done. mrun.
      rewrite store_lt by (rewrite length_insert; unfold s3, s1; sproj; lia).
      mrun. rewrite Htype. cbn [info_u].
      set (s5 := with_irq_info _ _).
      assert (to_ushort port = port) as Hus.
      { unfold to_ushort. apply Z.mod_small. unfold BITS_PER_LONG in *. lia. }
      destruct (pirq_eoi_returns s5 irq
                  (mk_irq_info IRQT_PIRQ port (to_ushort 0) (info_u info)))
        as [s6 Hs6].
      * unfold s5. sproj. rewrite Hus. apply Hins. by rewrite length_insert.
      * done.
      * done.
      * cbn [info_evtchn]. split; [done|]. split; [lia|].
        split; [|by repeat split].
        exists (to_ushort 0). unfold cpu_from_evtchn, cpu_from_irq. mrun.
        change (evtchn_to_irq s5) with (evtchn_to_irq s3). rewrite Htbl3. mrun.
        replace (irq =? -1) with false by (symmetry; apply Z.eqb_neq; lia).
        unfold info_for_irq. mrun.
        replace (index (irq_info s5) irq) with
          (Some (mk_irq_info IRQT_PIRQ (to_ushort port) (to_ushort 0)
                   (info_u info)))
          by (symmetry; unfold s5; sproj; apply Hins; by rewrite length_insert).
        by mrun.
      * rewrite (bind_eq _ _ _ _ _ Hs6). eauto.
    + intros Hnz [Hgsi Hready].
      apply Z.eqb_neq in Hnz. rewrite Hnz in Hready |- *. cbn [negb].
      destruct (pirq_eoi_returns st irq info Hinfo Htype Hgsi Hready)
        as [s1 Hs1].
      rewrite (bind_eq _ _ _ _ _ Hs1). eauto.
Qed.

(** *** Fuel

    A run of the upcall that returns with some fuel returns the same
    with more. *)

Lemma upcall_scan_bits_fuel n m cpu word_idx pending_bits bit_idx st st' :
  (n <= m)%nat ->
  upcall_scan_bits n cpu word_idx pending_bits bit_idx st = Ok tt st' ->
  upcall_scan_bits m cpu word_idx pending_bits bit_idx st = Ok tt st'.
Proof.
  revert m bit_idx st. induction n as [|n IH]; intros m bit_idx st Hle Hrun;
    [discriminate|].
  destruct m as [|m]; [lia|]. cbn [upcall_scan_bits] in *.
  mbranch Hrun; [done|].
  mfollow. mbranch Hrun; [|done]. apply IH; [lia|done].
Qed.

Lemma upcall_scan_words_fuel n m cpu sw sb i pending_words word_idx st st' :
  (n <= m)%nat ->
  upcall_scan_words n cpu sw sb i pending_words word_idx st = Ok tt st' ->
  upcall_scan_words m cpu sw sb i pending_words word_idx st = Ok tt st'.
Proof.
  revert m i pending_words word_idx st.
  induction n as [|n IH]; intros m i pending_words word_idx st Hle Hrun;
    [discriminate|].
  destruct m as [|m]; [lia|]. cbn [upcall_scan_words] in *.
  mbranch Hrun; [done|].
  mbranch Hrun; [apply IH; [lia|done]|].
  mfollow.
  apply bind_Ok in Hrun as ([] & s_bits & Hbits & Hrun).
  rewrite (bind_eq _ _ _ _ _ (upcall_scan_bits_fuel _ (S m) _ _ _ _ _ _ Hle Hbits)).
  apply IH; [lia|done].
Qed.

Lemma upcall_loop_fuel n m cpu st st' :
  (n <= m)%nat ->
  upcall_loop n cpu st = Ok tt st' ->
  upcall_loop m cpu st = Ok tt st'.
Proof.
  revert m st. induction n as [|n IH]; intros m st Hle Hrun; [discriminate|].
  destruct m as [|m]; [lia|]. cbn [upcall_loop] in *.
  mfollow. mbranch Hrun; [done|]. mfollow.
  apply bind_Ok in Hrun as ([] & s_words & Hwords & Hrun).
  rewrite (bind_eq _ _ _ _ _
             (upcall_scan_words_fuel _ (S m) _ _ _ _ _ _ _ _ Hle Hwords)).
  mfollow. mbranch Hrun; [|done]. apply IH; [lia|done].
Qed.

Lemma upcall_fuel n m st st' :
  (n <= m)%nat ->
  __xen_evtchn_do_upcall n st = Ok tt st' ->
  __xen_evtchn_do_upcall m st = Ok tt st'.
Proof.
  unfold __xen_evtchn_do_upcall. intros Hle Hrun. mfollow.
  by eapply upcall_loop_fuel.
Qed.
Lemma upcall_scan_words_as_specified_fuel n m cpu sw sb i pending_words
    word_idx st st' :
  (n <= m)%nat ->
  upcall_scan_words_as_specified n cpu sw sb i pending_words word_idx st
    = Ok tt st' ->
  upcall_scan_words_as_specified m cpu sw sb i pending_words word_idx st
    = Ok tt st'.
Proof.
  revert m i pending_words word_idx st.
  induction n as [|n IH]; intros m i pending_words word_idx st Hle Hrun;
    [discriminate|].
  destruct m as [|m]; [lia|]. cbn [upcall_scan_words_as_specified] in *.
  mbranch Hrun; [done|].
  mbranch Hrun; [apply IH; [lia|done]|].
  mfollow.
  apply bind_Ok in Hrun as ([] & s_bits & Hbits & Hrun).
  rewrite (bind_eq _ _ _ _ _ (upcall_scan_bits_fuel _ (S m) _ _ _ _ _ _ Hle Hbits)).
  apply IH; [lia|done].
Qed.

Lemma upcall_loop_as_specified_fuel n m cpu st st' :
  (n <= m)%nat ->
  upcall_loop_as_specified n cpu st = Ok tt st' ->
  upcall_loop_as_specified m cpu st = Ok tt st'.
Proof.
  revert m st. induction n as [|n IH]; intros m st Hle Hrun; [discriminate|].
  destruct m as [|m]; [lia|]. cbn [upcall_loop_as_specified] in *.
  mfollow. mbranch Hrun; [done|]. mfollow.
  apply bind_Ok in Hrun as ([] & s_words & Hwords & Hrun).
  rewrite (bind_eq _ _ _ _ _
             (upcall_scan_words_as_specified_fuel _ (S m) _ _ _ _ _ _ _ _
                Hle Hwords)).
  mfollow. mbranch Hrun; [|done]. apply IH; [lia|done].
Qed.

Lemma upcall_as_specified_fuel n m st st' :
  (n <= m)%nat ->
  upcall_as_specified n st = Ok tt st' ->
  upcall_as_specified m st = Ok tt st'.
Proof.
  unfold upcall_as_specified. intros Hle Hrun. mfollow.
  by eapply upcall_loop_as_specified_fuel.
Qed.

End Properties.

(** ** More properties *)

(** *** Words as bit sets *)

Lemma ffs_pos_spec (p : positive) :
  0 <= ffs_pos p /\
  Z.testbit (Zpos p) (ffs_pos p) = true /\
  forall k, 0 <= k < ffs_pos p -> Z.testbit (Zpos p) k = false.
Proof.
  induction p as [p IH|p IH|]; cbn [ffs_pos].
  - split; [done|]. split; [done|]. intros k Hk. lia.
  - destruct IH as (Hlo & Hbit & Hmin). split; [lia|].
    rewrite Pos2Z.inj_xO. split.
    + replace (1 + ffs_pos p) with (Z.succ (ffs_pos p)) by lia.
      by rewrite Z.testbit_even_succ.
    + intros k Hk. destruct (decide (k = 0)) as [->|Hnz].
      * apply Z.testbit_even_0.
      * replace k with (Z.succ (k - 1)) by lia.
        rewrite Z.testbit_even_succ by lia. apply Hmin. lia.
  - split; [done|]. split; [done|]. intros k Hk. lia.
Qed.

(** [__ffs] of a nonzero unsigned long is the position of its lowest
    set bit. *)
Lemma ffs_spec (w : Z) :
  0 < w < 2 ^ 64 ->
  0 <= __ffs w < 64 /\
  Z.testbit w (__ffs w) = true /\
  forall k, 0 <= k < __ffs w -> Z.testbit w k = false.
Proof.
  intros Hw. destruct w as [|p|p]; [lia| |lia]. cbn [__ffs].
  destruct (ffs_pos_spec p) as (Hlo & Hbit & Hmin).
  split; [|done]. split; [done|].
  destruct (decide (ffs_pos p < 64)) as [|Hge]; [done|].
  assert (Z.testbit (Z.pos p) (ffs_pos p) = false) as Hf; [|congruence].
  eapply (Z.bounded_iff_bits_nonneg 64); [lia|lia|lia|lia].
Qed.

Lemma to_ulong_range (z : Z) : 0 <= to_ulong z < 2 ^ 64.
Proof. unfold to_ulong. apply Z.mod_pos_bound. lia. Qed.

Lemma land_ulong_range (w m : Z) : 0 <= Z.land w (to_ulong m) < 2 ^ 64.
Proof.
  pose proof (to_ulong_range m) as Hm. split.
  - apply Z.land_nonneg. lia.
  - apply (Z.bounded_iff_bits_nonneg 64); [lia| |].
    + apply Z.land_nonneg. lia.
    + intros l Hl. rewrite Z.land_spec.
      rewrite (proj1 (Z.bounded_iff_bits_nonneg 64 (to_ulong m)
                        ltac:(lia) ltac:(lia)) ltac:(lia) l Hl).
      apply andb_false_r.
Qed.

Lemma MASK_LSBS_range (w i : Z) : 0 <= MASK_LSBS w i < 2 ^ 64.
Proof. apply land_ulong_range. Qed.

(** [MASK_LSBS(w, i)] keeps the bits of [w] at the positions [i] to 63. *)
Lemma MASK_LSBS_spec (w i k : Z) :
  0 <= i -> 0 <= k ->
  Z.testbit (MASK_LSBS w i) k = Z.testbit w k && (i <=? k) && (k <? 64).
Proof.
  intros Hi Hk. unfold MASK_LSBS, to_ulong.
  rewrite Z.land_spec, Z.testbit_mod_pow2 by lia.
  rewrite Z.shiftl_spec by done.
  destruct (Z.leb_spec i k) as [Hle|Hlt].
  - rewrite Z.testbit_ones_nonneg by lia.
    destruct (Z.ltb_spec k 64) as [Hk64|Hk64].
    + replace (k - i <? 64) with true by (symmetry; apply Z.ltb_lt; lia).
      by rewrite !andb_true_r.
    + by rewrite !andb_false_r.
  - rewrite (Z.testbit_neg_r _ (k - i)) by lia.
    by rewrite !andb_false_r.
Qed.

(** The bit the scan goes to next: the lowest set bit of [w] at or
    above position [i]. *)
Lemma ffs_MASK_LSBS (w i : Z) :
  0 <= i ->
  MASK_LSBS w i <> 0 ->
  let f := __ffs (MASK_LSBS w i) in
  i <= f < 64 /\ Z.testbit w f = true /\
  forall k, i <= k < f -> Z.testbit w k = false.
Proof.
  intros Hi Hnz f. pose proof (MASK_LSBS_range w i) as Hr.
  destruct (ffs_spec (MASK_LSBS w i)) as (Hf & Hbit & Hmin); [lia|].
  fold f in Hf, Hbit, Hmin.
  rewrite MASK_LSBS_spec in Hbit by lia.
  apply andb_true_iff in Hbit as [[Hw Hle]%andb_true_iff Hlt].
  apply Z.leb_le in Hle. split; [lia|]. split; [done|].
  intros k Hk. specialize (Hmin k ltac:(lia)).
  rewrite MASK_LSBS_spec in Hmin by lia.
  replace (i <=? k) with true in Hmin by (symmetry; apply Z.leb_le; lia).
  replace (k <? 64) with true in Hmin by (symmetry; apply Z.ltb_lt; lia).
  by rewrite !andb_true_r in Hmin.
Qed.

(** [w & ~(1UL << b)] is [w] without bit [b]. *)
Lemma clear_word_bit_spec (w b k : Z) :
  0 <= b < 64 -> 0 <= k < 64 ->
  Z.testbit (Z.land w (to_ulong (Z.lnot (Z.shiftl 1 b)))) k =
    Z.testbit w k && negb (k =? b).
Proof.
  intros Hb Hk. unfold to_ulong.
  rewrite Z.land_spec, Z.testbit_mod_pow2 by lia.
  replace (k <? 64) with true by (symmetry; apply Z.ltb_lt; lia).
  rewrite Z.lnot_spec, Z.shiftl_spec by lia. cbn [andb]. f_equal. f_equal.
  destruct (Z.eqb_spec k b) as [->|Hne].
  - by rewrite Z.sub_diag.
  - destruct (decide (k < b)).
    + by rewrite Z.testbit_neg_r by lia.
    + by rewrite Z.bits_above_log2 by (cbn; lia).
Qed.

(** An unsigned long without set bits is 0. *)
Lemma ulong_no_bits (w : Z) :
  0 <= w < 2 ^ 64 ->
  (forall k, 0 <= k < 64 -> Z.testbit w k = false) -> w = 0.
Proof.
  intros Hw Hbits. apply Z.bits_inj'. intros k Hk.
  rewrite Z.bits_0. destruct (decide (k < 64)); [apply Hbits; lia|].
  apply (Z.bounded_iff_bits_nonneg 64); lia.
Qed.

(** *** Runs that do not stop for lack of fuel *)

Lemma bind_no_fuel {A B} (m : M A) (k : A -> M B) s :
  m s <> Stop FUEL ->
  (forall a s', m s = Ok a s' -> k a s' <> Stop FUEL) ->
  bind m k s <> Stop FUEL.
Proof.
  intros Hm Hk. unfold bind. destruct (m s) as [a s'|f]; [by apply Hk|].
  intros [= ->]. by apply Hm.
Qed.

Lemma ret_no_fuel {A} (a : A) s : ret a s <> Stop FUEL.
Proof. done. Qed.

Lemma gets_no_fuel {A} (f : xen_state -> A) s : gets f s <> Stop FUEL.
Proof. done. Qed.

Lemma modify_no_fuel (f : xen_state -> xen_state) s : modify f s <> Stop FUEL.
Proof. done. Qed.

Lemma deref_no_fuel {A} (o : option A) s : deref o s <> Stop FUEL.
Proof. by destruct o. Qed.

Lemma BUG_ON_no_fuel (c : bool) s : BUG_ON c s <> Stop FUEL.
Proof. by destruct c. Qed.

(** Going through the steps of a computation without loops. *)
Ltac no_fuel :=
  repeat first
    [ apply ret_no_fuel | apply gets_no_fuel | apply modify_no_fuel
    | apply deref_no_fuel | apply BUG_ON_no_fuel
    | apply bind_no_fuel; [|intros ? ? _]
    | match goal with
      | |- when ?c _ _ <> _ => destruct c; cbn [when]
      | |- (if ?c then _ else _) _ <> _ => destruct c
      | |- (match ?o with Some _ => _ | None => _ end) _ <> _ => destruct o
      end ].

Section Termination.

Context {plat : Platform} {hv : HvCall} {core : IrqCore}.

(** One iteration of the inner loop of the upcall, up to the test of
    its [while]. *)
Lemma upcall_scan_bits_step fuel cpu word_idx pending_bits bit_idx st :
  MASK_LSBS pending_bits bit_idx <> 0 ->
  (forall st1,
     let f := __ffs (MASK_LSBS pending_bits bit_idx) in
     f + 1 < 64 ->
     upcall_scan_bits fuel cpu word_idx pending_bits (f + 1) st1
       <> Stop FUEL) ->
  upcall_scan_bits (S fuel) cpu word_idx pending_bits bit_idx st <> Stop FUEL.
Proof.
  intros Hnz Hrec. cbn [upcall_scan_bits].
  pose proof (MASK_LSBS_range pending_bits bit_idx) as Hr.
  destruct (ffs_spec (MASK_LSBS pending_bits bit_idx)) as (Hf & _); [lia|].
  apply Z.eqb_neq in Hnz. rewrite Hnz.
  set (f := __ffs _) in *.
  unfold mask_evtchn, clear_evtchn, irq_to_desc, generic_handle_irq_desc,
    set_cpu_var.
  repeat (apply bind_no_fuel; [by no_fuel|intros ? ? _]).
  unfold BITS_PER_LONG. destruct (decide (f + 1 < 64)) as [Hlt|Hge].
  - rewrite Z.rem_small by lia.
    replace (f + 1 =? 0) with false by (symmetry; apply Z.eqb_neq; lia).
    cbn [negb]. by apply Hrec.
  - replace (f + 1) with 64 by lia. done.
Qed.

Lemma upcall_scan_bits_in_range fuel cpu word_idx pending_bits bit_idx st :
  0 <= bit_idx < 64 ->
  (Z.to_nat (64 - bit_idx) < fuel)%nat ->
  upcall_scan_bits fuel cpu word_idx pending_bits bit_idx st <> Stop FUEL.
Proof.
  revert bit_idx st. induction fuel as [|fuel IH]; intros bit_idx st Hb Hfuel;
    [lia|].
  destruct (decide (MASK_LSBS pending_bits bit_idx = 0)) as [Hz|Hnz].
  { cbn [upcall_scan_bits]. by rewrite Hz. }
  apply upcall_scan_bits_step; [done|]. intros st1 f Hf.
  destruct (ffs_MASK_LSBS pending_bits bit_idx) as (Hge & _); [lia|done|].
  fold f in Hge. apply IH; lia.
Qed.

(** The inner loop of the upcall handles every port of a word at most
    once: whatever the handlers do, it has ended after 64 iterations. *)
Lemma upcall_scan_bits_terminates fuel cpu word_idx pending_bits bit_idx st :
  (65 <= fuel)%nat ->
  upcall_scan_bits fuel cpu word_idx pending_bits bit_idx st <> Stop FUEL.
Proof.
  intros Hfuel. destruct fuel as [|fuel]; [lia|].
  destruct (decide (MASK_LSBS pending_bits bit_idx = 0)) as [Hz|Hnz].
  { cbn [upcall_scan_bits]. by rewrite Hz. }
  apply upcall_scan_bits_step; [done|]. intros st1 f Hf.
  pose proof (MASK_LSBS_range pending_bits bit_idx) as Hr.
  destruct (ffs_spec (MASK_LSBS pending_bits bit_idx)) as (Hf' & _); [lia|].
  fold f in Hf'. apply upcall_scan_bits_in_range; lia.
Qed.

(** One iteration of the loop over the pending words, when it goes on
    to a word. *)
Lemma upcall_scan_words_step fuel cpu sw sb i pw word_idx st :
  (65 <= S fuel)%nat ->
  pw <> 0 ->
  MASK_LSBS pw word_idx <> 0 ->
  (forall st1,
     let w := __ffs (MASK_LSBS pw word_idx) in
     let pw' :=
       if negb (w =? sw) || negb (i =? 0)
       then Z.land pw (to_ulong (Z.lnot (Z.shiftl 1 w))) else pw in
     upcall_scan_words fuel cpu sw sb (i + 1) pw' (Z.rem (w + 1) BITS_PER_LONG)
       st1 <> Stop FUEL) ->
  upcall_scan_words (S fuel) cpu sw sb i pw word_idx st <> Stop FUEL.
Proof.
  intros Hfuel Hpw Hnz Hrec. cbn [upcall_scan_words].
  apply Z.eqb_neq in Hpw, Hnz. rewrite Hpw, Hnz.
  unfold active_evtchns, cpu_evtchn_mask.
  apply bind_no_fuel; [by no_fuel|intros pending_bits ? _].
  apply bind_no_fuel; [by apply upcall_scan_bits_terminates|intros ? ? _].
  apply Hrec.
Qed.

Lemma upcall_scan_words_done fuel cpu sw sb i word_idx st :
  upcall_scan_words (S fuel) cpu sw sb i 0 word_idx st = Ok tt st.
Proof. reflexivity. Qed.

(** After the wrap to word 0 every visit takes the word out of the
    pending words. *)
Lemma upcall_scan_words_second_pass fuel cpu sw sb i pw word_idx st :
  1 <= i ->
  0 <= pw < 2 ^ 64 ->
  0 <= word_idx < 64 ->
  (forall k, 0 <= k < word_idx -> Z.testbit pw k = false) ->
  (Z.to_nat (130 - word_idx) <= fuel)%nat ->
  upcall_scan_words fuel cpu sw sb i pw word_idx st <> Stop FUEL.
Proof.
  revert i pw word_idx st.
  induction fuel as [|fuel IH]; intros i pw word_idx st Hi Hpw Hw Hlow Hfuel;
    [lia|].
  destruct (decide (pw = 0)) as [->|Hnz]; [by rewrite upcall_scan_words_done|].
  assert (MASK_LSBS pw word_idx <> 0) as Hwords.
  { intros Hz. apply Hnz, ulong_no_bits; [done|]. intros k Hk.
    destruct (decide (k < word_idx)); [apply Hlow; lia|].
    assert (Z.testbit (MASK_LSBS pw word_idx) k = false) as Hbit
      by (rewrite Hz; apply Z.bits_0).
    rewrite MASK_LSBS_spec in Hbit by lia.
    replace (word_idx <=? k) with true in Hbit
      by (symmetry; apply Z.leb_le; lia).
    replace (k <? 64) with true in Hbit by (symmetry; apply Z.ltb_lt; lia).
    by rewrite !andb_true_r in Hbit. }
  apply upcall_scan_words_step; [lia|done|done|]. intros st1 w. cbn zeta.
  destruct (ffs_MASK_LSBS pw word_idx) as (Hge & Hbit & Hmin); [lia|done|].
  fold w in Hge, Hbit, Hmin.
  replace (negb (i =? 0)) with true
    by (symmetry; apply negb_true_iff, Z.eqb_neq; lia).
  rewrite orb_true_r.
  set (pw' := Z.land _ _).
  assert (0 <= pw' < 2 ^ 64) as Hpw' by apply land_ulong_range.
  assert (forall k, 0 <= k < w + 1 -> Z.testbit pw' k = false) as Hlow'.
  { intros k Hk. unfold pw'. rewrite clear_word_bit_spec by lia.
    destruct (Z.eqb_spec k w) as [->|Hne]; [apply andb_false_r|].
    rewrite andb_true_r.
    destruct (decide (k < word_idx)); [apply Hlow; lia|apply Hmin; lia]. }
  unfold BITS_PER_LONG. destruct (decide (w + 1 < 64)) as [Hlt|Hge64].
  - rewrite Z.rem_small by lia. apply IH; (done || lia).
  - replace (w + 1) with 64 in * by lia.
    assert (pw' = 0) as -> by (apply ulong_no_bits; [done|intros; apply Hlow'; lia]).
    destruct fuel; [lia|]. by rewrite upcall_scan_words_done.
Qed.

(** Before the wrap the loop moves upwards through the words. *)
Lemma upcall_scan_words_first_pass fuel cpu sw sb i pw word_idx st :
  0 <= i ->
  0 <= pw < 2 ^ 64 ->
  0 <= word_idx < 64 ->
  (Z.to_nat (195 - word_idx) <= fuel)%nat ->
  upcall_scan_words fuel cpu sw sb i pw word_idx st <> Stop FUEL.
Proof.
  revert i pw word_idx st.
  induction fuel as [|fuel IH]; intros i pw word_idx st Hi Hpw Hw Hfuel; [lia|].
  destruct (decide (pw = 0)) as [->|Hnz]; [by rewrite upcall_scan_words_done|].
  destruct (decide (MASK_LSBS pw word_idx = 0)) as [Hz|Hwords].
  { cbn [upcall_scan_words]. apply Z.eqb_neq in Hnz. rewrite Hnz, Hz.
    cbn [Z.eqb]. apply upcall_scan_words_second_pass; (done || lia). }
  apply upcall_scan_words_step; [lia|done|done|]. intros st1 w pw'.
  destruct (ffs_MASK_LSBS pw word_idx) as (Hge & _); [lia|done|].
  fold w in Hge.
  assert (0 <= pw' < 2 ^ 64) as Hpw'.
  { unfold pw'. destruct (_ || _); [apply land_ulong_range|done]. }
  unfold BITS_PER_LONG. destruct (decide (w + 1 < 64)) as [Hlt|Hge64].
  - rewrite Z.rem_small by lia. apply IH; (done || lia).
  - replace (w + 1) with 64 by lia. change (Z.rem 64 64) with 0.
    apply upcall_scan_words_second_pass; (done || lia).
Qed.

Lemma upcall_scan_words_terminates fuel cpu sw sb pw word_idx st :
  (200 <= fuel)%nat ->
  0 <= pw < 2 ^ 64 ->
  upcall_scan_words fuel cpu sw sb 0 pw word_idx st <> Stop FUEL.
Proof.
  intros Hfuel Hpw. destruct fuel as [|fuel]; [lia|].
  destruct (decide (pw = 0)) as [->|Hnz]; [by rewrite upcall_scan_words_done|].
  destruct (decide (MASK_LSBS pw word_idx = 0)) as [Hz|Hwords].
  { cbn [upcall_scan_words]. apply Z.eqb_neq in Hnz. rewrite Hnz, Hz.
    cbn [Z.eqb]. apply upcall_scan_words_second_pass; (done || lia). }
  apply upcall_scan_words_step; [lia|done|done|]. intros st1 w pw'.
  pose proof (MASK_LSBS_range pw word_idx) as Hr.
  destruct (ffs_spec (MASK_LSBS pw word_idx)) as (Hf & _); [lia|].
  fold w in Hf.
  assert (0 <= pw' < 2 ^ 64) as Hpw'.
  { unfold pw'. destruct (_ || _); [apply land_ulong_range|done]. }
  unfold BITS_PER_LONG. destruct (decide (w + 1 < 64)) as [Hlt|Hge64].
  - rewrite Z.rem_small by lia. apply upcall_scan_words_first_pass; (done || lia).
  - replace (w + 1) with 64 by lia. change (Z.rem 64 64) with 0.
    apply upcall_scan_words_second_pass; (done || lia).
Qed.

End Termination.

Section Allocation.

Context {plat : Platform} {hv : HvCall} {core : IrqCore}.

Lemma set_info_Ok irq info st st' :
  set_info irq info st = Ok tt st' ->
  0 <= irq < Z.of_nat (length (irq_info st)) /\
  st' = with_irq_info (<[Z.to_nat irq := info]> (irq_info st)) st.
Proof.
  unfold set_info. intros Hs. minv.
  rename select (store _ _ _ = Some _) into Hst.
  by apply store_Some in Hst as [? ->].
Qed.

Lemma set_evtchn_to_irq_Ok evtchn irq st st' :
  set_evtchn_to_irq evtchn irq st = Ok tt st' ->
  0 <= evtchn < Z.of_nat (length (evtchn_to_irq st)) /\
  st' = with_evtchn_to_irq (<[Z.to_nat evtchn := irq]> (evtchn_to_irq st)) st.
Proof.
  unfold set_evtchn_to_irq. intros Hs. minv.
  rename select (store _ _ _ = Some _) into Hst.
  by apply store_Some in Hst as [? ->].
Qed.

Lemma index_insert_eq {A} (l : list A) (i : Z) (x : A) :
  0 <= i < Z.of_nat (length l) -> index (<[Z.to_nat i := x]> l) i = Some x.
Proof.
  intros Hi. apply index_Some. split; [lia|]. apply list_lookup_insert_eq. lia.
Qed.

Lemma index_insert_ne {A} (l : list A) (i j : Z) (x : A) :
  0 <= i -> i <> j -> index (<[Z.to_nat i := x]> l) j = index l j.
Proof.
  intros Hi Hne. unfold index. case_decide; [|done].
  apply list_lookup_insert_ne. lia.
Qed.

Lemma find_unbound_irq_loop_Ok cands start st r st' :
  find_unbound_irq_loop cands start st = Ok r st' ->
  st' = st /\
  ((r = start /\ forall c, c ∈ cands -> ~ irq_unused st c) \/
   (exists pre post, cands = pre ++ r :: post /\ irq_unused st r /\
                     forall c, c ∈ pre -> ~ irq_unused st c)).
Proof.
  induction cands as [|irq cands IH]; cbn [find_unbound_irq_loop].
  { intros Hr. minv. split; [done|]. left. split; [done|].
    intros c Hc. by apply elem_of_nil in Hc. }
  unfold irq_to_desc. mrun.
  assert (find_unbound_irq_loop cands start st = Ok r st' ->
            ~ irq_unused st irq ->
            st' = st /\
            ((r = start /\ forall c, c ∈ irq :: cands -> ~ irq_unused st c) \/
             (exists pre post, irq :: cands = pre ++ r :: post /\
                irq_unused st r /\ forall c, c ∈ pre -> ~ irq_unused st c)))
    as Hnext.
  { intros Hr' Hused. apply IH in Hr' as [-> Hr']. split; [done|].
    destruct Hr' as [[-> Hall]|(pre & post & -> & Hu & Hpre)].
    - left. split; [done|]. intros c [->|Hc]%elem_of_cons; [done|by apply Hall].
    - right. exists (irq :: pre), post. split; [done|]. split; [done|].
      intros c [->|Hc]%elem_of_cons; [done|by apply Hpre]. }
  assert (forall s, Ok irq st = Ok r s -> irq_unused st irq ->
            s = st /\
            ((r = start /\ forall c, c ∈ irq :: cands -> ~ irq_unused st c) \/
             (exists pre post, irq :: cands = pre ++ r :: post /\
                irq_unused st r /\ forall c, c ∈ pre -> ~ irq_unused st c)))
    as Hhere.
  { intros s [= <- <-] Hu. split; [done|]. right. exists [], cands.
    split; [done|]. split; [done|]. intros c Hc. by apply elem_of_nil in Hc. }
  destruct (mjoin (index (irq_descs st) irq)) as [d|] eqn:Hd.
  - case_bool_decide as Hno.
    { intros Hr. apply Hhere; [done|]. unfold irq_unused. rewrite Hd. by left. }
    case_bool_decide as Hdyn; cbn [negb].
    + unfold type_from_irq, info_for_irq. intros Hr.
      apply bind_Ok in Hr as (type & s1 & Ht & Hr). minv.
      rename select (index (irq_info _) irq = Some _) into Hinfo.
      revert Hr. case_bool_decide as Hty; intros Hr.
      * apply Hhere; [done|]. unfold irq_unused. rewrite Hd. right. eauto.
      * apply Hnext; [done|]. unfold irq_unused. rewrite Hd.
        intros [?|(_ & info & Hinfo' & Hty')]; [done|]. congruence.
    + intros Hr. apply Hnext; [done|]. unfold irq_unused. rewrite Hd.
      intros [?|(? & _)]; done.
  - intros Hr. apply Hhere; [done|]. unfold irq_unused. by rewrite Hd.
Qed.

Lemma find_unbound_irq_loop_used cands start st :
  (forall c, c ∈ cands -> ~ irq_unused st c) ->
  (forall c, c ∈ cands -> is_Some (index (irq_info st) c)) ->
  find_unbound_irq_loop cands start st = Ok start st.
Proof.
  induction cands as [|irq cands IH]; intros Hused Hinfo; [done|].
  cbn [find_unbound_irq_loop]. unfold irq_to_desc. mrun.
  pose proof (Hused irq ltac:(left)) as Hu. unfold irq_unused in Hu.
  assert (find_unbound_irq_loop cands start st = Ok start st) as Hrest.
  { apply IH; intros c Hc; [apply Hused|apply Hinfo]; by right. }
  destruct (mjoin (index (irq_descs st) irq)) as [d|]; [|done].
  case_bool_decide as Hno; [tauto|].
  case_bool_decide as Hdyn; cbn [negb]; [|done].
  destruct (Hinfo irq ltac:(left)) as [info Hi].
  unfold type_from_irq, info_for_irq. mrun. rewrite Hi. mrun.
  case_bool_decide as Hty; [|done]. exfalso. apply Hu. right. eauto.
Qed.

(** What [find_unbound_irq] leaves of the state it started in. *)
Lemma find_unbound_irq_state st irq st' :
  find_unbound_irq st = Ok irq st' ->
  exists descs', st' = with_irq_descs descs' st.
Proof.
  unfold find_unbound_irq. destruct (_ =? nr_irqs); [done|].
  intros Hr. apply bind_Ok in Hr as (r & s1 & Hloop & Hr).
  assert (s1 = st) as ->.
  { destruct (_ >? _); [by apply find_unbound_irq_loop_Ok in Hloop as [-> _]|].
    by minv. }
  destruct (r =? _); [done|]. unfold irq_to_desc in Hr. revert Hr. mrun.
  destruct (mjoin _); intros Hr; minv; sproj; eauto.
Qed.

End Allocation.

(** In a list split out of [n-1, ..., a] the elements above the one
    split at come before it. *)
Lemma reverse_seqZ_above (a n : Z) (pre post : list Z) (r j : Z) :
  reverse (seqZ a n) = pre ++ r :: post ->
  a <= j < a + n -> r < j -> j ∈ pre.
Proof.
  intros Hsplit Hj Hr.
  assert (seqZ a n = reverse post ++ r :: reverse pre) as Hseq.
  { rewrite <- (reverse_involutive (seqZ a n)), Hsplit.
    by rewrite reverse_app, reverse_cons, <- app_assoc. }
  assert (seqZ a n !! length (reverse post) = Some r) as Hat.
  { rewrite Hseq. by rewrite list_lookup_middle. }
  apply lookup_seqZ in Hat as [Hat _].
  assert (seqZ a n !! Z.to_nat (j - a) = Some j) as Hjat.
  { apply lookup_seqZ. lia. }
  rewrite Hseq, lookup_app_r in Hjat by lia.
  destruct (Z.to_nat (j - a) - length (reverse post))%nat as [|k] eqn:Hk; [lia|].
  cbn in Hjat. apply elem_of_reverse. by eapply list_elem_of_lookup_2.
Qed.

Section Binding.

Context {plat : Platform} {hv : HvCall} {core : IrqCore}.

(** X1: with at most [nr_irqs] hardware IRQs, an IRQ that
    [find_unbound_irq] returns is never a hardware (identity-mapped)
    IRQ: the function settles on the highest IRQ below [nr_irqs] and
    above the hardware IRQs that is unused, and returns it, or -1 when
    no descriptor could be had for it.  It changes nothing but the
    descriptor table. *)
Theorem find_unbound_irq_result st irq st' :
  0 <= get_nr_irqs_gsi <= nr_irqs ->
  nr_irqs < 2 ^ 31 ->
  find_unbound_irq st = Ok irq st' ->
  exists cand,
    get_nr_hw_irqs < cand < nr_irqs /\
    identity_mapped_irq cand = false /\
    irq_unused st cand /\
    (forall j, cand < j < nr_irqs -> ~ irq_unused st j) /\
    (irq = cand \/ irq = -1) /\
    exists descs', st' = with_irq_descs descs' st.
Proof.
  intros Hgsi Hnr Hrun.
  pose proof (find_unbound_irq_state _ _ _ Hrun) as Hstate.
  unfold find_unbound_irq in Hrun. unfold get_nr_hw_irqs in *.
  destruct (Z.eqb_spec get_nr_irqs_gsi nr_irqs) as [|Hne]; [done|].
  apply bind_Ok in Hrun as (r & s1 & Hloop & Hrun).
  destruct (Z.eqb_spec r get_nr_irqs_gsi) as [|Hr]; [done|].
  destruct (Z.gtb_spec (nr_irqs - 1) get_nr_irqs_gsi) as [Hgt|Hle];
    [|minv; lia].
  apply find_unbound_irq_loop_Ok in Hloop
    as [-> [[-> _]|(pre & post & Hsplit & Hunused & Hpre)]]; [done|].
  assert (get_nr_irqs_gsi + 1 <= r < nr_irqs) as Hrange.
  { assert (r ∈ reverse (seqZ (get_nr_irqs_gsi + 1)
                           (nr_irqs - 1 - get_nr_irqs_gsi))) as Hin
      by (rewrite Hsplit; apply elem_of_app; right; by left).
    apply elem_of_reverse, elem_of_seqZ in Hin. lia. }
  exists r. split; [lia|]. split.
  { unfold identity_mapped_irq, get_nr_hw_irqs, to_uint.
    rewrite Z.mod_small by lia. apply Z.ltb_ge. lia. }
  split; [done|]. split.
  { intros j Hj. apply Hpre. eapply reverse_seqZ_above; [done|lia|lia]. }
  split; [|done]. revert Hrun. unfold irq_to_desc. mrun.
  destruct (mjoin _); intros Hrun; minv; auto.
Qed.

(** X2: with at most [nr_irqs] hardware IRQs and at least [nr_irqs]
    records in [irq_info], when every IRQ strictly between the hardware
    IRQs and [nr_irqs] is in use, [find_unbound_irq] ends in
    [panic()]. *)
Theorem find_unbound_irq_panics st :
  0 <= get_nr_irqs_gsi <= nr_irqs ->
  nr_irqs <= Z.of_nat (length (irq_info st)) ->
  (forall j, get_nr_hw_irqs < j < nr_irqs -> ~ irq_unused st j) ->
  find_unbound_irq st = Stop PANIC.
Proof.
  intros Hgsi Hlen Hused. unfold find_unbound_irq, get_nr_hw_irqs in *.
  destruct (Z.eqb_spec get_nr_irqs_gsi nr_irqs) as [|Hne]; [done|].
  destruct (Z.gtb_spec (nr_irqs - 1) get_nr_irqs_gsi) as [Hgt|Hle].
  - erewrite bind_eq; [by rewrite Z.eqb_refl|].
    apply find_unbound_irq_loop_used.
    + intros c Hc%elem_of_reverse%elem_of_seqZ. apply Hused. lia.
    + intros c Hc%elem_of_reverse%elem_of_seqZ.
      destruct (index_lt (irq_info st) c) as [x Hx]; [lia|by rewrite Hx].
  - mrun. replace (nr_irqs - 1) with get_nr_irqs_gsi by lia.
    by rewrite Z.eqb_refl.
Qed.

(** X3: binding a port that has no IRQ yet.  When [bind_evtchn_to_irq]
    returns, the port maps to the returned IRQ and the IRQ to the port
    (as an [unsigned short]), with type IRQT_EVTCHN on CPU 0; no other
    entry of the two tables has changed and no hypercall was issued;
    binding the port again returns the same IRQ and changes nothing. *)
Theorem bind_evtchn_to_irq_fresh st evtchn irq st' :
  index (evtchn_to_irq st) evtchn = Some (-1) ->
  bind_evtchn_to_irq evtchn st = Ok irq st' ->
  0 <= irq /\
  irq_from_evtchn evtchn st' = Ok (to_uint irq) st' /\
  evtchn_from_irq irq st' = Ok (to_ushort evtchn) st' /\
  index (irq_info st') irq = Some (mk_irq_info IRQT_EVTCHN (to_ushort evtchn) 0 u_zero) /\
  (forall port, port <> evtchn ->
     index (evtchn_to_irq st') port = index (evtchn_to_irq st) port) /\
  (forall j, j <> irq -> index (irq_info st') j = index (irq_info st) j) /\
  trace st' = trace st /\
  bind_evtchn_to_irq evtchn st' = Ok irq st'.
Proof.
  intros Hfree. unfold bind_evtchn_to_irq at 1. mrun. rewrite Hfree. mrun.
  cbn [Z.eqb]. intros Hrun.
  apply bind_Ok in Hrun as (irq0 & s1 & Hfind & Hrun).
  apply find_unbound_irq_state in Hfind as [descs1 ->].
  revert Hrun. unfold set_chip. mrun. intros Hrun.
  apply bind_Ok in Hrun as ([] & s3 & Hset & Hrun).
  apply set_evtchn_to_irq_Ok in Hset as [Hev ->].
  apply bind_Ok in Hrun as ([] & s4 & Hinfo & Hrun).
  apply set_info_Ok in Hinfo as [Hirq ->].
  apply ret_Ok in Hrun as [<- ->]. sproj_all.
  split; [lia|].
  assert (index (<[Z.to_nat evtchn := irq]> (evtchn_to_irq st)) evtchn
          = Some irq) as Htbl by (by apply index_insert_eq).
  assert (index (<[Z.to_nat irq := mk_evtchn_info evtchn]> (irq_info st)) irq
          = Some (mk_evtchn_info evtchn)) as Hinfo by (by apply index_insert_eq).
  split.
  { unfold irq_from_evtchn. mrun. rewrite Htbl. by mrun. }
  split.
  { unfold evtchn_from_irq, info_for_irq. mrun. rewrite Hinfo. by mrun. }
  split; [done|]. split.
  { intros port Hne. apply index_insert_ne; [lia|done]. }
  split.
  { intros j Hne. apply index_insert_ne; [lia|done]. }
  split; [done|].
  unfold bind_evtchn_to_irq. mrun. rewrite Htbl. mrun.
  by replace (irq =? -1) with false by (symmetry; apply Z.eqb_neq; lia).
Qed.

End Binding.

Section Binding2.

Context {plat : Platform} {hv : HvCall} {core : IrqCore}.

Lemma per_cpu_set_inv tbl upd cpu i v st st' :
  per_cpu_set tbl upd cpu i v st = Ok tt st' ->
  exists row,
    index (tbl st) cpu = Some row /\
    0 <= i < Z.of_nat (length row) /\
    st' = upd (<[Z.to_nat cpu := <[Z.to_nat i := v]> row]> (tbl st)) st.
Proof.
  unfold per_cpu_set. intros Hp. minv.
  rename select (store (tbl st) _ _ = Some _) into Ht.
  rename select (store _ i v = Some _) into Hr.
  apply store_Some in Hr as [Hi ->]. apply store_Some in Ht as [_ ->].
  eauto.
Qed.

(** X4: binding a VIRQ that is not bound on the CPU yet.  When
    [bind_virq_to_irq] returns, it has issued EVTCHNOP_bind_virq for
    (virq, cpu) and nothing else, the hypervisor has accepted, and the
    port [p] it handed out maps to the returned IRQ; the IRQ has type
    IRQT_VIRQ, port [p], the CPU and the VIRQ number; the per-CPU table
    holds the IRQ under the VIRQ; the port is in the port mask of the
    CPU; and binding the same VIRQ again returns the same IRQ and
    changes nothing. *)
Theorem bind_virq_to_irq_fresh st virq cpu row irq st' :
  index (virq_to_irq st) cpu = Some row ->
  index row virq = Some (-1) ->
  bind_virq_to_irq virq cpu st = Ok irq st' ->
  let reply := hypervisor (trace st) (EVTCHNOP_bind_virq virq cpu) in
  let port := out reply in
  rc reply = 0 /\
  trace st' = trace st ++ [Hypercall (EVTCHNOP_bind_virq virq cpu)] /\
  index (evtchn_to_irq st') port = Some irq /\
  index (irq_info st') irq =
    Some (mk_irq_info IRQT_VIRQ (to_ushort port) (to_ushort cpu)
            (u_virq (to_ushort virq))) /\
  (exists row', index (virq_to_irq st') cpu = Some row' /\
                index row' virq = Some irq) /\
  (exists bits, index (cpu_evtchn_mask_p st') cpu = Some bits /\
                test_bit port bits = Some true) /\
  bind_virq_to_irq virq cpu st' = Ok irq st'.
Proof.
  intros Hrow Hfree. unfold bind_virq_to_irq at 1.
  rewrite (bind_eq _ _ _ _ _ (per_cpu_get_eq virq_to_irq _ _ _ _ _ Hrow Hfree)).
  cbn [Z.eqb]. intros Hrun.
  apply bind_Ok in Hrun as (irq0 & s1 & Hfind & Hrun).
  apply find_unbound_irq_state in Hfind as [descs1 ->].
  revert Hrun. unfold set_chip, HYPERVISOR_event_channel_op. mrun.
  rewrite bind_HYPERVISOR_op. mrun.
  set (reply := hypervisor _ _). set (port := out reply).
  destruct (Z.eqb_spec (rc reply) 0) as [Hrc|]; [|done]. cbn [negb]. mrun.
  intros Hrun.
  apply bind_Ok in Hrun as ([] & s3 & Hset & Hrun).
  apply set_evtchn_to_irq_Ok in Hset as [Hport ->].
  apply bind_Ok in Hrun as ([] & s4 & Hinfo & Hrun).
  apply set_info_Ok in Hinfo as [Hirq ->].
  apply bind_Ok in Hrun as ([] & s5 & Hpc & Hrun).
  apply per_cpu_set_inv in Hpc as (row0 & Hrow0 & Hvirq & ->).
  apply bind_Ok in Hrun as ([] & s6 & Hcpu & Hrun).
  apply ret_Ok in Hrun as [<- ->]. sproj_all.
  rewrite Hrow in Hrow0. injection Hrow0 as <-.
  apply bind_evtchn_to_cpu_Ok in Hcpu
    as (irq1 & info1 & descs' & masks' & Hirq1 & _ & Hinfo1 & -> & Hmask & _).
  sproj_all.
  rewrite index_insert_eq in Hirq1 by done. injection Hirq1 as <-.
  rewrite index_insert_eq in Hinfo1 by done. injection Hinfo1 as <-.
  cbn [info_type info_evtchn info_u mk_virq_info].
  pose proof (index_range _ _ _ Hrow) as Hcpu.
  split; [done|]. split; [done|].
  split; [by apply index_insert_eq|].
  split; [apply index_insert_eq; by rewrite length_insert|].
  assert (index (<[Z.to_nat cpu := <[Z.to_nat virq := irq]> row]>
                   (virq_to_irq st)) cpu
          = Some (<[Z.to_nat virq := irq]> row)) as Hrow'
    by (by apply index_insert_eq).
  assert (index (<[Z.to_nat virq := irq]> row) virq = Some irq) as Hv'
    by (by apply index_insert_eq).
  split; [eauto|]. split; [done|].
  unfold bind_virq_to_irq.
  erewrite bind_eq; [|by eapply (per_cpu_get_eq virq_to_irq)].
  by replace (irq =? -1) with false by (symmetry; apply Z.eqb_neq; lia).
Qed.

(** X5: when no descriptor can be had ([find_unbound_irq] returns a
    negative value), [bind_ipi_to_irq] returns that value at once: no
    hypercall is issued and no table is written, and
    [bind_ipi_to_irqhandler] returns it without calling [request_irq].
    [bind_evtchn_to_irq] and [bind_virq_to_irq] do not test the value:
    they go on to index [irq_info] with it and never return. *)
Theorem bind_without_descriptor st r s1 :
  find_unbound_irq st = Ok r s1 ->
  r < 0 ->
  (forall ipi cpu row handler irqflags devname dev_id,
     index (ipi_to_irq st) cpu = Some row -> index row ipi = Some (-1) ->
     bind_ipi_to_irq ipi cpu st = Ok r s1 /\
     bind_ipi_to_irqhandler ipi cpu handler irqflags devname dev_id st
       = Ok r s1 /\
     trace s1 = trace st /\
     ipi_to_irq s1 = ipi_to_irq st /\
     evtchn_to_irq s1 = evtchn_to_irq st /\
     irq_info s1 = irq_info st) /\
  (forall evtchn,
     index (evtchn_to_irq st) evtchn = Some (-1) ->
     bind_evtchn_to_irq evtchn st = Stop MEMORY) /\
  (forall virq cpu row irq st',
     index (virq_to_irq st) cpu = Some row -> index row virq = Some (-1) ->
     bind_virq_to_irq virq cpu st <> Ok irq st').
Proof.
  intros Hfind Hneg.
  pose proof (find_unbound_irq_state _ _ _ Hfind) as [descs1 ->].
  assert (forall (info : irq_info_t) s, set_info r info s = Stop MEMORY)
    as Hset.
  { intros info s. unfold set_info, store, index. mrun.
    by rewrite decide_False by lia. }
  split; [|split].
  - intros ipi cpu row handler irqflags devname dev_id Hrow Hfree.
    assert (bind_ipi_to_irq ipi cpu st = Ok r (with_irq_descs descs1 st))
      as Hbind.
    { unfold bind_ipi_to_irq.
      rewrite (bind_eq _ _ _ _ _
                 (per_cpu_get_eq ipi_to_irq _ _ _ _ _ Hrow Hfree)).
      rewrite Z.eqb_refl, (bind_eq _ _ _ _ _ Hfind).
      by replace (r <? 0) with true by (symmetry; apply Z.ltb_lt; lia). }
    split; [done|]. split; [|done].
    unfold bind_ipi_to_irqhandler. rewrite (bind_eq _ _ _ _ _ Hbind).
    by replace (r <? 0) with true by (symmetry; apply Z.ltb_lt; lia).
  - intros evtchn Hfree. unfold bind_evtchn_to_irq. mrun. rewrite Hfree. mrun.
    rewrite Z.eqb_refl, (bind_eq _ _ _ _ _ Hfind).
    unfold set_chip, set_evtchn_to_irq. mrun.
    destruct (index_lt (evtchn_to_irq st) evtchn) as [? _];
      [by eapply index_range|].
    rewrite store_lt by (by eapply index_range). mrun.
    unfold bind. by rewrite Hset.
  - intros virq cpu row irq st' Hrow Hfree. unfold bind_virq_to_irq.
    rewrite (bind_eq _ _ _ _ _
               (per_cpu_get_eq virq_to_irq _ _ _ _ _ Hrow Hfree)).
    rewrite Z.eqb_refl, (bind_eq _ _ _ _ _ Hfind). intros Hrun.
    do 4 (apply bind_Ok in Hrun as (? & ? & _ & Hrun)).
    apply bind_Ok in Hrun as (? & ? & Hinfo & _). by rewrite Hset in Hinfo.
Qed.

(** What the first part of [unbind_from_irq] leaves of the record of
    the IRQ: its type. *)
Lemma unbind_close_keeps_type st irq info evtchn st' :
  index (irq_info st) irq = Some info ->
  when (VALID_EVTCHN evtchn)
    (r <- HYPERVISOR_event_channel_op (EVTCHNOP_close evtchn);;
     BUG_ON (negb (rc r =? 0)) ;;;
     type <- type_from_irq irq;;
     match type with
     | IRQT_VIRQ =>
       cpu <- cpu_from_evtchn evtchn;;
       virq <- virq_from_irq irq;;
       per_cpu_set virq_to_irq with_virq_to_irq cpu virq (-1)
     | IRQT_IPI =>
       cpu <- cpu_from_evtchn evtchn;;
       ipi <- ipi_from_irq irq;;
       per_cpu_set ipi_to_irq with_ipi_to_irq cpu ipi (-1)
     | _ => ret tt
     end ;;;
     bind_evtchn_to_cpu evtchn 0 ;;;
     set_evtchn_to_irq evtchn (-1)) st = Ok tt st' ->
  (evtchn = 0 /\ st' = st) \/
  (evtchn <> 0 /\
   exists info', index (irq_info st') irq = Some info' /\
                 info_type info' = info_type info).
Proof.
  intros Hinfo. unfold VALID_EVTCHN.
  destruct (Z.eqb_spec evtchn 0) as [->|Hnz]; cbn [negb when].
  { intros Hr. minv. by left. }
  intros Hrun. right. split; [done|].
  unfold HYPERVISOR_event_channel_op in Hrun.
  rewrite bind_HYPERVISOR_op in Hrun. revert Hrun.
  set (s0 := with_trace _ st).
  destruct (rc _ =? 0); cbn [negb]; [mrun|done].
  intros Hrun. apply bind_Ok in Hrun as (type & s2 & Ht & Hrun).
  assert (s2 = s0) as ->.
  { clear Hrun. unfold type_from_irq, info_for_irq in Ht. by minv. }
  apply bind_Ok in Hrun as ([] & s3 & Hsw & Hrun).
  apply bind_Ok in Hrun as ([] & s4 & Hcpu & Hrun).
  apply set_evtchn_to_irq_Ok in Hrun as [_ ->]. sproj.
  assert (irq_info s3 = irq_info s0) as Hsame.
  { clear Hcpu Ht. destruct type;
      try (by minv);
      apply bind_Ok in Hsw as (cpu & s' & ->%cpu_from_evtchn_state & Hsw);
      apply bind_Ok in Hsw as (v & s'' & Hv & Hsw).
    - unfold virq_from_irq, info_for_irq in Hv. minv.
      by apply per_cpu_set_inv in Hsw as (row & _ & _ & ->).
    - unfold ipi_from_irq, info_for_irq in Hv. minv.
      by apply per_cpu_set_inv in Hsw as (row & _ & _ & ->). }
  apply bind_evtchn_to_cpu_Ok in Hcpu
    as (irq1 & info1 & descs' & masks' & _ & _ & Hinfo1 & -> & _ & _).
  sproj. rewrite Hsame in Hinfo1 |- *. unfold s0 in Hinfo1 |- *. sproj_all.
  pose proof (index_range _ _ _ Hinfo1) as Hr1.
  destruct (decide (irq1 = irq)) as [->|Hne].
  - rewrite index_insert_eq by done. eexists. split; [done|].
    cbn [info_type]. congruence.
  - rewrite index_insert_ne by (done || lia). eauto.
Qed.

(** X6: unbinding twice is unbinding once.  After [unbind_from_irq]
    has returned, the record of the IRQ has type IRQT_UNBOUND and no
    port, and a second [unbind_from_irq] issues no hypercall and leaves
    the state as it is.  (An IRQ of type
    IRQT_UNBOUND is assumed to have no port to begin with.) *)
Theorem unbind_from_irq_idempotent st irq info st' :
  index (irq_info st) irq = Some info ->
  (info_type info = IRQT_UNBOUND -> info_evtchn info = 0) ->
  unbind_from_irq irq st = Ok tt st' ->
  (exists info', index (irq_info st') irq = Some info' /\
                 info_type info' = IRQT_UNBOUND /\ info_evtchn info' = 0) /\
  unbind_from_irq irq st' = Ok tt st'.
Proof.
  intros Hinfo Hun Hrun.
  assert (exists info', index (irq_info st') irq = Some info' /\
            info_type info' = IRQT_UNBOUND /\ info_evtchn info' = 0)
    as (info' & Hafter & Hty' & Hev').
  { unfold unbind_from_irq in Hrun.
    rewrite (bind_eq _ _ _ _ _ (evtchn_from_irq_eq _ _ _ Hinfo)) in Hrun.
    apply bind_Ok in Hrun as ([] & s1 & Hclose & Hrun).
    apply (unbind_close_keeps_type _ _ _ _ _ Hinfo) in Hclose
      as [[Hz ->]|(Hnz & info' & Hinfo' & Hty)].
    - rewrite (bind_eq _ _ _ _ _ (info_for_irq_eq _ _ _ Hinfo)) in Hrun.
      revert Hrun. case_bool_decide as Hty; cbn [negb when]; intros Hrun.
      + minv. eauto.
      + apply bind_Ok in Hrun as ([] & s2 & [Hirq ->]%set_info_Ok & Hrun).
        minv. sproj. exists mk_unbound_info. split; [|done].
        by apply index_insert_eq.
    - rewrite (bind_eq _ _ _ _ _ (info_for_irq_eq _ _ _ Hinfo')) in Hrun.
      revert Hrun. rewrite Hty.
      case_bool_decide as Hty'; cbn [negb when]; intros Hrun.
      + by specialize (Hun Hty').
      + apply bind_Ok in Hrun as ([] & s2 & [Hirq ->]%set_info_Ok & Hrun).
        minv. sproj. exists mk_unbound_info. split; [|done].
        by apply index_insert_eq. }
  split; [eauto|]. unfold unbind_from_irq.
  rewrite (bind_eq _ _ _ _ _ (evtchn_from_irq_eq _ _ _ Hafter)), Hev'.
  cbn [VALID_EVTCHN Z.eqb negb]. mrun.
  rewrite (bind_eq _ _ _ _ _ (info_for_irq_eq _ _ _ Hafter)), Hty'.
  by rewrite bool_decide_eq_true_2.
Qed.

End Binding2.

Section CpuMasks.

Context {plat : Platform} {hv : HvCall} {core : IrqCore}.

Lemma cpu_from_evtchn_unbound st port :
  index (evtchn_to_irq st) port = Some (-1) ->
  cpu_from_evtchn port st = Ok 0 st.
Proof. intros Hp. unfold cpu_from_evtchn. mrun. rewrite Hp. by mrun. Qed.

Lemma cpu_from_evtchn_bound st port irq info :
  index (evtchn_to_irq st) port = Some irq ->
  irq <> -1 ->
  index (irq_info st) irq = Some info ->
  cpu_from_evtchn port st = Ok (info_cpu info) st.
Proof.
  intros Hp Hne Hinfo. unfold cpu_from_evtchn, cpu_from_irq. mrun.
  rewrite Hp. mrun. apply Z.eqb_neq in Hne. rewrite Hne.
  by rewrite (bind_eq _ _ _ _ _ (info_for_irq_eq _ _ _ Hinfo)).
Qed.

Lemma cpu_from_evtchn_inv st port home st' :
  cpu_from_evtchn port st = Ok home st' ->
  exists irq,
    index (evtchn_to_irq st) port = Some irq /\
    (irq = -1 /\ home = 0 \/
     irq <> -1 /\ exists info, index (irq_info st) irq = Some info /\
                               home = info_cpu info).
Proof.
  unfold cpu_from_evtchn, cpu_from_irq, info_for_irq. intros Hc. minv.
  rename select (index (evtchn_to_irq st) port = Some _) into Hp.
  eexists. split; [done|]. revert Hc.
  destruct (Z.eqb_spec a0 (-1)) as [->|Hne]; intros Hc; minv; [by left|].
  right. eauto.
Qed.

(** What [bind_evtchn_to_cpu] writes. *)
Lemma bind_evtchn_to_cpu_inv st chn cpu st' :
  bind_evtchn_to_cpu chn cpu st = Ok tt st' ->
  exists irq info d row_old row1 row2 row3,
    index (evtchn_to_irq st) chn = Some irq /\
    irq <> -1 /\
    index (irq_info st) irq = Some info /\
    index (cpu_evtchn_mask_p st) (info_cpu info) = Some row_old /\
    clear_bit chn row_old = Some row1 /\
    index (<[Z.to_nat (info_cpu info) := row1]> (cpu_evtchn_mask_p st)) cpu
      = Some row2 /\
    set_bit chn row2 = Some row3 /\
    st' = with_irq_info
            (<[Z.to_nat irq := mk_irq_info (info_type info) (info_evtchn info)
                                 (to_ushort cpu) (info_u info)]> (irq_info st))
            (with_cpu_evtchn_mask_p
               (<[Z.to_nat cpu := row3]>
                  (<[Z.to_nat (info_cpu info) := row1]> (cpu_evtchn_mask_p st)))
               (with_irq_descs
                  (<[Z.to_nat irq := Some (desc_set_affinity cpu d)]>
                     (irq_descs st)) st)).
Proof.
  unfold bind_evtchn_to_cpu, irq_to_desc, cpu_from_irq, cpu_evtchn_mask,
    set_cpu_evtchn_mask, info_for_irq, set_info.
  intros Hb. minv. sproj_all.
  rename select (index (evtchn_to_irq st) chn = Some _) into Hirq.
  rename select ((_ =? -1) = false) into Hne.
  rename select (store (irq_info st) _ _ = Some _) into Hinfo'.
  rename select (clear_bit chn _ = Some _) into Hclear.
  rename select (set_bit chn _ = Some _) into Hset.
  rename select (store (cpu_evtchn_mask_p st) _ _ = Some _) into Hold.
  rename select (store _ cpu _ = Some _) into Hnew.
  rename select (store (irq_descs st) _ _ = Some _) into Hdesc.
  simplify_eq.
  apply store_Some in Hinfo' as [_ ->]. apply store_Some in Hold as [_ ->].
  apply store_Some in Hnew as [_ ->]. apply store_Some in Hdesc as [_ ->].
  eexists _, _, _, _, _, _, _. split; [done|]. split; [by apply Z.eqb_neq|].
  do 5 (split; [done|]). done.
Qed.

(** X7: [bind_evtchn_to_cpu] keeps the port masks of the CPUs in step
    with the bindings: if every port is in the mask of exactly the CPU
    it is bound to, and no IRQ has two ports, the same holds after the
    port has been moved, and the port is then bound to the new CPU. *)
Theorem bind_evtchn_to_cpu_keeps_masks st chn cpu st' :
  port_cpu_consistent st ->
  ports_distinct st ->
  0 <= cpu < 2 ^ 16 ->
  bind_evtchn_to_cpu chn cpu st = Ok tt st' ->
  port_cpu_consistent st' /\ ports_distinct st' /\
  cpu_from_evtchn chn st' = Ok cpu st'.
Proof.
  intros Hinv Hdist Hcpu Hrun.
  apply bind_evtchn_to_cpu_inv in Hrun
    as (irq & info & d & row_old & row1 & row2 & row3 & Hirq & Hne & Hinfo
        & Hold & Hclear & Hrow2 & Hset & ->).
  set (old := info_cpu info) in *.
  set (st' := with_irq_info _ _).
  pose proof (index_range _ _ _ Hinfo) as Hri.
  pose proof (index_range _ _ _ Hold) as Hro.
  assert (to_ushort cpu = cpu) as Hus by (unfold to_ushort; apply Z.mod_small; lia).
  assert (cpu_from_evtchn chn st' = Ok cpu st') as Hnew.
  { pose proof (cpu_from_evtchn_bound st' chn irq
                  (mk_irq_info (info_type info) (info_evtchn info)
                     (to_ushort cpu) (info_u info)) Hirq Hne) as Hb.
    cbn [info_cpu] in Hb. rewrite Hus in Hb. apply Hb.
    unfold st'. sproj. rewrite Hus. by apply index_insert_eq. }
  assert (forall p home, p <> chn ->
            cpu_from_evtchn p st = Ok home st ->
            cpu_from_evtchn p st' = Ok home st') as Hother.
  { intros p home Hp Hh.
    apply cpu_from_evtchn_inv in Hh
      as (irq_p & Hirq_p & [[-> ->]|(Hne_p & info_p & Hinfo_p & ->)]).
    - by apply cpu_from_evtchn_unbound.
    - eapply cpu_from_evtchn_bound; [done|done|]. unfold st'. sproj.
      rewrite index_insert_ne; [done|lia|].
      intros <-. apply Hp. by eapply Hdist. }
  assert (forall c bits', index (cpu_evtchn_mask_p st') c = Some bits' ->
            exists bits, index (cpu_evtchn_mask_p st) c = Some bits /\
              forall p, test_bit p bits' =
                if decide (p = chn) then
                  if decide (c = cpu) then Some true
                  else if decide (c = old) then Some false
                  else test_bit chn bits
                else test_bit p bits) as Hrows.
  { intros c bits' Hc. unfold st' in Hc. sproj_all.
    pose proof (index_range _ _ _ Hc) as Hrc.
    rewrite !length_insert in Hrc.
    destruct (index_lt (cpu_evtchn_mask_p st) c Hrc) as [bits Hbits].
    exists bits. split; [done|]. intros p.
    destruct (decide (c = cpu)) as [->|Hc_cpu].
    - rewrite index_insert_eq in Hc by (rewrite length_insert; lia).
      injection Hc as <-. rewrite (test_bit_set_bit _ _ _ _ Hset).
      case_decide; [done|].
      destruct (decide (cpu = old)) as [Heq|Hneq].
      + rewrite Heq, index_insert_eq in Hrow2 by lia. injection Hrow2 as <-.
        rewrite (test_bit_clear_bit _ _ _ _ Hclear), decide_False by done.
        congruence.
      + rewrite index_insert_ne in Hrow2 by (done || lia). congruence.
    - rewrite index_insert_ne in Hc by (done || lia).
      destruct (decide (c = old)) as [->|Hc_old].
      + rewrite index_insert_eq in Hc by lia. injection Hc as <-.
        rewrite (test_bit_clear_bit _ _ _ _ Hclear).
        case_decide; [done|]. congruence.
      + rewrite index_insert_ne in Hc by (done || lia).
        replace bits' with bits by congruence. case_decide; by subst. }
  split; [|split; [|done]].
  - intros p c bits' b Hc Hb.
    destruct (Hrows c bits' Hc) as (bits & Hbits & Hbit).
    rewrite Hbit in Hb. revert Hb. destruct (decide (p = chn)) as [->|Hp].
    + intros Hb. exists cpu. split; [done|]. revert Hb.
      destruct (decide (c = cpu)) as [->|Hc_cpu].
      { intros [= <-]. by rewrite bool_decide_eq_true_2. }
      rewrite bool_decide_eq_false_2 by done.
      destruct (decide (c = old)) as [->|Hc_old]; [by intros [= <-]|].
      intros Hb. destruct (Hinv chn c bits b Hbits Hb) as (home & Hh & ->).
      rewrite (cpu_from_evtchn_bound st chn irq info Hirq Hne Hinfo) in Hh.
      injection Hh as <-. by rewrite bool_decide_eq_false_2.
    + intros Hb. destruct (Hinv p c bits b Hbits Hb) as (home & Hh & ->).
      exists home. split; [by apply Hother|done].
  - exact Hdist.
Qed.

End CpuMasks.

Lemma test_bit_replicate (p : Z) (n : nat) (x : Z) (b : bool) :
  test_bit p (replicate n x) = Some b ->
  0 <= p < BITS_PER_LONG * Z.of_nat n /\ b = Z.testbit x (p mod BITS_PER_LONG).
Proof.
  intros Hb. pose proof (test_bit_Some _ _ _ Hb) as Hr.
  rewrite length_replicate in Hr. split; [done|].
  unfold test_bit in Hb.
  destruct (index _ _) as [w|] eqn:Hw; [|done]. injection Hb as <-.
  apply index_Some in Hw as [_ Hw]. by apply lookup_replicate in Hw as [-> _].
Qed.

Section Resume.

Context {plat : Platform} {hv : HvCall} {core : IrqCore}.

Lemma init_evtchn_cpu_bindings_run st :
  0 <= nr_cpu_ids <= Z.of_nat (length (cpu_evtchn_mask_p st)) ->
  exists masks descs,
    init_evtchn_cpu_bindings st =
      Ok tt (with_cpu_evtchn_mask_p masks (with_irq_descs descs st)) /\
    length masks = length (cpu_evtchn_mask_p st) /\
    forall i, 0 <= i < nr_cpu_ids ->
      index masks i =
        Some (replicate (Z.to_nat (NR_EVENT_CHANNELS / BITS_PER_LONG))
                (if i =? 0 then Z.ones 64 else 0)).
Proof.
  intros Hn. unfold init_evtchn_cpu_bindings. mrun.
  set (s0 := with_irq_descs _ st).
  set (row := fun i : Z =>
         replicate (Z.to_nat (NR_EVENT_CHANNELS / BITS_PER_LONG))
           (if i =? 0 then Z.ones 64 else 0)).
  destruct (for_each_range
    (fun i s => exists l, s = with_cpu_evtchn_mask_p l s0 /\
       length l = length (cpu_evtchn_mask_p st) /\
       forall k, 0 <= k < i -> index l k = Some (row k))
    (fun i => set_cpu_evtchn_mask i (row i))
    0 nr_cpu_ids s0) as (st' & Hrun & l & -> & Hlen & Hl); [| |lia|].
  - exists (cpu_evtchn_mask_p st). split; [by destruct st|].
    split; [done|]. intros k Hk. lia.
  - intros i s Hi (l & -> & Hlen & Hl).
    eexists. split.
    + unfold set_cpu_evtchn_mask. mrun. rewrite store_lt by lia. mrun.
      reflexivity.
    + eexists. split; [done|]. split; [by rewrite length_insert|].
      intros k Hk. destruct (decide (k = i)) as [->|Hne].
      * apply index_insert_eq. lia.
      * rewrite index_insert_ne by lia. apply Hl. lia.
  - eexists _, _. split; [exact Hrun|]. split; [done|].
    intros i Hi. apply Hl. lia.
Qed.

Lemma resume_invalidate_run st :
  0 <= nr_cpu_ids <= Z.of_nat (length (cpu_evtchn_mask_p st)) ->
  nr_irqs = Z.of_nat (length (irq_info st)) ->
  NR_EVENT_CHANNELS = Z.of_nat (length (evtchn_to_irq st)) ->
  NR_EVENT_CHANNELS <=
    BITS_PER_LONG * Z.of_nat (length (evtchn_mask (HYPERVISOR_shared_info st))) ->
  exists st',
    xen_irq_resume_invalidate st = Ok tt st' /\
    irq_info st' = zap_evtchn <$> irq_info st /\
    evtchn_to_irq st' = replicate (Z.to_nat NR_EVENT_CHANNELS) (-1) /\
    length (cpu_evtchn_mask_p st') = length (cpu_evtchn_mask_p st) /\
    (forall i, 0 <= i < nr_cpu_ids ->
       index (cpu_evtchn_mask_p st') i =
         Some (replicate (Z.to_nat (NR_EVENT_CHANNELS / BITS_PER_LONG))
                 (if i =? 0 then Z.ones 64 else 0))) /\
    trace st' = trace st /\
    virq_to_irq st' = virq_to_irq st /\
    ipi_to_irq st' = ipi_to_irq st.
Proof.
  intros Hcpu Hirqs Hchn Hmask. unfold xen_irq_resume_invalidate.
  destruct (init_evtchn_cpu_bindings_run st Hcpu)
    as (masks & descs & Hinit & Hlen & Hrows).
  rewrite (bind_eq _ _ _ _ _ Hinit).
  set (s1 := with_cpu_evtchn_mask_p _ _).
  destruct (mask_all_evtchns s1 NR_EVENT_CHANNELS) as (m & Hm & Hbits).
  { unfold s1. sproj. lia. }
  rewrite (bind_eq _ _ _ _ _ Hm).
  set (s2 := with_evtchn_mask _ _).
  rewrite Hirqs. change (irq_info st) with (irq_info s2) at 1.
  rewrite (bind_eq _ _ _ _ _ (zap_all_evtchns s2)).
  set (s3 := with_irq_info _ _).
  rewrite Hchn. change (evtchn_to_irq st) with (evtchn_to_irq s3) at 1.
  rewrite clear_all_evtchn_to_irq.
  eexists. split; [reflexivity|]. unfold s3, s2, s1. sproj.
  split; [done|]. split; [by rewrite Nat2Z.id|].
  split; [done|]. split; [|done].
  intros i Hi. rewrite <- Hchn. by apply Hrows.
Qed.

(** X8: after the first part of [xen_irq_resume] every port is bound
    to CPU 0 and is in the port mask of CPU 0 and of no other CPU: the
    port masks and the bindings are in step, and no IRQ has a port. *)
Theorem resume_invalidate_masks st :
  0 <= nr_cpu_ids ->
  nr_cpu_ids = Z.of_nat (length (cpu_evtchn_mask_p st)) ->
  nr_irqs = Z.of_nat (length (irq_info st)) ->
  NR_EVENT_CHANNELS = Z.of_nat (length (evtchn_to_irq st)) ->
  NR_EVENT_CHANNELS <=
    BITS_PER_LONG * Z.of_nat (length (evtchn_mask (HYPERVISOR_shared_info st))) ->
  exists st',
    xen_irq_resume_invalidate st = Ok tt st' /\
    port_cpu_consistent st' /\
    ports_distinct st' /\
    (forall port, 0 <= port < NR_EVENT_CHANNELS ->
       cpu_from_evtchn port st' = Ok 0 st') /\
    (forall port cpu bits,
       0 <= port < BITS_PER_LONG * (NR_EVENT_CHANNELS / BITS_PER_LONG) ->
       index (cpu_evtchn_mask_p st') cpu = Some bits ->
       test_bit port bits = Some (bool_decide (cpu = 0))).
Proof.
  intros Hcpu0 Hcpu Hirqs Hchn Hmask.
  destruct (resume_invalidate_run st) as (st' & Hrun & _ & Htbl & Hlen & Hrows & _);
    [lia|done|done|done|].
  assert (0 <= NR_EVENT_CHANNELS) as Hnr by lia.
  assert (BITS_PER_LONG * (NR_EVENT_CHANNELS / BITS_PER_LONG)
          <= NR_EVENT_CHANNELS) as Hwords
    by (apply Z.mul_div_le; reflexivity).
  assert (forall port, 0 <= port < NR_EVENT_CHANNELS ->
            cpu_from_evtchn port st' = Ok 0 st') as Hhome.
  { intros port Hp. apply cpu_from_evtchn_unbound. rewrite Htbl.
    apply index_Some. split; [lia|]. apply lookup_replicate_2. lia. }
  assert (forall cpu bits, index (cpu_evtchn_mask_p st') cpu = Some bits ->
            bits = replicate (Z.to_nat (NR_EVENT_CHANNELS / BITS_PER_LONG))
                     (if cpu =? 0 then Z.ones 64 else 0)) as Hrow.
  { intros cpu bits Hb. pose proof (index_range _ _ _ Hb) as Hr.
    rewrite Hrows in Hb by lia. congruence. }
  assert (forall cpu p, 0 <= p ->
            Z.testbit (if cpu =? 0 then Z.ones 64 else 0) (p mod BITS_PER_LONG)
            = bool_decide (cpu = 0)) as Hbit.
  { intros cpu p Hp. pose proof (bit_pos p) as Hm.
    destruct (Z.eqb_spec cpu 0) as [->|Hne].
    - rewrite Z.ones_spec_low by (unfold BITS_PER_LONG in *; lia).
      by rewrite bool_decide_eq_true_2.
    - rewrite Z.bits_0. by rewrite bool_decide_eq_false_2. }
  exists st'. split; [done|]. split; [|split; [|split; [done|]]].
  - intros port cpu bits b Hb Ht. rewrite (Hrow _ _ Hb) in Ht.
    apply test_bit_replicate in Ht as [Hp ->].
    exists 0. split.
    + apply Hhome. rewrite Z2Nat.id in Hp by (apply Z.div_pos; [lia|reflexivity]).
      lia.
    + apply Hbit. lia.
  - intros p1 p2 irq Hp1 _ Hne. rewrite Htbl in Hp1.
    apply index_Some in Hp1 as [_ Hp1].
    by apply lookup_replicate in Hp1 as [-> _].
  - intros port cpu bits Hp Hb. rewrite (Hrow _ _ Hb).
    destruct (test_bit_lt port
                (replicate (Z.to_nat (NR_EVENT_CHANNELS / BITS_PER_LONG))
                   (if cpu =? 0 then Z.ones 64 else 0))) as [b Ht].
    { rewrite length_replicate, Z2Nat.id; [done|].
      apply Z.div_pos; [lia|reflexivity]. }
    rewrite Ht. apply test_bit_replicate in Ht as [_ ->].
    f_equal. apply Hbit. lia.
Qed.

End Resume.

Section Pirq.

Context {plat : Platform} {hv : HvCall} {core : IrqCore}.

(** X9: [shutdown_pirq] on an IRQ whose port maps back to it.  The
    function returns only for a pass-through IRQ.  Without a port it
    does nothing.  With a port [p], it masks [p], closes it with one
    EVTCHNOP_close hypercall, puts it back into the port mask of CPU 0
    and takes it out of [evtchn_to_irq]; the IRQ keeps its type and its
    GSI, vector and flags, and has no port afterwards. *)
Theorem shutdown_pirq_post st irq info st' :
  index (irq_info st) irq = Some info ->
  (info_evtchn info <> 0 ->
   index (evtchn_to_irq st) (info_evtchn info) = Some irq) ->
  shutdown_pirq irq st = Ok tt st' ->
  let evtchn := info_evtchn info in
  info_type info = IRQT_PIRQ /\
  (evtchn = 0 -> st' = st) /\
  (evtchn <> 0 ->
   index (irq_info st') irq = Some (mk_irq_info IRQT_PIRQ 0 0 (info_u info)) /\
   index (evtchn_to_irq st') evtchn = Some (-1) /\
   test_bit evtchn (evtchn_mask (HYPERVISOR_shared_info st')) = Some true /\
   trace st' = trace st ++ [Hypercall (EVTCHNOP_close evtchn)] /\
   exists bits, index (cpu_evtchn_mask_p st') 0 = Some bits /\
                test_bit evtchn bits = Some true).
Proof.
  intros Hinfo Hback. unfold shutdown_pirq.
  rewrite (bind_eq _ _ _ _ _ (info_for_irq_eq _ _ _ Hinfo)).
  rewrite (bind_eq _ _ _ _ _ (evtchn_from_irq_eq _ _ _ Hinfo)).
  case_bool_decide as Hty; cbn [negb]; [mrun|done].
  unfold VALID_EVTCHN.
  destruct (Z.eqb_spec (info_evtchn info) 0) as [Hz|Hnz]; cbn [negb].
  { intros Hrun. minv. cbn zeta. split; [done|]. split; [done|]. done. }
  specialize (Hback Hnz). intros Hrun. cbn zeta.
  split; [done|]. split; [done|]. intros _. revert Hrun.
  unfold mask_evtchn at 1. mrun. intros Hrun.
  apply bind_Ok in Hrun as (m & s0 & Hm & Hrun). apply deref_Ok in Hm as [Hm ->].
  revert Hrun. mrun. unfold HYPERVISOR_event_channel_op.
  rewrite bind_HYPERVISOR_op. mrun.
  destruct (rc _ =? 0); cbn [negb]; [mrun|done].
  set (s1 := with_trace _ _). intros Hrun.
  apply bind_Ok in Hrun as ([] & s2 & Hcpu & Hrun).
  apply bind_evtchn_to_cpu_Ok in Hcpu
    as (irq1 & info1 & descs' & masks' & Hirq1 & _ & Hinfo1 & -> & Hmask & _).
  unfold s1 in Hirq1, Hinfo1. sproj_all.
  assert (irq1 = irq) as -> by congruence.
  assert (info1 = info) as -> by congruence.
  apply bind_Ok in Hrun as ([] & s3 & [Hev ->]%set_evtchn_to_irq_Ok & Hrun).
  pose proof (index_range _ _ _ Hinfo) as Hri.
  revert Hrun. unfold info_for_irq at 1. mrun.
  rewrite index_insert_eq by done. mrun.
  intros [_ ->]%set_info_Ok. sproj. rewrite Hty.
  split; [apply index_insert_eq; by rewrite length_insert|].
  split; [by apply index_insert_eq|].
  split; [by rewrite (test_bit_set_bit _ _ _ _ Hm), decide_True|].
  unfold s1. sproj. done.
Qed.

End Pirq.

Section Retrigger.

Context {plat : Platform} {hv : HvCall} {core : IrqCore}.

(** The body that [retrigger_irq] and [resend_irq_on_evtchn] share. *)
Lemma retrigger_valid st irq info :
  index (irq_info st) irq = Some info ->
  info_evtchn info <> 0 ->
  retrigger_irq irq st = resend_irq_on_evtchn irq st.
Proof.
  intros Hinfo Hnz. unfold retrigger_irq, resend_irq_on_evtchn.
  rewrite !(bind_eq _ _ _ _ _ (evtchn_from_irq_eq _ _ _ Hinfo)).
  unfold VALID_EVTCHN. apply Z.eqb_neq in Hnz. by rewrite Hnz.
Qed.

Lemma bind_run {A B} (m : M A) (k : A -> M B) s :
  bind m k s = match m s with Ok a s' => k a s' | Stop f => Stop f end.
Proof. reflexivity. Qed.

Lemma cpu_from_evtchn_frame st st' port home :
  evtchn_to_irq st' = evtchn_to_irq st ->
  irq_info st' = irq_info st ->
  cpu_from_evtchn port st = Ok home st ->
  cpu_from_evtchn port st' = Ok home st'.
Proof.
  intros Htbl Hinfos Hh.
  apply cpu_from_evtchn_inv in Hh
    as (irq & Hirq & [[-> ->]|(Hne & info & Hinfo & ->)]).
  - apply cpu_from_evtchn_unbound. by rewrite Htbl.
  - eapply cpu_from_evtchn_bound; [by rewrite Htbl|done|by rewrite Hinfos].
Qed.

(** X10: retriggering an IRQ whose port [p] is bound to the executing
    CPU.  [retrigger_irq] and [resend_irq_on_evtchn] do the same and
    return 1: [p] is made pending and its mask bit is as before; no
    other bit of the two shared bitmaps changes and no hypercall is
    issued.  If [p] was masked, that is all.  If [p] was not masked,
    the selector bit of its word is set, and the upcall flag is raised
    if that selector bit was clear, so that the event is delivered. *)
Theorem retrigger_irq_local st irq info masked v :
  let port := info_evtchn info in
  let cpu := smp_processor_id st in
  index (irq_info st) irq = Some info ->
  0 < port < BITS_PER_LONG * BITS_PER_LONG ->
  irqs_disabled st = true ->
  cpu_from_evtchn port st = Ok cpu st ->
  index (xen_vcpu st) cpu = Some v ->
  test_bit port (evtchn_mask (HYPERVISOR_shared_info st)) = Some masked ->
  is_Some (test_bit port (evtchn_pending (HYPERVISOR_shared_info st))) ->
  exists st',
    retrigger_irq irq st = Ok 1 st' /\
    resend_irq_on_evtchn irq st = Ok 1 st' /\
    (forall p,
       test_bit p (evtchn_pending (HYPERVISOR_shared_info st')) =
         if decide (p = port) then Some true
         else test_bit p (evtchn_pending (HYPERVISOR_shared_info st))) /\
    (forall p,
       test_bit p (evtchn_mask (HYPERVISOR_shared_info st')) =
         test_bit p (evtchn_mask (HYPERVISOR_shared_info st))) /\
    index (xen_vcpu st') cpu =
      Some (if masked then v
            else mk_vcpu_info
                   (if Z.testbit (evtchn_pending_sel v) (port / BITS_PER_LONG)
                    then evtchn_upcall_pending v else 1)
                   (Z.setbit (evtchn_pending_sel v) (port / BITS_PER_LONG))) /\
    trace st' = trace st.
Proof.
  intros port cpu Hinfo Hport Hdis Hhome Hv Hmask [pend Hpend].
  rewrite <- (retrigger_valid _ _ _ Hinfo) by (fold port; lia).
  destruct (set_bit_lt port (evtchn_mask (HYPERVISOR_shared_info st)))
    as [m1 Hm1]; [by eapply test_bit_Some|].
  destruct (set_bit_lt port (evtchn_pending (HYPERVISOR_shared_info st)))
    as [p1 Hp1]; [by eapply test_bit_Some|].
  assert (forall p, test_bit p p1 =
            if decide (p = port) then Some true
            else test_bit p (evtchn_pending (HYPERVISOR_shared_info st)))
    as Hpending by (intros p; apply (test_bit_set_bit _ _ _ _ Hp1)).
  unfold retrigger_irq.
  rewrite (bind_eq _ _ _ _ _ (evtchn_from_irq_eq _ _ _ Hinfo)). fold port.
  unfold VALID_EVTCHN.
  replace (port =? 0) with false by (symmetry; apply Z.eqb_neq; lia).
  cbn [negb]. mrun. unfold test_and_set_bit. rewrite Hmask, Hm1. cbn. mrun.
  rewrite Hp1. mrun.
  set (s2 := with_evtchn_pending _ _).
  destruct masked; cbn [negb]; mrun.
  { eexists. split; [reflexivity|]. split; [reflexivity|]. unfold s2. sproj.
    split; [done|]. split; [|done].
    intros p. rewrite (test_bit_set_bit _ _ _ _ Hm1).
    case_decide; [by subst|done]. }
  destruct (clear_bit_lt port m1) as [m2 Hm2].
  { apply set_bit_Some in Hm1 as [_ ->]. by eapply test_bit_Some. }
  assert (cpu_from_evtchn port s2 = Ok (smp_processor_id s2) s2) as Hhome2
    by (by apply (cpu_from_evtchn_frame st)).
  assert (test_bit port (evtchn_pending (HYPERVISOR_shared_info s2))
          = Some true) as Hpend2
    by (unfold s2; sproj; rewrite Hpending; by rewrite decide_True).
  rewrite bind_run, (unmask_evtchn_local s2 port m2 true Hdis Hhome2 Hm2 Hpend2).
  clear Hhome2 Hpend2. subst s2. sproj. fold cpu.
  assert (0 <= port / BITS_PER_LONG < BITS_PER_LONG) as Hq.
  { split; [apply Z.div_pos; unfold BITS_PER_LONG; lia|].
    apply Z.div_lt_upper_bound; unfold BITS_PER_LONG in *; lia. }
  destruct (index_range _ _ _ Hv) as [Hc0 Hc1].
  unfold get_vcpu_info, set_vcpu_info. mrun.
  rewrite Hv. mrun.
  rewrite quot_word, test_and_set_bit_word by (done || lia). mrun.
  change (index [?x] 0) with (Some x). mrun.
  rewrite store_lt by lia. mrun.
  assert (forall p, test_bit p m2 =
            test_bit p (evtchn_mask (HYPERVISOR_shared_info st))) as Hmasks.
  { intros p. rewrite (test_bit_clear_bit _ _ _ _ Hm2),
      (test_bit_set_bit _ _ _ _ Hm1). case_decide; [by subst|done]. }
  destruct (Z.testbit (evtchn_pending_sel v) _) eqn:Hold; mrun.
  - eexists. split; [reflexivity|]. split; [reflexivity|]. sproj.
    split; [done|]. split; [done|]. split; [by apply index_insert_eq|done].
  - rewrite store_lt by (rewrite length_insert; lia). mrun.
    eexists. split; [reflexivity|]. split; [reflexivity|]. sproj.
    split; [done|]. split; [done|].
    split; [apply index_insert_eq; by rewrite length_insert|done].
Qed.

End Retrigger.

Section Upcall.

Context {plat : Platform} {hv : HvCall} {core : IrqCore}.

Lemma get_vcpu_info_Ok cpu st v st' :
  get_vcpu_info cpu st = Ok v st' ->
  index (xen_vcpu st) cpu = Some v /\ st' = st.
Proof. unfold get_vcpu_info. intros Hg. by minv. Qed.

Lemma set_vcpu_info_Ok cpu v st st' :
  set_vcpu_info cpu v st = Ok tt st' ->
  0 <= cpu < Z.of_nat (length (xen_vcpu st)) /\
  st' = with_xen_vcpu (<[Z.to_nat cpu := v]> (xen_vcpu st)) st.
Proof.
  unfold set_vcpu_info. intros Hs. minv.
  rename select (store _ _ _ = Some _) into Hst.
  by apply store_Some in Hst as [? ->].
Qed.

Lemma get_cpu_var_Ok var cpu st x st' :
  get_cpu_var var cpu st = Ok x st' ->
  index (var st) cpu = Some x /\ st' = st.
Proof. unfold get_cpu_var. intros Hg. by minv. Qed.

Lemma set_cpu_var_Ok var upd cpu x st st' :
  set_cpu_var var upd cpu x st = Ok tt st' ->
  0 <= cpu < Z.of_nat (length (var st)) /\
  st' = upd (<[Z.to_nat cpu := x]> (var st)) st.
Proof.
  unfold set_cpu_var. intros Hs. minv.
  rename select (store _ _ _ = Some _) into Hst.
  by apply store_Some in Hst as [? ->].
Qed.

Lemma upcall_loop_post fuel cpu st st' :
  upcall_loop fuel cpu st = Ok tt st' ->
  (exists v, index (xen_vcpu st') cpu = Some v /\
             evtchn_upcall_pending v = 0) /\
  (index (xed_nesting_count st) cpu = Some 0 ->
   index (xed_nesting_count st') cpu = Some 0) /\
  (forall n, index (xed_nesting_count st) cpu = Some n -> n <> 0 ->
     exists v,
       index (xen_vcpu st) cpu = Some v /\
       st' = with_xed_nesting_count
               (<[Z.to_nat cpu := to_uint (n + 1)]> (xed_nesting_count st))
               (with_xen_vcpu
                  (<[Z.to_nat cpu := mk_vcpu_info 0 (evtchn_pending_sel v)]>
                     (xen_vcpu st)) st)).
Proof.
  revert st. induction fuel as [|fuel IH]; intros st Hrun; [done|].
  cbn [upcall_loop] in Hrun.
  apply bind_Ok in Hrun as (v0 & s0 & [Hv0 ->]%get_vcpu_info_Ok & Hrun).
  apply bind_Ok in Hrun as ([] & s1 & [Hcpu ->]%set_vcpu_info_Ok & Hrun).
  apply bind_Ok in Hrun as (n & s2 & [Hn ->]%get_cpu_var_Ok & Hrun).
  apply bind_Ok in Hrun as ([] & s3 & [Hcpu' ->]%set_cpu_var_Ok & Hrun).
  sproj_all.
  destruct (Z.eqb_spec n 0) as [->|Hnz]; cbn [negb] in Hrun.
  - (* top level: the scan, then the test of the [while] *)
    apply bind_Ok in Hrun as (v1 & s4 & _ & Hrun).
    apply bind_Ok in Hrun as ([] & s5 & _ & Hrun).
    apply bind_Ok in Hrun as (sw & s6 & _ & Hrun).
    apply bind_Ok in Hrun as (sb & s7 & _ & Hrun).
    apply bind_Ok in Hrun as ([] & s8 & _ & Hrun).
    apply bind_Ok in Hrun as (dis & s9 & _ & Hrun).
    apply bind_Ok in Hrun as ([] & s10 & _ & Hrun).
    apply bind_Ok in Hrun as (count & s11 & _ & Hrun).
    apply bind_Ok in Hrun as ([] & s12 & [Hc12 ->]%set_cpu_var_Ok & Hrun).
    apply bind_Ok in Hrun as (v & s13 & [Hv ->]%get_vcpu_info_Ok & Hrun).
    sproj_all.
    assert (index (<[Z.to_nat cpu := 0]> (xed_nesting_count s11)) cpu = Some 0)
      as Hzero by (by apply index_insert_eq).
    destruct (negb (count =? 1) || negb (evtchn_upcall_pending v =? 0))
      eqn:Hagain.
    + apply IH in Hrun as (Hflag & Hcount & _). sproj_all.
      split; [done|]. split; [auto|]. intros n Hn' Hne. congruence.
    + apply ret_Ok in Hrun as [_ ->]. sproj.
      apply orb_false_iff in Hagain as [_ Hp%negb_false_iff%Z.eqb_eq].
      split; [eauto|]. split; [done|]. intros n Hn' Hne. congruence.
  - apply ret_Ok in Hrun as [_ ->]. sproj.
    split; [|split].
    + eexists. split; [by apply index_insert_eq|done].
    + intros Hz. congruence.
    + intros n' Hn' _. assert (n' = n) as -> by congruence. eauto.
Qed.

(** X11: an upcall that returns has cleared the upcall flag of its
    CPU.  Entered with the nesting count of the CPU at 0, it leaves the
    count at 0.  Entered with a nonzero count (an upcall within an
    upcall), it handles nothing: it clears the flag, adds one to the
    count and returns, and nothing else changes. *)
Theorem upcall_leaves_flag_clear fuel st st' :
  __xen_evtchn_do_upcall fuel st = Ok tt st' ->
  let cpu := smp_processor_id st in
  (exists v, index (xen_vcpu st') cpu = Some v /\
             evtchn_upcall_pending v = 0) /\
  (index (xed_nesting_count st) cpu = Some 0 ->
   index (xed_nesting_count st') cpu = Some 0) /\
  (forall n, index (xed_nesting_count st) cpu = Some n -> n <> 0 ->
     exists v,
       index (xen_vcpu st) cpu = Some v /\
       st' = with_xed_nesting_count
               (<[Z.to_nat cpu := to_uint (n + 1)]> (xed_nesting_count st))
               (with_xen_vcpu
                  (<[Z.to_nat cpu := mk_vcpu_info 0 (evtchn_pending_sel v)]>
                     (xen_vcpu st)) st)).
Proof.
  unfold __xen_evtchn_do_upcall. mrun. apply upcall_loop_post.
Qed.

End Upcall.

Lemma seqZ_below (a n : Z) (pre post : list Z) (r j : Z) :
  seqZ a n = pre ++ r :: post -> a <= j < r -> j ∈ pre.
Proof.
  intros Hseq Hj.
  assert (seqZ a n !! length pre = Some r) as Hat
    by (rewrite Hseq; by rewrite list_lookup_middle).
  apply lookup_seqZ in Hat as [Hat Hlen].
  assert (seqZ a n !! Z.to_nat (j - a) = Some j) as Hjat
    by (apply lookup_seqZ; lia).
  rewrite Hseq, lookup_app_l in Hjat by lia.
  by eapply list_elem_of_lookup_2.
Qed.

Section Gsi.

Context {plat : Platform} {hv : HvCall} {core : IrqCore}.

Lemma find_irq_by_gsi_loop_spec cands g st :
  (forall c, c ∈ cands -> is_Some (index (irq_info st) c)) ->
  exists r,
    find_irq_by_gsi_loop cands g st = Ok r st /\
    ((r = -1 /\ forall c, c ∈ cands -> ~ pirq_with_gsi st c g) \/
     (exists pre post, cands = pre ++ r :: post /\ pirq_with_gsi st r g /\
                       forall c, c ∈ pre -> ~ pirq_with_gsi st c g)).
Proof.
  induction cands as [|irq cands IH]; intros Hin.
  { exists (-1). split; [done|]. left. split; [done|].
    intros c Hc. by apply elem_of_nil in Hc. }
  destruct (Hin irq ltac:(left)) as [info Hinfo].
  destruct IH as (r & Hr & Hspec); [intros c Hc; apply Hin; by right|].
  assert (~ pirq_with_gsi st irq g ->
          exists r,
            find_irq_by_gsi_loop cands g st = Ok r st /\
            ((r = -1 /\ forall c, c ∈ irq :: cands -> ~ pirq_with_gsi st c g) \/
             (exists pre post, irq :: cands = pre ++ r :: post /\
                pirq_with_gsi st r g /\
                forall c, c ∈ pre -> ~ pirq_with_gsi st c g))) as Hnext.
  { intros Hno. exists r. split; [done|].
    destruct Hspec as [[-> Hall]|(pre & post & -> & Hp & Hpre)].
    - left. split; [done|]. intros c [->|Hc]%elem_of_cons; [done|by apply Hall].
    - right. exists (irq :: pre), post. split; [done|]. split; [done|].
      intros c [->|Hc]%elem_of_cons; [done|by apply Hpre]. }
  assert (find_irq_by_gsi_loop (irq :: cands) g st =
          if bool_decide (info_type info = IRQT_PIRQ) &&
             (gsi (u_pirq_of (info_u info)) =? g)
          then Ok irq st else find_irq_by_gsi_loop cands g st) as ->.
  { cbn [find_irq_by_gsi_loop].
    rewrite (bind_eq _ _ _ _ _ (info_for_irq_eq _ _ _ Hinfo)).
    case_bool_decide as Hty; cbn [negb andb]; [|done].
    unfold gsi_from_irq. mrun.
    rewrite (bind_eq _ _ _ _ _ (info_for_irq_eq _ _ _ Hinfo)).
    rewrite bool_decide_eq_true_2 by done. mrun. by destruct (_ =? _). }
  case_bool_decide as Hty; cbn [andb].
  - destruct (Z.eqb_spec (gsi (u_pirq_of (info_u info))) g) as [Hg|Hg].
    + exists irq. split; [done|]. right. exists [], cands.
      split; [done|]. split; [by exists info|].
      intros c Hc. by apply elem_of_nil in Hc.
    + apply Hnext. intros (info' & Hinfo' & _ & Hg'). congruence.
  - apply Hnext. intros (info' & Hinfo' & Hty' & _). congruence.
Qed.

(** X12: [find_irq_by_gsi] leaves the state alone and returns the
    lowest IRQ below [nr_irqs] that is a pass-through IRQ for the GSI,
    and -1 when there is none. *)
Theorem find_irq_by_gsi_first st g :
  0 <= nr_irqs <= Z.of_nat (length (irq_info st)) ->
  exists r,
    find_irq_by_gsi g st = Ok r st /\
    ((r = -1 /\ forall irq, 0 <= irq < nr_irqs -> ~ pirq_with_gsi st irq g) \/
     (0 <= r < nr_irqs /\ pirq_with_gsi st r g /\
      forall irq, 0 <= irq < r -> ~ pirq_with_gsi st irq g)).
Proof.
  intros Hnr. unfold find_irq_by_gsi.
  destruct (find_irq_by_gsi_loop_spec (seqZ 0 nr_irqs) g st)
    as (r & Hr & Hspec).
  { intros c Hc%elem_of_seqZ.
    destruct (index_lt (irq_info st) c) as [x Hx]; [lia|by rewrite Hx]. }
  exists r. split; [done|].
  destruct Hspec as [[-> Hall]|(pre & post & Hsplit & Hp & Hpre)].
  - left. split; [done|]. intros irq Hirq. apply Hall, elem_of_seqZ. lia.
  - right.
    assert (r ∈ seqZ 0 nr_irqs) as Hin
      by (rewrite Hsplit; apply elem_of_app; right; by left).
    apply elem_of_seqZ in Hin. split; [lia|]. split; [done|].
    intros irq Hirq. apply Hpre. eapply seqZ_below; [done|lia].
Qed.

(** X13: what [pirq_query_unmask] records.  When the hypervisor has
    taken over the unmask ([pirq_eoi_does_unmask]) the function does
    nothing.  Otherwise it asks the hypervisor once about the GSI of
    the IRQ, and afterwards [pirq_needs_eoi] of the IRQ is true exactly
    when the query succeeded and answered XENIRQSTAT_needs_eoi; the
    bits of the other GSIs are as before. *)
Theorem pirq_query_unmask_post st irq info :
  index (irq_info st) irq = Some info ->
  info_type info = IRQT_PIRQ ->
  let g := gsi (u_pirq_of (info_u info)) in
  is_Some (test_bit g (pirq_needs_eoi_bits st)) ->
  (pirq_eoi_does_unmask st = true -> pirq_query_unmask irq st = Ok tt st) /\
  (pirq_eoi_does_unmask st = false ->
   let reply := hypervisor (trace st) (PHYSDEVOP_irq_status_query g) in
   exists st',
     pirq_query_unmask irq st = Ok tt st' /\
     trace st' = trace st ++ [Hypercall (PHYSDEVOP_irq_status_query g)] /\
     pirq_needs_eoi irq st' =
       Ok ((rc reply =? 0) &&
           negb (Z.land (out reply) XENIRQSTAT_needs_eoi =? 0)) st' /\
     forall g', g' <> g ->
       test_bit g' (pirq_needs_eoi_bits st') =
       test_bit g' (pirq_needs_eoi_bits st)).
Proof.
  intros Hinfo Hty g [b Hb]. unfold pirq_query_unmask. mrun. split.
  { by intros ->. }
  intros ->.
  rewrite (bind_eq _ _ _ _ _ (info_for_irq_eq _ _ _ Hinfo)).
  rewrite Hty, bool_decide_eq_true_2 by done. mrun.
  unfold HYPERVISOR_physdev_op. rewrite bind_HYPERVISOR_op. mrun.
  fold g. set (reply := hypervisor _ _).
  pose proof (test_bit_Some _ _ _ Hb) as Hrange.
  destruct (clear_bit_lt _ _ Hrange) as [bits1 Hc]. rewrite Hc. mrun.
  pose proof (clear_bit_Some _ _ _ Hc) as [_ Hlen].
  assert (forall s bits,
            irq_info s = irq_info st -> pirq_needs_eoi_bits s = bits ->
            forall need, test_bit g bits = Some need ->
            pirq_needs_eoi irq s = Ok need s) as Hneed.
  { intros s bits Hsame Hbits need Hn. unfold pirq_needs_eoi, info_for_irq.
    mrun. rewrite Hsame, Hinfo. mrun.
    rewrite Hty, bool_decide_eq_true_2 by done. mrun.
    fold g. by rewrite Hbits, Hn. }
  destruct (Z.eqb_spec (rc reply) 0) as [Hrc|Hrc]; cbn [negb andb].
  - destruct (Z.eqb_spec (Z.land (out reply) XENIRQSTAT_needs_eoi) 0)
      as [Hz|Hnz]; cbn [negb]; mrun.
    + eexists. split; [reflexivity|]. sproj. split; [done|]. split.
      * eapply Hneed; [done|done|].
        by rewrite (test_bit_clear_bit _ _ _ _ Hc), decide_True.
      * intros g' Hne.
        by rewrite (test_bit_clear_bit _ _ _ _ Hc), decide_False.
    + destruct (set_bit_lt g bits1) as [bits2 Hs]; [by rewrite Hlen|].
      rewrite Hs. mrun.
      eexists. split; [reflexivity|]. sproj. split; [done|]. split.
      * eapply Hneed; [done|done|].
        by rewrite (test_bit_set_bit _ _ _ _ Hs), decide_True.
      * intros g' Hne.
        rewrite (test_bit_set_bit _ _ _ _ Hs), decide_False by done.
        by rewrite (test_bit_clear_bit _ _ _ _ Hc), decide_False.
  - change (Z.land 0 XENIRQSTAT_needs_eoi) with 0. cbn [Z.eqb negb]. mrun.
    eexists. split; [reflexivity|]. sproj. split; [done|]. split.
    + eapply Hneed; [done|done|].
      by rewrite (test_bit_clear_bit _ _ _ _ Hc), decide_True.
    + intros g' Hne.
      by rewrite (test_bit_clear_bit _ _ _ _ Hc), decide_False.
Qed.

(** X14: the pending bit of a bound IRQ, written and read back.  After
    [xen_set_irq_pending] the IRQ tests pending, after
    [xen_clear_irq_pending] it does not; each of the two changes the
    pending bit of the port of the IRQ only, and neither touches the
    mask bitmap or issues a hypercall. *)
Theorem irq_pending_round_trip st irq info :
  index (irq_info st) irq = Some info ->
  let port := info_evtchn info in
  port <> 0 ->
  is_Some (test_bit port (evtchn_pending (HYPERVISOR_shared_info st))) ->
  exists p1 p2,
    let s1 := with_evtchn_pending p1 st in
    let s2 := with_evtchn_pending p2 s1 in
    xen_set_irq_pending irq st = Ok tt s1 /\
    xen_test_irq_pending irq s1 = Ok true s1 /\
    xen_clear_irq_pending irq s1 = Ok tt s2 /\
    xen_test_irq_pending irq s2 = Ok false s2 /\
    (forall p, p <> port ->
       test_bit p p1 = test_bit p (evtchn_pending (HYPERVISOR_shared_info st)) /\
       test_bit p p2 = test_bit p (evtchn_pending (HYPERVISOR_shared_info st))).
Proof.
  intros Hinfo port Hnz [b Hb].
  pose proof (test_bit_Some _ _ _ Hb) as Hrange.
  destruct (set_bit_lt _ _ Hrange) as [p1 Hp1].
  destruct (clear_bit_lt port p1) as [p2 Hp2].
  { by apply set_bit_Some in Hp1 as [_ ->]. }
  exists p1, p2. cbn zeta.
  assert (forall s, irq_info s = irq_info st ->
            evtchn_from_irq irq s = Ok port s) as Hev.
  { intros s Hs. apply evtchn_from_irq_eq. by rewrite Hs. }
  apply Z.eqb_neq in Hnz.
  unfold xen_set_irq_pending, xen_test_irq_pending, xen_clear_irq_pending,
    VALID_EVTCHN, set_evtchn, test_evtchn, clear_evtchn.
  split.
  { rewrite (bind_eq _ _ _ _ _ (Hev st eq_refl)), Hnz. cbn [negb when]. mrun.
    rewrite Hp1. by mrun. }
  split.
  { rewrite (bind_eq _ _ _ _ _ (Hev (with_evtchn_pending p1 st) eq_refl)), Hnz.
    cbn [negb]. mrun.
    by rewrite (test_bit_set_bit _ _ _ _ Hp1), decide_True. }
  split.
  { rewrite (bind_eq _ _ _ _ _ (Hev (with_evtchn_pending p1 st) eq_refl)), Hnz.
    cbn [negb when]. mrun. rewrite Hp2. by mrun. }
  split.
  { rewrite (bind_eq _ _ _ _ _
               (Hev (with_evtchn_pending p2 (with_evtchn_pending p1 st))
                  eq_refl)), Hnz.
    cbn [negb]. mrun.
    by rewrite (test_bit_clear_bit _ _ _ _ Hp2), decide_True. }
  intros p Hp.
  rewrite (test_bit_clear_bit _ _ _ _ Hp2), decide_False by done.
  by rewrite (test_bit_set_bit _ _ _ _ Hp1), decide_False.
Qed.

End Gsi.

Section Rebinding.

Context {plat : Platform} {hv : HvCall} {core : IrqCore}.

(** What [bind_evtchn_to_cpu] leaves alone. *)
Lemma bind_evtchn_to_cpu_frame st chn cpu st' :
  bind_evtchn_to_cpu chn cpu st = Ok tt st' ->
  virq_to_irq st' = virq_to_irq st /\ ipi_to_irq st' = ipi_to_irq st /\
  trace st' = trace st /\ evtchn_to_irq st' = evtchn_to_irq st.
Proof.
  intros Hb. apply bind_evtchn_to_cpu_Ok in Hb
    as (irq & info & descs' & masks' & _ & _ & _ & -> & _). done.
Qed.

Lemma restore_virq_step cpu row virq st st' :
  index (virq_to_irq st) cpu = Some row ->
  (irq <- per_cpu_get virq_to_irq cpu virq;;
   if irq =? -1 then ret tt
   else
     v <- virq_from_irq irq;;
     BUG_ON (negb (v =? virq)) ;;;
     r <- HYPERVISOR_event_channel_op (EVTCHNOP_bind_virq virq cpu);;
     BUG_ON (negb (rc r =? 0)) ;;;
     let evtchn := out r in
     set_evtchn_to_irq evtchn irq ;;;
     set_info irq (mk_virq_info evtchn virq) ;;;
     bind_evtchn_to_cpu evtchn cpu) st = Ok tt st' ->
  virq_to_irq st' = virq_to_irq st /\ ipi_to_irq st' = ipi_to_irq st /\
  trace st' =
    trace st ++
    (if decide (index row virq <> Some (-1))
     then [Hypercall (EVTCHNOP_bind_virq virq cpu)] else []).
Proof.
  intros Hrow Hrun.
  apply bind_Ok in Hrun as (irq & s0 & Hget & Hrun).
  unfold per_cpu_get in Hget. revert Hrun. minv.
  rename select (index (virq_to_irq _) cpu = Some _) into Hrow'.
  rewrite Hrow in Hrow'. injection Hrow' as <-.
  rename select (index row _ = Some _) into Hirq. rewrite Hirq.
  destruct (Z.eqb_spec irq (-1)) as [->|Hne]; intros Hrun.
  { minv. rewrite decide_False by (intros ?; done). by rewrite app_nil_r. }
  rewrite decide_True by congruence.
  apply bind_Ok in Hrun as (v & s1 & Hv & Hrun).
  assert (s1 = st) as ->.
  { clear Hrun. unfold virq_from_irq, info_for_irq in Hv. by minv. }
  apply bind_Ok in Hrun as ([] & s2 & [_ ->]%BUG_ON_Ok & Hrun).
  unfold HYPERVISOR_event_channel_op in Hrun.
  rewrite bind_HYPERVISOR_op in Hrun.
  apply bind_Ok in Hrun as ([] & s3 & [_ ->]%BUG_ON_Ok & Hrun).
  apply bind_Ok in Hrun as ([] & s4 & [_ ->]%set_evtchn_to_irq_Ok & Hrun).
  apply bind_Ok in Hrun as ([] & s5 & [_ ->]%set_info_Ok & Hrun).
  by apply bind_evtchn_to_cpu_frame in Hrun as (-> & -> & -> & _).
Qed.

Lemma restore_ipi_step cpu row ipi st st' :
  index (ipi_to_irq st) cpu = Some row ->
  (irq <- per_cpu_get ipi_to_irq cpu ipi;;
   if irq =? -1 then ret tt
   else
     v <- ipi_from_irq irq;;
     BUG_ON (negb (v =? ipi)) ;;;
     r <- HYPERVISOR_event_channel_op (EVTCHNOP_bind_ipi cpu);;
     BUG_ON (negb (rc r =? 0)) ;;;
     let evtchn := out r in
     set_evtchn_to_irq evtchn irq ;;;
     set_info irq (mk_ipi_info evtchn ipi) ;;;
     bind_evtchn_to_cpu evtchn cpu) st = Ok tt st' ->
  virq_to_irq st' = virq_to_irq st /\ ipi_to_irq st' = ipi_to_irq st /\
  trace st' =
    trace st ++
    (if decide (index row ipi <> Some (-1))
     then [Hypercall (EVTCHNOP_bind_ipi cpu)] else []).
Proof.
  intros Hrow Hrun.
  apply bind_Ok in Hrun as (irq & s0 & Hget & Hrun).
  unfold per_cpu_get in Hget. revert Hrun. minv.
  rename select (index (ipi_to_irq _) cpu = Some _) into Hrow'.
  rewrite Hrow in Hrow'. injection Hrow' as <-.
  rename select (index row _ = Some _) into Hirq. rewrite Hirq.
  destruct (Z.eqb_spec irq (-1)) as [->|Hne]; intros Hrun.
  { minv. rewrite decide_False by (intros ?; done). by rewrite app_nil_r. }
  rewrite decide_True by congruence.
  apply bind_Ok in Hrun as (v & s1 & Hv & Hrun).
  assert (s1 = st) as ->.
  { clear Hrun. unfold ipi_from_irq, info_for_irq in Hv. by minv. }
  apply bind_Ok in Hrun as ([] & s2 & [_ ->]%BUG_ON_Ok & Hrun).
  unfold HYPERVISOR_event_channel_op in Hrun.
  rewrite bind_HYPERVISOR_op in Hrun.
  apply bind_Ok in Hrun as ([] & s3 & [_ ->]%BUG_ON_Ok & Hrun).
  apply bind_Ok in Hrun as ([] & s4 & [_ ->]%set_evtchn_to_irq_Ok & Hrun).
  apply bind_Ok in Hrun as ([] & s5 & [_ ->]%set_info_Ok & Hrun).
  by apply bind_evtchn_to_cpu_frame in Hrun as (-> & -> & -> & _).
Qed.

(** A loop whose steps leave the two per-CPU tables alone and add to
    the trace what [ev] says. *)
Lemma for_each_trace (l : list Z) (body : Z -> M unit)
    (ev : Z -> list event) st st' :
  (forall x s s',
     virq_to_irq s = virq_to_irq st -> ipi_to_irq s = ipi_to_irq st ->
     body x s = Ok tt s' ->
     virq_to_irq s' = virq_to_irq s /\ ipi_to_irq s' = ipi_to_irq s /\
     trace s' = trace s ++ ev x) ->
  for_each l body st = Ok tt st' ->
  virq_to_irq st' = virq_to_irq st /\ ipi_to_irq st' = ipi_to_irq st /\
  trace st' = trace st ++ concat (ev <$> l).
Proof.
  intros Hbody. revert st Hbody.
  induction l as [|x l IH]; intros st Hbody Hrun; cbn [for_each] in Hrun.
  { minv. by rewrite app_nil_r. }
  apply bind_Ok in Hrun as ([] & s1 & Hx & Hrun).
  apply Hbody in Hx as (Hv & Hi & Ht); [|done|done].
  apply IH in Hrun as (Hv' & Hi' & Ht').
  - rewrite Hv', Hi', Ht', Hv, Hi, Ht, fmap_cons. cbn [concat].
    by rewrite <- app_assoc.
  - intros y s s' Hvs His. apply Hbody; congruence.
Qed.

Lemma concat_filter {A B} (P : A -> Prop) `{!forall x, Decision (P x)}
    (f : A -> B) (l : list A) :
  concat ((fun x => if decide (P x) then [f x] else []) <$> l)
  = f <$> filter P l.
Proof.
  induction l as [|x l IH]; [done|].
  rewrite fmap_cons, filter_cons. cbn [concat]. rewrite IH.
  by case_decide.
Qed.

(** X15: what the resume of a CPU asks of the hypervisor.
    [restore_cpu_virqs] followed by [restore_cpu_ipis] issue one
    EVTCHNOP_bind_virq for every VIRQ that is bound on the CPU, in
    increasing order of the VIRQ, then one EVTCHNOP_bind_ipi for every
    IPI that is bound on the CPU, and no other hypercall; the two
    per-CPU tables are left as they are. *)
Theorem restore_cpu_rebinds st cpu vrow irow s1 s2 :
  index (virq_to_irq st) cpu = Some vrow ->
  index (ipi_to_irq st) cpu = Some irow ->
  restore_cpu_virqs cpu st = Ok tt s1 ->
  restore_cpu_ipis cpu s1 = Ok tt s2 ->
  virq_to_irq s2 = virq_to_irq st /\
  ipi_to_irq s2 = ipi_to_irq st /\
  trace s2 =
    trace st
    ++ ((fun virq => Hypercall (EVTCHNOP_bind_virq virq cpu)) <$>
          filter (fun virq => index vrow virq <> Some (-1)) (seqZ 0 NR_VIRQS))
    ++ ((fun _ => Hypercall (EVTCHNOP_bind_ipi cpu)) <$>
          filter (fun ipi => index irow ipi <> Some (-1)) (seqZ 0 XEN_NR_IPIS)).
Proof.
  intros Hvrow Hirow Hv Hi. unfold restore_cpu_virqs in Hv.
  apply (for_each_trace _ _
           (fun virq => if decide (index vrow virq <> Some (-1))
                        then [Hypercall (EVTCHNOP_bind_virq virq cpu)] else []))
    in Hv as (Hv1 & Hi1 & Ht1).
  2:{ intros virq s s' Hvs His Hstep.
      apply (restore_virq_step cpu vrow) in Hstep; [done|by rewrite Hvs]. }
  unfold restore_cpu_ipis in Hi.
  apply (for_each_trace _ _
           (fun ipi => if decide (index irow ipi <> Some (-1))
                       then [Hypercall (EVTCHNOP_bind_ipi cpu)] else []))
    in Hi as (Hv2 & Hi2 & Ht2).
  2:{ intros ipi s s' Hvs His Hstep.
      apply (restore_ipi_step cpu irow) in Hstep; [done|].
      by rewrite His, Hi1. }
  rewrite Hv2, Hi2, Ht2, Hv1, Hi1, Ht1.
  split; [done|]. split; [done|].
  rewrite (concat_filter (fun virq => index vrow virq <> Some (-1))
             (fun virq => Hypercall (EVTCHNOP_bind_virq virq cpu))).
  rewrite (concat_filter (fun ipi => index irow ipi <> Some (-1))
             (fun _ => Hypercall (EVTCHNOP_bind_ipi cpu))).
  by rewrite <- app_assoc.
Qed.

End Rebinding.

Section Notify.

Context {plat : Platform} {hv : HvCall} {core : IrqCore} {kern : Kernel}.

(** X16: notifications are dropped across save and restore.  After
    the first part of [xen_irq_resume] no IRQ has a port, so that
    [notify_remote_via_irq] returns for every IRQ without notifying
    anybody, and [xen_send_IPI_one] for an IPI that is bound on the CPU
    does the same. *)
Theorem notify_dropped_after_resume st :
  0 <= nr_cpu_ids <= Z.of_nat (length (cpu_evtchn_mask_p st)) ->
  nr_irqs = Z.of_nat (length (irq_info st)) ->
  NR_EVENT_CHANNELS = Z.of_nat (length (evtchn_to_irq st)) ->
  NR_EVENT_CHANNELS <=
    BITS_PER_LONG * Z.of_nat (length (evtchn_mask (HYPERVISOR_shared_info st))) ->
  exists st',
    xen_irq_resume_invalidate st = Ok tt st' /\
    (forall irq, 0 <= irq < nr_irqs ->
       evtchn_from_irq irq st' = Ok 0 st' /\
       notify_remote_via_irq irq st' = Ok tt st') /\
    (forall cpu vector row irq,
       index (ipi_to_irq st) cpu = Some row -> index row vector = Some irq ->
       0 <= irq < nr_irqs ->
       xen_send_IPI_one cpu vector st' = Ok tt st').
Proof.
  intros Hcpu Hirqs Hchn Hmask.
  destruct (resume_invalidate_run st Hcpu Hirqs Hchn Hmask)
    as (st' & Hrun & Hinfos & _ & _ & _ & _ & _ & Hipi).
  exists st'. split; [done|].
  assert (forall irq, 0 <= irq < nr_irqs ->
            exists info, index (irq_info st') irq = Some info /\
                         info_evtchn info = 0) as Hzap.
  { intros irq Hirq.
    destruct (index_lt (irq_info st) irq) as [info Hinfo]; [lia|].
    exists (zap_evtchn info). split; [|done]. rewrite Hinfos.
    apply index_Some in Hinfo as [Hlo Hinfo]. apply index_Some.
    split; [done|]. by rewrite list_lookup_fmap, Hinfo. }
  assert (forall irq, 0 <= irq < nr_irqs ->
            evtchn_from_irq irq st' = Ok 0 st' /\
            notify_remote_via_irq irq st' = Ok tt st') as Hnotify.
  { intros irq Hirq. destruct (Hzap irq Hirq) as (info & Hinfo & Hz).
    pose proof (evtchn_from_irq_eq _ _ _ Hinfo) as Hev. rewrite Hz in Hev.
    split; [done|]. unfold notify_remote_via_irq.
    by rewrite (bind_eq _ _ _ _ _ Hev). }
  split; [done|].
  intros cpu vector row irq Hrow Hvec Hirq. unfold xen_send_IPI_one.
  erewrite bind_eq; [|eapply (per_cpu_get_eq ipi_to_irq); [by rewrite Hipi|done]].
  replace (irq <? 0) with false by (symmetry; apply Z.ltb_ge; lia). mrun.
  by apply Hnotify.
Qed.

End Notify.

Section Scan.

Context {plat : Platform} {hv : HvCall} {core : IrqCore}.

(** X17: the scan of an upcall ends.  Whatever the handlers do, the
    inner loop over the ports of a word has ended after 64 iterations,
    and the loop over the pending words, started as the upcall starts
    it, after 130 (each word is visited once, the first one twice):
    fuel 200 is enough for the scan never to stop for lack of fuel. *)
Theorem upcall_scan_terminates fuel cpu start_word_idx start_bit_idx
    pending_words st :
  (200 <= fuel)%nat ->
  0 <= pending_words < 2 ^ 64 ->
  (forall word_idx pending_bits bit_idx s,
     upcall_scan_bits fuel cpu word_idx pending_bits bit_idx s <> Stop FUEL) /\
  upcall_scan_words fuel cpu start_word_idx start_bit_idx 0 pending_words
    start_word_idx st <> Stop FUEL.
Proof.
  intros Hfuel Hpw. split.
  - intros word_idx pending_bits bit_idx s.
    apply upcall_scan_bits_terminates. lia.
  - by apply upcall_scan_words_terminates.
Qed.

End Scan.

Section RoundTrip.

Context {plat : Platform} {hv : HvCall} {core : IrqCore} {kern : Kernel}.

(** X18: binding a free port and unbinding the IRQ again.  The port
    table is then what it was before the bind, the IRQ is unbound, and
    all that was asked of the hypervisor is to close the port.
    After [unbind_from_irqhandler] the IRQ is unbound as well, whatever
    [free_irq] has done to the state. *)
Theorem bind_unbind_round_trip st evtchn irq s1 s2 :
  index (evtchn_to_irq st) evtchn = Some (-1) ->
  0 < evtchn < 2 ^ 16 ->
  bind_evtchn_to_irq evtchn st = Ok irq s1 ->
  unbind_from_irq irq s1 = Ok tt s2 ->
  evtchn_to_irq s2 = evtchn_to_irq st /\
  index (irq_info s2) irq = Some mk_unbound_info /\
  trace s2 = trace st ++ [Hypercall (EVTCHNOP_close evtchn)] /\
  (forall dev_id s1' s2',
     free_irq irq dev_id s1 = Ok tt s1' ->
     unbind_from_irqhandler irq dev_id s1 = Ok tt s2' ->
     exists info', index (irq_info s2') irq = Some info' /\
                   info_type info' = IRQT_UNBOUND).
Proof.
  intros Hfree Hport Hbind Hunbind.
  assert (to_ushort evtchn = evtchn) as Hus
    by (unfold to_ushort; apply Z.mod_small; lia).
  pose proof (index_range _ _ _ Hfree) as Hre.
  (* the state after the bind *)
  revert Hbind. unfold bind_evtchn_to_irq at 1. mrun. rewrite Hfree. mrun.
  rewrite Z.eqb_refl. intros Hrun.
  apply bind_Ok in Hrun as (irq0 & s0 & Hfind & Hrun).
  apply find_unbound_irq_state in Hfind as [descs1 ->].
  revert Hrun. unfold set_chip. mrun. intros Hrun.
  apply bind_Ok in Hrun as ([] & s3 & [_ ->]%set_evtchn_to_irq_Ok & Hrun).
  apply bind_Ok in Hrun as ([] & s4 & [Hirq ->]%set_info_Ok & Hrun).
  apply ret_Ok in Hrun as [<- ->]. sproj_all.
  set (s1 := with_irq_info _ _) in *.
  assert (index (irq_info s1) irq = Some (mk_evtchn_info evtchn)) as Hinfo1
    by (unfold s1; sproj; by apply index_insert_eq).
  assert (index (evtchn_to_irq s1) evtchn = Some irq) as Htbl1
    by (unfold s1; sproj; by apply index_insert_eq).
  assert (evtchn_to_irq s2 = <[Z.to_nat evtchn := -1]> (evtchn_to_irq s1) /\
          index (irq_info s2) irq = Some mk_unbound_info /\
          trace s2 = trace s1 ++ [Hypercall (EVTCHNOP_close evtchn)])
    as (Htbl2 & Hunb & Htrace2).
  { revert Hunbind. unfold unbind_from_irq.
    rewrite (bind_eq _ _ _ _ _ (evtchn_from_irq_eq _ _ _ Hinfo1)).
    cbn [mk_evtchn_info info_evtchn]. rewrite Hus. unfold VALID_EVTCHN.
    replace (evtchn =? 0) with false by (symmetry; apply Z.eqb_neq; lia).
    cbn [negb when]. unfold HYPERVISOR_event_channel_op, type_from_irq.
    mrun. rewrite bind_HYPERVISOR_op. mrun.
    destruct (rc _ =? 0); cbn [negb]; [mrun|done].
    unfold info_for_irq at 1. mrun. rewrite Hinfo1. mrun.
    cbn [mk_evtchn_info info_type]. mrun. intros Hrun.
    apply bind_Ok in Hrun as ([] & s5 & Hcpu & Hrun).
    apply bind_evtchn_to_cpu_Ok in Hcpu
      as (irq1 & info1 & descs' & masks' & Hirq1 & _ & Hinfo1' & -> & _ & _).
    sproj_all.
    assert (irq1 = irq) as -> by congruence.
    assert (info1 = mk_evtchn_info evtchn) as -> by congruence.
    apply bind_Ok in Hrun as ([] & s6 & [_ ->]%set_evtchn_to_irq_Ok & Hrun).
    sproj_all. revert Hrun. unfold info_for_irq at 1. mrun.
    pose proof (index_range _ _ _ Hinfo1) as Hri.
    rewrite index_insert_eq by done. mrun.
    intros Hrun.
    apply bind_Ok in Hrun as ([] & s7 & [_ ->]%set_info_Ok & Hrun).
    apply modify_Ok in Hrun as ->. sproj.
    split; [done|]. split; [|done].
    apply index_insert_eq. by rewrite length_insert. }
  split; [|split; [|split]].
  - rewrite Htbl2. unfold s1. sproj. rewrite list_insert_insert_eq.
    apply list_insert_id. by apply index_Some in Hfree as [_ ?].
  - done.
  - rewrite Htrace2. unfold s1. by sproj.
  - intros dev_id s1' s2' Hfreeirq Hrun. unfold unbind_from_irqhandler in Hrun.
    rewrite (bind_eq _ _ _ _ _ Hfreeirq) in Hrun.
    by eapply unbind_from_irq_unbound.
Qed.

End RoundTrip.

Lemma omap_cons_list {A B} (f : A -> option B) (x : A) (l : list A) :
  omap f (x :: l) = option_list (f x) ++ omap f l.
Proof.
  change (omap f (x :: l))
    with (match f x with Some y => y :: omap f l | None => omap f l end).
  by destruct (f x).
Qed.

Lemma filter_seqZ_nil (P : Z -> Prop) `{!forall x, Decision (P x)} (a n : Z) :
  (forall k, a <= k < a + n -> ~ P k) -> filter P (seqZ a n) = [].
Proof.
  intros Hno. destruct (decide (0 <= n)) as [Hn|Hn];
    [|by rewrite seqZ_nil by lia].
  revert a Hno. pattern n. apply natlike_ind; [| |done].
  - intros a _. by rewrite seqZ_nil.
  - clear n Hn. intros n Hn IH a Hno. rewrite seqZ_cons by lia.
    rewrite filter_cons, decide_False by (apply Hno; lia).
    replace (Z.pred (Z.succ n)) with n by lia. apply IH.
    intros k Hk. apply Hno. lia.
Qed.

Lemma set_bits_from_nil (w bit_idx : Z) :
  0 <= bit_idx ->
  MASK_LSBS w bit_idx = 0 -> set_bits_from w bit_idx = [].
Proof.
  intros Hb Hz. apply filter_seqZ_nil. intros k Hk.
  assert (Z.testbit (MASK_LSBS w bit_idx) k = false) as Hbit
    by (rewrite Hz; apply Z.bits_0).
  rewrite MASK_LSBS_spec in Hbit by lia.
  replace (bit_idx <=? k) with true in Hbit by (symmetry; apply Z.leb_le; lia).
  replace (k <? 64) with true in Hbit by (symmetry; apply Z.ltb_lt; lia).
  rewrite !andb_true_r in Hbit. congruence.
Qed.

Lemma set_bits_from_cons (w bit_idx : Z) :
  0 <= bit_idx ->
  MASK_LSBS w bit_idx <> 0 ->
  let f := __ffs (MASK_LSBS w bit_idx) in
  set_bits_from w bit_idx = f :: set_bits_from w (f + 1).
Proof.
  intros Hb Hnz f.
  destruct (ffs_MASK_LSBS w bit_idx Hb Hnz) as (Hf & Hbit & Hmin).
  fold f in Hf, Hbit, Hmin. unfold set_bits_from.
  replace (64 - bit_idx) with ((f - bit_idx) + (64 - f)) by lia.
  rewrite seqZ_app by lia. rewrite filter_app.
  rewrite filter_seqZ_nil by (intros k Hk; rewrite Hmin by lia; done).
  replace (bit_idx + (f - bit_idx)) with f by lia.
  rewrite seqZ_cons by lia. rewrite filter_cons, decide_True by done.
  cbn [app]. do 3 f_equal; lia.
Qed.

Section Dispatch.

Context {plat : Platform} {hv : HvCall} {core : IrqCore}.

Lemma port_in_word (word_idx k : Z) (addr : list Z) :
  0 <= word_idx < Z.of_nat (length addr) -> 0 <= k < 64 ->
  0 <= word_idx * BITS_PER_LONG + k < BITS_PER_LONG * Z.of_nat (length addr).
Proof. unfold BITS_PER_LONG. nia. Qed.

(** The end of an iteration of the inner loop: the cursor is moved
    behind the port, and the loop goes on unless the port was the last
    of its word. *)
Lemma upcall_scan_bits_tail fuel cpu word_idx pending_bits f s :
  0 <= f < 64 ->
  0 <= cpu < Z.of_nat (length (current_word_idx s)) ->
  0 <= cpu < Z.of_nat (length (current_bit_idx s)) ->
  (set_cpu_var current_word_idx with_current_word_idx cpu
     (if negb (Z.rem (f + 1) BITS_PER_LONG =? 0) then word_idx
      else Z.rem (word_idx + 1) BITS_PER_LONG) ;;;
   set_cpu_var current_bit_idx with_current_bit_idx cpu
     (Z.rem (f + 1) BITS_PER_LONG) ;;;
   if negb (Z.rem (f + 1) BITS_PER_LONG =? 0)
   then upcall_scan_bits fuel cpu word_idx pending_bits
          (Z.rem (f + 1) BITS_PER_LONG)
   else ret tt) s =
  let s1 :=
    with_current_bit_idx
      (<[Z.to_nat cpu := Z.rem (f + 1) BITS_PER_LONG]> (current_bit_idx s))
      (with_current_word_idx
         (<[Z.to_nat cpu := if f + 1 <? 64 then word_idx
                            else Z.rem (word_idx + 1) BITS_PER_LONG]>
            (current_word_idx s)) s) in
  if f + 1 <? 64
  then upcall_scan_bits fuel cpu word_idx pending_bits (f + 1) s1
  else Ok tt s1.
Proof.
  intros Hf Hcw Hcb. unfold set_cpu_var. mrun.
  rewrite store_lt by done. mrun. rewrite store_lt by done. mrun.
  unfold BITS_PER_LONG. destruct (Z.ltb_spec (f + 1) 64) as [Hlt|Hge].
  - rewrite Z.rem_small by lia.
    by replace (f + 1 =? 0) with false by (symmetry; apply Z.eqb_neq; lia).
  - by replace (f + 1) with 64 by lia.
Qed.

(** One iteration of the inner loop with handlers that leave the state
    alone. *)
Lemma upcall_scan_bits_quiet_step fuel cpu word_idx pending_bits bit_idx st :
  (forall irq s, irq_handler irq s = s) ->
  scan_ready st cpu word_idx ->
  0 <= bit_idx ->
  MASK_LSBS pending_bits bit_idx <> 0 ->
  let f := __ffs (MASK_LSBS pending_bits bit_idx) in
  let port := word_idx * BITS_PER_LONG + f in
  exists s1,
    upcall_scan_bits (S fuel) cpu word_idx pending_bits bit_idx st =
      (if f + 1 <? 64
       then upcall_scan_bits fuel cpu word_idx pending_bits (f + 1) s1
       else Ok tt s1) /\
    scan_ready s1 cpu word_idx /\
    evtchn_to_irq s1 = evtchn_to_irq st /\
    irq_descs s1 = irq_descs st /\
    trace s1 = trace st ++ option_list (port_event st port) /\
    (forall p, test_bit p (evtchn_mask (HYPERVISOR_shared_info s1)) =
       if decide (p = port) then Some true
       else test_bit p (evtchn_mask (HYPERVISOR_shared_info st))) /\
    (forall p, test_bit p (evtchn_pending (HYPERVISOR_shared_info s1)) =
       if decide (p = port) then Some false
       else test_bit p (evtchn_pending (HYPERVISOR_shared_info st))).
Proof.
  intros Hquiet (Hw & Htbl & Hpend & Hmask & Hcw & Hcb) Hb Hnz f port.
  destruct (ffs_MASK_LSBS pending_bits bit_idx Hb Hnz) as (Hf & _).
  fold f in Hf.
  destruct (index_lt (evtchn_to_irq st) port) as [irq Hirq];
    [unfold port, BITS_PER_LONG in *; lia|].
  destruct (set_bit_lt port (evtchn_mask (HYPERVISOR_shared_info st)))
    as [m' Hm']; [apply port_in_word; lia|].
  destruct (clear_bit_lt port (evtchn_pending (HYPERVISOR_shared_info st)))
    as [p' Hp']; [apply port_in_word; lia|].
  pose proof (set_bit_Some _ _ _ Hm') as [_ Hlm].
  pose proof (clear_bit_Some _ _ _ Hp') as [_ Hlp].
  cbn [upcall_scan_bits]. apply Z.eqb_neq in Hnz. rewrite Hnz.
  fold f. fold port. mrun. rewrite Hirq. mrun.
  unfold mask_evtchn, clear_evtchn. mrun. rewrite Hm'. mrun. rewrite Hp'. mrun.
  unfold port_event. rewrite Hirq. cbn [mbind option_bind].
  assert (forall tr,
    let s0 := with_trace tr (with_evtchn_pending p' (with_evtchn_mask m' st)) in
    let s1 :=
      with_current_bit_idx
        (<[Z.to_nat cpu := Z.rem (f + 1) BITS_PER_LONG]> (current_bit_idx s0))
        (with_current_word_idx
           (<[Z.to_nat cpu := if f + 1 <? 64 then word_idx
                              else Z.rem (word_idx + 1) BITS_PER_LONG]>
              (current_word_idx s0)) s0) in
    scan_ready s1 cpu word_idx /\
    evtchn_to_irq s1 = evtchn_to_irq st /\
    irq_descs s1 = irq_descs st /\
    trace s1 = tr /\
    (forall p, test_bit p (evtchn_mask (HYPERVISOR_shared_info s1)) =
       if decide (p = port) then Some true
       else test_bit p (evtchn_mask (HYPERVISOR_shared_info st))) /\
    (forall p, test_bit p (evtchn_pending (HYPERVISOR_shared_info s1)) =
       if decide (p = port) then Some false
       else test_bit p (evtchn_pending (HYPERVISOR_shared_info st))))
    as Hpost.
  { intros tr s0 s1. unfold s1, s0. sproj. split.
    { unfold scan_ready. sproj. rewrite !length_insert, Hlm, Hlp. done. }
    do 3 (split; [done|]). split.
    - intros p. apply (test_bit_set_bit _ _ _ _ Hm').
    - intros p. apply (test_bit_clear_bit _ _ _ _ Hp'). }
  assert (with_evtchn_pending p' (with_evtchn_mask m' st) =
          with_trace (trace st)
            (with_evtchn_pending p' (with_evtchn_mask m' st))) as Hsame
    by (by destruct st).
  destruct (irq =? -1); cbn [negb when option_list].
  - mrun. rewrite Hsame, upcall_scan_bits_tail by (sproj; (done || lia)).
    eexists. split; [reflexivity|]. rewrite app_nil_r. apply Hpost.
  - unfold irq_to_desc, generic_handle_irq_desc. mrun.
    destruct (mjoin (index (irq_descs st) irq)) as [d|];
      cbn [mbind option_bind option_list]; mrun.
    + rewrite Hquiet, upcall_scan_bits_tail by (sproj; (done || lia)).
      eexists. split; [reflexivity|]. apply Hpost.
    + rewrite Hsame, upcall_scan_bits_tail by (sproj; (done || lia)).
      eexists. split; [reflexivity|]. rewrite app_nil_r. apply Hpost.
Qed.

(** X19: the inner loop of the upcall with handlers that leave the
    state alone.  Started at [bit_idx] on the pending bits of a word,
    it returns, having gone through the set bits at or above
    [bit_idx] in increasing order: the IRQs of these ports have been
    handed to the IRQ core in that order, each port has been masked and
    its pending bit cleared, and no other bit of the two shared bitmaps
    has changed. *)
Theorem upcall_scan_bits_dispatch fuel cpu word_idx pending_bits bit_idx st :
  (forall irq s, irq_handler irq s = s) ->
  scan_ready st cpu word_idx ->
  0 <= bit_idx < 64 ->
  (65 <= fuel)%nat ->
  let ports :=
    (fun k => word_idx * BITS_PER_LONG + k) <$>
      set_bits_from pending_bits bit_idx in
  exists st',
    upcall_scan_bits fuel cpu word_idx pending_bits bit_idx st = Ok tt st' /\
    trace st' = trace st ++ omap (port_event st) ports /\
    (forall p, test_bit p (evtchn_mask (HYPERVISOR_shared_info st')) =
       if decide (p ∈ ports) then Some true
       else test_bit p (evtchn_mask (HYPERVISOR_shared_info st))) /\
    (forall p, test_bit p (evtchn_pending (HYPERVISOR_shared_info st')) =
       if decide (p ∈ ports) then Some false
       else test_bit p (evtchn_pending (HYPERVISOR_shared_info st))).
Proof.
  intros Hquiet Hready Hb Hfuel. cbn zeta.
  assert (Z.to_nat (64 - bit_idx) < fuel)%nat as Hmeasure by lia.
  clear Hfuel. revert bit_idx st Hready Hb Hmeasure.
  induction fuel as [|fuel IH]; intros bit_idx st Hready Hb Hmeasure; [lia|].
  destruct (decide (MASK_LSBS pending_bits bit_idx = 0)) as [Hz|Hnz].
  { exists st. rewrite set_bits_from_nil by (done || lia).
    cbn [upcall_scan_bits]. rewrite Hz, fmap_nil. cbn [Z.eqb].
    split; [done|]. split; [by rewrite app_nil_r|].
    split; intros p; by rewrite decide_False by (apply not_elem_of_nil). }
  destruct (upcall_scan_bits_quiet_step fuel cpu word_idx pending_bits bit_idx
              st Hquiet Hready ltac:(lia) Hnz)
    as (s1 & Hstep & Hready1 & Htbl1 & Hdescs1 & Htrace1 & Hmask1 & Hpend1).
  destruct (ffs_MASK_LSBS pending_bits bit_idx ltac:(lia) Hnz) as (Hf & _).
  rewrite set_bits_from_cons by (done || lia).
  set (f := __ffs _) in *. rewrite fmap_cons, omap_cons_list.
  set (port := word_idx * BITS_PER_LONG + f) in *.
  assert (forall l : list Z,
            omap (port_event s1) l = omap (port_event st) l) as Hev.
  { intros l. unfold port_event. by rewrite Htbl1, Hdescs1. }
  assert (exists st',
            upcall_scan_bits (S fuel) cpu word_idx pending_bits bit_idx st
              = Ok tt st' /\
            trace st' =
              trace s1 ++
              omap (port_event st)
                ((fun k => word_idx * BITS_PER_LONG + k) <$>
                   set_bits_from pending_bits (f + 1)) /\
            (forall p, test_bit p (evtchn_mask (HYPERVISOR_shared_info st')) =
               if decide (p ∈ (fun k => word_idx * BITS_PER_LONG + k) <$>
                                set_bits_from pending_bits (f + 1))
               then Some true
               else test_bit p (evtchn_mask (HYPERVISOR_shared_info s1))) /\
            (forall p, test_bit p (evtchn_pending (HYPERVISOR_shared_info st')) =
               if decide (p ∈ (fun k => word_idx * BITS_PER_LONG + k) <$>
                                set_bits_from pending_bits (f + 1))
               then Some false
               else test_bit p (evtchn_pending (HYPERVISOR_shared_info s1))))
    as (st' & Hrun & Htrace & Hmask & Hpend).
  { rewrite Hstep. destruct (Z.ltb_spec (f + 1) 64) as [Hlt|Hge].
    - destruct (IH (f + 1) s1 Hready1 ltac:(lia) ltac:(lia))
        as (st' & Hrun & Htrace & Hmask & Hpend).
      exists st'. rewrite Hev in Htrace. done.
    - exists s1. unfold set_bits_from. rewrite seqZ_nil by lia.
      rewrite filter_nil, fmap_nil.
      split; [done|]. split; [by rewrite app_nil_r|].
      split; intros p; by rewrite decide_False by (apply not_elem_of_nil). }
  exists st'. split; [done|]. split.
  { by rewrite Htrace, Htrace1, <- app_assoc. }
  split; intros p.
  - rewrite Hmask, Hmask1. destruct (decide (p = port)) as [->|Hne].
    + rewrite (decide_True (P := port ∈ port :: _)) by (by left).
      by case_decide.
    + destruct (decide (p ∈ _ <$> set_bits_from pending_bits (f + 1)))
        as [Hin|Hnin].
      * by rewrite decide_True by (by right).
      * rewrite decide_False; [done|]. by intros [?|?]%elem_of_cons.
  - rewrite Hpend, Hpend1. destruct (decide (p = port)) as [->|Hne].
    + rewrite (decide_True (P := port ∈ port :: _)) by (by left).
      by case_decide.
    + destruct (decide (p ∈ _ <$> set_bits_from pending_bits (f + 1)))
        as [Hin|Hnin].
      * by rewrite decide_True by (by right).
      * rewrite decide_False; [done|]. by intros [?|?]%elem_of_cons.
Qed.

End Dispatch.

(** Setting a clear bit and clearing it again gives the bitmap back. *)
Lemma clear_set_bit_id (nr : Z) (addr a1 a2 : list Z) :
  test_bit nr addr = Some false ->
  set_bit nr addr = Some a1 ->
  clear_bit nr a1 = Some a2 ->
  a2 = addr.
Proof.
  unfold test_bit, set_bit, clear_bit.
  destruct (index addr _) as [w|] eqn:Hw; [|done]. cbn.
  intros [= Hbit] Hs. rewrite (index_store_eq _ _ _ _ Hs). cbn.
  apply store_Some in Hs as [Hi ->]. intros [_ ->]%store_Some.
  rewrite list_insert_insert_eq. apply list_insert_id.
  apply index_Some in Hw as [_ Hw]. rewrite Hw. f_equal.
  pose proof (bit_pos nr) as Hpos.
  apply Z.bits_inj'. intros k Hk.
  destruct (decide (k = nr mod BITS_PER_LONG)) as [->|Hne].
  - by rewrite Z.clearbit_eq.
  - rewrite Z.clearbit_neq by done. by rewrite Z.setbit_neq by lia.
Qed.

Section MaskUnmask.

Context {plat : Platform} {hv : HvCall} {core : IrqCore}.

(** X20: masking and unmasking an IRQ.  For an IRQ whose port is bound
    to the executing CPU and is neither masked nor pending, [mask_irq]
    sets the mask bit of the port, and [unmask_irq] after it gives back
    the state as it was before the two calls: no other bit has changed,
    no hypercall was issued, and no upcall was raised. *)
Theorem mask_unmask_round_trip st irq info :
  let port := info_evtchn info in
  index (irq_info st) irq = Some info ->
  port <> 0 ->
  irqs_disabled st = true ->
  cpu_from_evtchn port st = Ok (smp_processor_id st) st ->
  test_bit port (evtchn_mask (HYPERVISOR_shared_info st)) = Some false ->
  test_bit port (evtchn_pending (HYPERVISOR_shared_info st)) = Some false ->
  exists s1,
    mask_irq irq st = Ok tt s1 /\
    test_bit port (evtchn_mask (HYPERVISOR_shared_info s1)) = Some true /\
    unmask_irq irq s1 = Ok tt st.
Proof.
  intros port Hinfo Hnz Hdis Hhome Hmask Hpend.
  destruct (set_bit_lt port (evtchn_mask (HYPERVISOR_shared_info st)))
    as [m1 Hm1]; [by eapply test_bit_Some|].
  destruct (clear_bit_lt port m1) as [m2 Hm2].
  { apply set_bit_Some in Hm1 as [_ ->]. by eapply test_bit_Some. }
  pose proof (clear_set_bit_id _ _ _ _ Hmask Hm1 Hm2) as ->.
  apply Z.eqb_neq in Hnz.
  exists (with_evtchn_mask m1 st). split; [|split].
  - unfold mask_irq. rewrite (bind_eq _ _ _ _ _ (evtchn_from_irq_eq _ _ _ Hinfo)).
    fold port. unfold VALID_EVTCHN. rewrite Hnz. cbn [negb when].
    unfold mask_evtchn. mrun. rewrite Hm1. by mrun.
  - sproj. by rewrite (test_bit_set_bit _ _ _ _ Hm1), decide_True.
  - unfold unmask_irq.
    rewrite (bind_eq _ _ _ _ _
               (evtchn_from_irq_eq (with_evtchn_mask m1 st) _ _ Hinfo)).
    fold port. unfold VALID_EVTCHN. rewrite Hnz. cbn [negb when].
    rewrite (unmask_evtchn_local (with_evtchn_mask m1 st) port
               (evtchn_mask (HYPERVISOR_shared_info st)) false Hdis).
    + f_equal. by destruct st as [? ? ? ? ? ? ? ? ? ? [? ?]].
    + by apply (cpu_from_evtchn_frame st).
    + done.
    + done.
Qed.

End MaskUnmask.

(** *** Taking back a fresh binding *)

Section Rollback.

Context {plat : Platform} {hv : HvCall} {core : IrqCore}.

Lemma to_ushort_small (z : Z) : 0 <= z < 2 ^ 16 -> to_ushort z = z.
Proof. intros Hz. unfold to_ushort. apply Z.mod_small. lia. Qed.

Lemma to_uint_small (z : Z) : 0 <= z < 2 ^ 31 -> to_uint z = z.
Proof. intros Hz. unfold to_uint. apply Z.mod_small. lia. Qed.

(** What [bind_evtchn_to_irq] writes for a port that has no IRQ. *)
Lemma bind_evtchn_to_irq_run st evtchn irq s1 :
  index (evtchn_to_irq st) evtchn = Some (-1) ->
  bind_evtchn_to_irq evtchn st = Ok irq s1 ->
  0 <= irq < Z.of_nat (length (irq_info st)) /\
  irq_info s1 = <[Z.to_nat irq := mk_evtchn_info evtchn]> (irq_info st) /\
  evtchn_to_irq s1 = <[Z.to_nat evtchn := irq]> (evtchn_to_irq st) /\
  virq_to_irq s1 = virq_to_irq st /\
  ipi_to_irq s1 = ipi_to_irq st /\
  trace s1 = trace st.
Proof.
  intros Hfree. unfold bind_evtchn_to_irq at 1. mrun. rewrite Hfree. mrun.
  cbn [Z.eqb]. intros Hrun.
  apply bind_Ok in Hrun as (irq0 & s0 & Hfind & Hrun).
  apply find_unbound_irq_state in Hfind as [descs1 ->].
  revert Hrun. unfold set_chip. mrun. intros Hrun.
  apply bind_Ok in Hrun as ([] & s3 & [_ ->]%set_evtchn_to_irq_Ok & Hrun).
  apply bind_Ok in Hrun as ([] & s4 & [Hirq ->]%set_info_Ok & Hrun).
  apply ret_Ok in Hrun as [<- ->]. sproj_all. done.
Qed.

(** What [bind_virq_to_irq] writes for a VIRQ that is not bound on the
    CPU. *)
Lemma bind_virq_to_irq_run st virq cpu row irq s1 :
  index (virq_to_irq st) cpu = Some row ->
  index row virq = Some (-1) ->
  bind_virq_to_irq virq cpu st = Ok irq s1 ->
  let port := out (hypervisor (trace st) (EVTCHNOP_bind_virq virq cpu)) in
  0 <= irq < Z.of_nat (length (irq_info st)) /\
  0 <= port < Z.of_nat (length (evtchn_to_irq st)) /\
  irq_info s1 =
    <[Z.to_nat irq := mk_irq_info IRQT_VIRQ (to_ushort port) (to_ushort cpu)
                        (u_virq (to_ushort virq))]> (irq_info st) /\
  evtchn_to_irq s1 = <[Z.to_nat port := irq]> (evtchn_to_irq st) /\
  virq_to_irq s1 =
    <[Z.to_nat cpu := <[Z.to_nat virq := irq]> row]> (virq_to_irq st) /\
  ipi_to_irq s1 = ipi_to_irq st /\
  trace s1 = trace st ++ [Hypercall (EVTCHNOP_bind_virq virq cpu)].
Proof.
  intros Hrow Hfree. unfold bind_virq_to_irq at 1.
  rewrite (bind_eq _ _ _ _ _ (per_cpu_get_eq virq_to_irq _ _ _ _ _ Hrow Hfree)).
  cbn [Z.eqb]. intros Hrun.
  apply bind_Ok in Hrun as (irq0 & s0 & Hfind & Hrun).
  apply find_unbound_irq_state in Hfind as [descs1 ->].
  revert Hrun. unfold set_chip, HYPERVISOR_event_channel_op. mrun.
  rewrite bind_HYPERVISOR_op. mrun.
  set (reply := hypervisor _ _). set (port := out reply).
  destruct (Z.eqb_spec (rc reply) 0) as [Hrc|]; [|done]. cbn [negb]. mrun.
  intros Hrun.
  apply bind_Ok in Hrun as ([] & s3 & [Hport ->]%set_evtchn_to_irq_Ok & Hrun).
  apply bind_Ok in Hrun as ([] & s4 & [Hirq ->]%set_info_Ok & Hrun).
  apply bind_Ok in Hrun as ([] & s5 & Hpc & Hrun).
  apply per_cpu_set_inv in Hpc as (row0 & Hrow0 & Hvirq & ->).
  apply bind_Ok in Hrun as ([] & s6 & Hcpu & Hrun).
  apply ret_Ok in Hrun as [<- ->]. sproj_all.
  rewrite Hrow in Hrow0. injection Hrow0 as <-.
  apply bind_evtchn_to_cpu_Ok in Hcpu
    as (irq1 & info1 & descs' & masks' & Hirq1 & _ & Hinfo1 & -> & _ & _).
  sproj_all.
  rewrite index_insert_eq in Hirq1 by done. injection Hirq1 as <-.
  rewrite index_insert_eq in Hinfo1 by done. injection Hinfo1 as <-.
  cbn [info_type info_evtchn info_u mk_virq_info].
  rewrite list_insert_insert_eq. done.
Qed.

(** What [bind_ipi_to_irq] writes for an IPI that is not bound on the
    CPU, when a descriptor could be had. *)
Lemma bind_ipi_to_irq_run st ipi cpu row irq s1 :
  index (ipi_to_irq st) cpu = Some row ->
  index row ipi = Some (-1) ->
  bind_ipi_to_irq ipi cpu st = Ok irq s1 ->
  0 <= irq ->
  let port := out (hypervisor (trace st) (EVTCHNOP_bind_ipi cpu)) in
  0 <= irq < Z.of_nat (length (irq_info st)) /\
  0 <= port < Z.of_nat (length (evtchn_to_irq st)) /\
  irq_info s1 =
    <[Z.to_nat irq := mk_irq_info IRQT_IPI (to_ushort port) (to_ushort cpu)
                        (u_ipi ipi)]> (irq_info st) /\
  evtchn_to_irq s1 = <[Z.to_nat port := irq]> (evtchn_to_irq st) /\
  virq_to_irq s1 = virq_to_irq st /\
  ipi_to_irq s1 =
    <[Z.to_nat cpu := <[Z.to_nat ipi := irq]> row]> (ipi_to_irq st) /\
  trace s1 = trace st ++ [Hypercall (EVTCHNOP_bind_ipi cpu)].
Proof.
  intros Hrow Hfree. unfold bind_ipi_to_irq at 1.
  rewrite (bind_eq _ _ _ _ _ (per_cpu_get_eq ipi_to_irq _ _ _ _ _ Hrow Hfree)).
  cbn [Z.eqb]. intros Hrun Hpos.
  apply bind_Ok in Hrun as (irq0 & s0 & Hfind & Hrun).
  apply find_unbound_irq_state in Hfind as [descs1 ->].
  destruct (Z.ltb_spec irq0 0) as [Hneg|_].
  { apply ret_Ok in Hrun as [<- _]. lia. }
  revert Hrun. unfold set_chip, HYPERVISOR_event_channel_op. mrun.
  rewrite bind_HYPERVISOR_op. mrun.
  set (reply := hypervisor _ _). set (port := out reply).
  destruct (Z.eqb_spec (rc reply) 0) as [Hrc|]; [|done]. cbn [negb]. mrun.
  intros Hrun.
  apply bind_Ok in Hrun as ([] & s3 & [Hport ->]%set_evtchn_to_irq_Ok & Hrun).
  apply bind_Ok in Hrun as ([] & s4 & [Hirq ->]%set_info_Ok & Hrun).
  apply bind_Ok in Hrun as ([] & s5 & Hpc & Hrun).
  apply per_cpu_set_inv in Hpc as (row0 & Hrow0 & Hipi & ->).
  apply bind_Ok in Hrun as ([] & s6 & Hcpu & Hrun).
  apply ret_Ok in Hrun as [<- ->]. sproj_all.
  rewrite Hrow in Hrow0. injection Hrow0 as <-.
  apply bind_evtchn_to_cpu_Ok in Hcpu
    as (irq1 & info1 & descs' & masks' & Hirq1 & _ & Hinfo1 & -> & _ & _).
  sproj_all.
  rewrite index_insert_eq in Hirq1 by done. injection Hirq1 as <-.
  rewrite index_insert_eq in Hinfo1 by done. injection Hinfo1 as <-.
  cbn [info_type info_evtchn info_u mk_ipi_info].
  rewrite list_insert_insert_eq. done.
Qed.

(** What [unbind_from_irq] writes for a bound IRQ whose port maps back
    to it. *)
Lemma unbind_from_irq_run s irq info s' :
  index (irq_info s) irq = Some info ->
  info_evtchn info <> 0 ->
  index (evtchn_to_irq s) (info_evtchn info) = Some irq ->
  info_type info <> IRQT_UNBOUND ->
  unbind_from_irq irq s = Ok tt s' ->
  irq_info s' = <[Z.to_nat irq := mk_unbound_info]> (irq_info s) /\
  evtchn_to_irq s' =
    <[Z.to_nat (info_evtchn info) := -1]> (evtchn_to_irq s) /\
  trace s' = trace s ++ [Hypercall (EVTCHNOP_close (info_evtchn info))] /\
  match info_type info with
  | IRQT_VIRQ =>
    exists row,
      index (virq_to_irq s) (info_cpu info) = Some row /\
      virq_to_irq s' =
        <[Z.to_nat (info_cpu info) :=
            <[Z.to_nat (u_virq_of (info_u info)) := -1]> row]>
          (virq_to_irq s) /\
      ipi_to_irq s' = ipi_to_irq s
  | IRQT_IPI =>
    exists row,
      index (ipi_to_irq s) (info_cpu info) = Some row /\
      ipi_to_irq s' =
        <[Z.to_nat (info_cpu info) :=
            <[Z.to_nat (u_ipi_of (info_u info)) := -1]> row]>
          (ipi_to_irq s) /\
      virq_to_irq s' = virq_to_irq s
  | _ => virq_to_irq s' = virq_to_irq s /\ ipi_to_irq s' = ipi_to_irq s
  end.
Proof.
  intros Hinfo Hnz Hfwd Hty Hu.
  pose proof (index_range _ _ _ Hinfo) as Hri.
  assert (irq <> -1) as Hirq by lia.
  unfold unbind_from_irq in Hu.
  rewrite (bind_eq _ _ _ _ _ (evtchn_from_irq_eq _ _ _ Hinfo)) in Hu.
  unfold VALID_EVTCHN in Hu. revert Hu.
  replace (negb (info_evtchn info =? 0)) with true
    by (symmetry; apply negb_true_iff, Z.eqb_neq; done).
  unfold HYPERVISOR_event_channel_op, type_from_irq. mrun.
  rewrite bind_HYPERVISOR_op. mrun.
  destruct (rc _ =? 0); cbn [negb]; [mrun|discriminate].
  unfold info_for_irq at 1. mrun. rewrite Hinfo. mrun.
  intros Hu. apply bind_Ok in Hu as ([] & s2 & Hsw & Hu).
  (* the per-CPU table of the binding *)
  assert (irq_info s2 = irq_info s /\ evtchn_to_irq s2 = evtchn_to_irq s /\
          trace s2 =
            trace s ++ [Hypercall (EVTCHNOP_close (info_evtchn info))] /\
          match info_type info with
          | IRQT_VIRQ =>
            exists row,
              index (virq_to_irq s) (info_cpu info) = Some row /\
              virq_to_irq s2 =
                <[Z.to_nat (info_cpu info) :=
                    <[Z.to_nat (u_virq_of (info_u info)) := -1]> row]>
                  (virq_to_irq s) /\
              ipi_to_irq s2 = ipi_to_irq s
          | IRQT_IPI =>
            exists row,
              index (ipi_to_irq s) (info_cpu info) = Some row /\
              ipi_to_irq s2 =
                <[Z.to_nat (info_cpu info) :=
                    <[Z.to_nat (u_ipi_of (info_u info)) := -1]> row]>
                  (ipi_to_irq s) /\
              virq_to_irq s2 = virq_to_irq s
          | _ => virq_to_irq s2 = virq_to_irq s /\ ipi_to_irq s2 = ipi_to_irq s
          end) as (Hi2 & He2 & Ht2 & Hpc).
  { clear Hu. set (s0 := with_trace _ s) in *.
    assert (index (irq_info s0) irq = Some info) as Hinfo0 by done.
    assert (index (evtchn_to_irq s0) (info_evtchn info) = Some irq)
      as Hfwd0 by done.
    pose proof (cpu_from_evtchn_bound _ _ _ _ Hfwd0 Hirq Hinfo0) as Hcpu.
    destruct (info_type info) eqn:Hk.
    - done.
    - apply ret_Ok in Hsw as [_ ->]. done.
    - rewrite (bind_eq _ _ _ _ _ Hcpu) in Hsw.
      unfold virq_from_irq in Hsw. revert Hsw.
      rewrite bind_bind, (bind_eq _ _ _ _ _ (info_for_irq_eq _ _ _ Hinfo0)).
      rewrite Hk. rewrite bool_decide_eq_true_2 by done. mrun.
      intros (row & Hrow & _ & ->)%per_cpu_set_inv. sproj. eauto 10.
    - rewrite (bind_eq _ _ _ _ _ Hcpu) in Hsw.
      unfold ipi_from_irq in Hsw. revert Hsw.
      rewrite bind_bind, (bind_eq _ _ _ _ _ (info_for_irq_eq _ _ _ Hinfo0)).
      rewrite Hk. rewrite bool_decide_eq_true_2 by done. mrun.
      intros (row & Hrow & _ & ->)%per_cpu_set_inv. sproj. eauto 10.
    - apply ret_Ok in Hsw as [_ ->]. done. }
  apply bind_Ok in Hu as ([] & s4 & Hb & Hu).
  apply bind_Ok in Hb as ([] & s3 & Hb & Hset).
  apply bind_evtchn_to_cpu_Ok in Hb
    as (irq0 & info0 & descs' & masks' & Hirq0 & _ & Hinfo0 & -> & _ & _).
  rewrite He2 in Hirq0. rewrite Hi2 in Hinfo0.
  assert (irq0 = irq) as -> by congruence.
  assert (info0 = info) as -> by congruence.
  apply set_evtchn_to_irq_Ok in Hset as [_ ->]. sproj_all.
  revert Hu. unfold info_for_irq at 1. mrun.
  rewrite Hi2, index_insert_eq by done. mrun. cbn [info_type].
  rewrite bool_decide_eq_false_2 by done. cbn [negb when].
  intros Hu. apply bind_Ok in Hu as ([] & s5 & [_ ->]%set_info_Ok & Hu).
  apply modify_Ok in Hu as ->. sproj.
  rewrite He2, list_insert_insert_eq.
  split; [done|]. split; [done|]. split; [done|]. exact Hpc.
Qed.

(** Writing an entry and then writing its old value restores the
    table. *)
Lemma insert_back {A} (l : list A) (i : Z) (x y : A) :
  index l i = Some y -> <[Z.to_nat i := y]> (<[Z.to_nat i := x]> l) = l.
Proof.
  intros [_ Hy]%index_Some. rewrite list_insert_insert_eq.
  by apply list_insert_id.
Qed.

Lemma insert_back_row (t : list (list Z)) (cpu i x : Z) (row : list Z) :
  index t cpu = Some row -> index row i = Some (-1) ->
  <[Z.to_nat cpu := <[Z.to_nat i := -1]> (<[Z.to_nat i := x]> row)]>
    (<[Z.to_nat cpu := <[Z.to_nat i := x]> row]> t) = t.
Proof.
  intros Hrow Hi. rewrite (insert_back row i x (-1) Hi).
  by apply insert_back.
Qed.

(** The state after the unbind of a binding that [s2] holds as the
    bind step made it from [st]. *)
Lemma rolled_back_intro st s2 st' irq port info :
  0 <= irq < Z.of_nat (length (irq_info st)) ->
  0 <= port < Z.of_nat (length (evtchn_to_irq st)) ->
  irq_info s2 = <[Z.to_nat irq := info]> (irq_info st) ->
  evtchn_to_irq s2 = <[Z.to_nat port := irq]> (evtchn_to_irq st) ->
  info_evtchn info = port ->
  port <> 0 ->
  info_type info <> IRQT_UNBOUND ->
  unbind_from_irq irq s2 = Ok tt st' ->
  index (irq_info st') irq = Some mk_unbound_info /\
  (forall j, j <> irq -> index (irq_info st') j = index (irq_info st) j) /\
  index (evtchn_to_irq st') port = Some (-1) /\
  (forall q, q <> port ->
     index (evtchn_to_irq st') q = index (evtchn_to_irq st) q) /\
  trace st' = trace s2 ++ [Hypercall (EVTCHNOP_close port)] /\
  match info_type info with
  | IRQT_VIRQ =>
    exists row,
      index (virq_to_irq s2) (info_cpu info) = Some row /\
      virq_to_irq st' =
        <[Z.to_nat (info_cpu info) :=
            <[Z.to_nat (u_virq_of (info_u info)) := -1]> row]>
          (virq_to_irq s2) /\
      ipi_to_irq st' = ipi_to_irq s2
  | IRQT_IPI =>
    exists row,
      index (ipi_to_irq s2) (info_cpu info) = Some row /\
      ipi_to_irq st' =
        <[Z.to_nat (info_cpu info) :=
            <[Z.to_nat (u_ipi_of (info_u info)) := -1]> row]>
          (ipi_to_irq s2) /\
      virq_to_irq st' = virq_to_irq s2
  | _ => virq_to_irq st' = virq_to_irq s2 /\ ipi_to_irq st' = ipi_to_irq s2
  end.
Proof.
  intros Hirq Hport Hi2 He2 Hev Hnz Hty Hu.
  assert (index (irq_info s2) irq = Some info) as Hinfo
    by (rewrite Hi2; by apply index_insert_eq).
  assert (index (evtchn_to_irq s2) (info_evtchn info) = Some irq) as Hfwd
    by (rewrite Hev, He2; by apply index_insert_eq).
  destruct (unbind_from_irq_run _ _ _ _ Hinfo ltac:(by rewrite Hev) Hfwd Hty Hu)
    as (Hi' & He' & Ht' & Hpc).
  rewrite Hev in *. rewrite Hi', He', Hi2, He2.
  split; [apply index_insert_eq; by rewrite length_insert|].
  split.
  { intros j Hne. rewrite !index_insert_ne by lia. done. }
  split; [apply index_insert_eq; by rewrite length_insert|].
  split.
  { intros q Hne. rewrite !index_insert_ne by lia. done. }
  split; [done|]. exact Hpc.
Qed.

(** The two branches of a [bind_*_to_irqhandler] function after
    [request_irq]. *)
Lemma irqhandler_outcome_intro st irq port retval s2 :
  (forall st', unbind_from_irq irq s2 = Ok tt st' ->
               rolled_back st s2 st' irq port) ->
  irqhandler_outcome
    ((if negb (retval =? 0) then unbind_from_irq irq ;;; ret retval
      else ret irq) s2) st irq port retval s2.
Proof.
  intros Hback. split.
  - intros Hne. apply Z.eqb_neq in Hne. rewrite Hne. cbn [negb].
    split; [done|]. intros r st' Hr.
    apply bind_Ok in Hr as ([] & s3 & Hu & Hr).
    apply ret_Ok in Hr as [<- ->]. split; [done|]. by apply Hback.
  - intros ->. reflexivity.
Qed.


End Rollback.

(** ** The upcall on concrete states *)

(** C3: in scenario 2 of the specification one upcall on CPU 0 returns
    (with fuel 200 or more), hands to the IRQ core the IRQs of ports 1,
    3 and 320, in that order and nothing else, and leaves the cursor of
    CPU 0 at (5, 1); the three ports are then masked and no port is
    pending. *)
Theorem upcall_two_level_scan :
  index (evtchn_to_irq scan_scenario) 1 = Some 17 /\
  index (evtchn_to_irq scan_scenario) 3 = Some 19 /\
  index (evtchn_to_irq scan_scenario) 320 = Some 336 /\
  index (current_word_idx scan_scenario) 0 = Some 0 /\
  index (current_bit_idx scan_scenario) 0 = Some 0 /\
  exists st',
    (forall fuel, (200 <= fuel)%nat ->
       __xen_evtchn_do_upcall (core:=quiet_core) fuel scan_scenario
         = Ok tt st') /\
    trace st' = [HandleIrq 17; HandleIrq 19; HandleIrq 336] /\
    index (current_word_idx st') 0 = Some 5 /\
    index (current_bit_idx st') 0 = Some 1 /\
    HYPERVISOR_shared_info st' =
      mk_shared_info (replicate 16 0)
        (<[5%nat := 1]> (<[0%nat := 10]> (replicate 16 0))).
Proof.
  repeat (split; [reflexivity|]).
  eexists. split.
  { intros fuel Hfuel. eapply upcall_fuel; [exact Hfuel|].
    vm_compute. reflexivity. }
  repeat split.
Qed.

(** C1: on its second visit of the starting word the scanner does not
    mask out the bits at or above [start_bit_idx]: the expression it
    computes there is 0 whatever [start_bit_idx] is, and it is used as
    the bit to start from.  With the cursor at (0, 2), port 3 (bit 3 of
    word 0) is handled on the first visit of word 0 and, being pending
    again, a second time on the second visit within the same upcall;
    the scanner as specified handles it once. *)
Theorem upcall_second_visit_rescans_whole_word :
  (forall start_bit_idx,
     to_int (Z.land (to_ulong 0) (to_ulong (Z.shiftl 1 start_bit_idx - 1))) = 0) /\
  index (current_word_idx rescan_scenario) 0 = Some 0 /\
  index (current_bit_idx rescan_scenario) 0 = Some 2 /\
  index (evtchn_to_irq rescan_scenario) 3 = Some 19 /\
  index (evtchn_to_irq rescan_scenario) 64 = Some 80 /\
  (exists st',
     (forall fuel, (200 <= fuel)%nat ->
        __xen_evtchn_do_upcall (core:=rescan_core) fuel rescan_scenario
          = Ok tt st') /\
     trace st' = [HandleIrq 19; HandleIrq 80; HandleIrq 19]) /\
  (exists st',
     (forall fuel, (200 <= fuel)%nat ->
        upcall_as_specified (core:=rescan_core) fuel rescan_scenario
          = Ok tt st') /\
     trace st' = [HandleIrq 19; HandleIrq 80]).
Proof.
  split; [intros b; reflexivity|].
  repeat (split; [reflexivity|]).
  split; eexists.
  - split.
    + intros fuel Hfuel.
      eapply upcall_fuel; [exact Hfuel|]. vm_compute. reflexivity.
    + reflexivity.
  - split.
    + intros fuel Hfuel.
      eapply upcall_as_specified_fuel; [exact Hfuel|]. vm_compute. reflexivity.
    + reflexivity.
Qed.

(** ** Witnesses and counterexamples *)

Lemma upcall_two_level_scan_witness :
  exists st',
    __xen_evtchn_do_upcall (core:=quiet_core) 200 scan_scenario = Ok tt st' /\
    trace st' = [HandleIrq 17; HandleIrq 19; HandleIrq 336] /\
    index (current_word_idx st') 0 = Some 5 /\
    index (current_bit_idx st') 0 = Some 1.
Proof.
  destruct upcall_two_level_scan
    as (_ & _ & _ & _ & _ & st' & Hrun & Htrace & Hword & Hbit & _).
  exists st'. split; [apply Hrun; lia|]. split; [exact Htrace|].
  split; [exact Hword|exact Hbit].
Defined.

Lemma unbound_irq_pending_poll_noop_witness :
  xen_clear_irq_pending 20 boot_state = Ok tt boot_state /\
  xen_set_irq_pending 20 boot_state = Ok tt boot_state /\
  xen_test_irq_pending 20 boot_state = Ok false boot_state /\
  xen_poll_irq_timeout (hv:=hv_accepts) 20 0 boot_state = Ok tt boot_state.
Proof.
  apply (unbound_irq_pending_poll_noop (hv:=hv_accepts) boot_state 20
           (mk_irq_info IRQT_UNBOUND 0 0 u_zero) 0); reflexivity.
Defined.

Lemma bind_existing_returns_same_irq_witness :
  bind_virq_to_irq (plat:=scenario_platform) (hv:=hv_accepts)
    (core:=quiet_core) 0 1 bound_scenario = Ok 500 bound_scenario.
Proof.
  refine (proj1 (bind_existing_returns_same_irq (plat:=scenario_platform)
                   (hv:=hv_accepts) (core:=quiet_core) bound_scenario 500 _)
            0 1 (<[0%nat := 500]> (replicate 24 (-1))) _ _).
  - lia.
  - reflexivity.
  - reflexivity.
Defined.

Lemma bound_scenario_consistent :
  binding_consistent bound_scenario 500
    (mk_irq_info IRQT_VIRQ 42 1 (u_virq 0)).
Proof.
  split; [reflexivity|]. split; [intros _; reflexivity|].
  split; [|intros _; discriminate].
  intros port Hp. apply index_Some in Hp as [Hlo Hp].
  change (evtchn_to_irq bound_scenario) with
    (<[42%nat := 500]> (<[17%nat := 501]> (<[33%nat := 502]>
       (replicate 1024 (-1))))) in Hp.
  destruct (decide (Z.to_nat port = 42%nat)) as [He|Hne]; [cbn; lia|].
  rewrite list_lookup_insert_ne in Hp by done.
  apply list_lookup_insert_Some in Hp as [(_ & [=] & _)|[_ Hp]].
  apply list_lookup_insert_Some in Hp as [(_ & [=] & _)|[_ Hp]].
  apply lookup_replicate in Hp as [[=] _].
Defined.

Lemma unbind_from_irq_post_witness :
  exists st',
    unbind_from_irq (hv:=hv_accepts) (core:=quiet_core) 500 bound_scenario
      = Ok tt st' /\
    (forall port, index (evtchn_to_irq st') port <> Some 500) /\
    trace st' = [Hypercall (EVTCHNOP_close 42)].
Proof.
  eexists. split; [vm_compute; reflexivity|].
  pose proof (unbind_from_irq_post (hv:=hv_accepts) (core:=quiet_core)
                bound_scenario 500 _ _ bound_scenario_consistent
                ltac:(vm_compute; reflexivity)) as (_ & Hports & _ & _ & Htrace & _).
  split; [exact Hports|exact Htrace].
Defined.

Lemma resume_invalidate_post_witness :
  exists st',
    xen_irq_resume_invalidate (plat:=scenario_platform) bound_scenario
      = Ok tt st' /\
    irq_info st' = zap_evtchn <$> irq_info bound_scenario /\
    evtchn_to_irq st' = replicate 1024 (-1) /\
    forall port, 0 <= port < 1024 ->
      test_bit port (evtchn_mask (HYPERVISOR_shared_info st')) = Some true.
Proof.
  apply (resume_invalidate_post (plat:=scenario_platform) bound_scenario).
  - vm_compute. split; discriminate.
  - reflexivity.
  - reflexivity.
  - vm_compute. discriminate.
Defined.


(** Closing the side conditions of a statement on a concrete state. *)
Ltac by_evaluation :=
  repeat split;
  first [ reflexivity
        | discriminate
        | vm_compute; reflexivity
        | vm_compute; discriminate
        | eexists; vm_compute; reflexivity
        | eexists; split; [vm_compute; reflexivity|];
          eexists; vm_compute; reflexivity ].

Lemma startup_pirq_returns_zero_witness :
  (exists st', startup_pirq (plat:=scenario_platform) (hv:=hv_accepts)
                 10 (pirq_scenario false) = Ok 0 st') /\
  startup_pirq (plat:=scenario_platform) (hv:=hv_refuses)
    9 (pirq_scenario false) =
    Ok 0 (with_trace [Hypercall (EVTCHNOP_bind_pirq 9 0)] (pirq_scenario false)) /\
  (exists st', startup_pirq (plat:=scenario_platform) (hv:=hv_accepts)
                 9 (pirq_scenario false) = Ok 0 st').
Proof.
  split; [|split].
  - refine (proj2 (proj2 (proj2 (startup_pirq_returns_zero
              (plat:=scenario_platform) (hv:=hv_accepts)
              (pirq_scenario false) 10)
              (mk_irq_info IRQT_PIRQ 40 0
                 (u_pirq (mk_pirq_payload 10 0 0 32752))) _ _)) _ _).
    + reflexivity.
    + reflexivity.
    + discriminate.
    + unfold startup_ready, unmask_ready. cbn [info_evtchn Z.eqb].
      by_evaluation.
  - refine (proj1 (proj2 (startup_pirq_returns_zero
              (plat:=scenario_platform) (hv:=hv_refuses)
              (pirq_scenario false) 9)
              (mk_irq_info IRQT_PIRQ 0 0
                 (u_pirq (mk_pirq_payload 9 0 0 32752))) _ _) _ _).
    + reflexivity.
    + reflexivity.
    + reflexivity.
    + discriminate.
  - refine (proj1 (proj2 (proj2 (startup_pirq_returns_zero
              (plat:=scenario_platform) (hv:=hv_accepts)
              (pirq_scenario false) 9)
              (mk_irq_info IRQT_PIRQ 0 0
                 (u_pirq (mk_pirq_payload 9 0 0 32752))) _ _)) _ _ _).
    + reflexivity.
    + reflexivity.
    + reflexivity.
    + reflexivity.
    + unfold startup_ready. cbn [info_evtchn Z.eqb].
      by_evaluation.
Defined.

Lemma unmask_local_edge_recovery_witness :
  exists st' v',
    unmask_irq (hv:=hv_accepts) 20 (unmask_scenario 0 0) = Ok tt st' /\
    test_bit 7 (evtchn_mask (HYPERVISOR_shared_info st')) = Some false /\
    index (xen_vcpu st') 0 = Some v' /\
    Z.testbit (evtchn_pending_sel v') 0 = true /\
    evtchn_upcall_pending v' = 1 /\
    trace st' = [].
Proof.
  apply (proj1 (unmask_local_edge_recovery (hv:=hv_accepts))
           (unmask_scenario 0 0) 20 (mk_irq_info IRQT_EVTCHN 7 0 u_zero)
           (mk_vcpu_info 0 0)).
  - reflexivity.
  - vm_compute. split; reflexivity.
  - reflexivity.
  - vm_compute. reflexivity.
  - reflexivity.
  - vm_compute. reflexivity.
  - vm_compute. reflexivity.
Defined.

(** C4 as stated fails: port 7 is bound to the executing CPU, masked
    and pending, but its selector bit is already set and
    [evtchn_upcall_pending] is 0; after [unmask_irq] the flag is still
    0. *)
Lemma unmask_does_not_always_set_upcall_pending :
  let st := unmask_scenario 0 1 in
  index (irq_info st) 20 = Some (mk_irq_info IRQT_EVTCHN 7 0 u_zero) /\
  cpu_from_evtchn 7 st = Ok (smp_processor_id st) st /\
  test_bit 7 (evtchn_mask (HYPERVISOR_shared_info st)) = Some true /\
  test_bit 7 (evtchn_pending (HYPERVISOR_shared_info st)) = Some true /\
  exists st',
    unmask_irq (hv:=hv_accepts) 20 st = Ok tt st' /\
    index (xen_vcpu st') 0 = Some (mk_vcpu_info 0 1) /\
    trace st' = [].
Proof.
  cbn zeta. repeat (split; [vm_compute; reflexivity|]).
  eexists. split; [vm_compute; reflexivity|]. split; reflexivity.
Qed.

Lemma pirq_eoi_unmask_and_eoi_witness :
  exists st',
    pirq_eoi (hv:=hv_accepts) 10 (pirq_scenario false) = Ok tt st' /\
    exists pre,
      trace st' = [] ++ pre ++ [Hypercall (PHYSDEVOP_eoi 10)] /\
      (pre = [] \/ pre = [Hypercall (EVTCHNOP_unmask 40)]).
Proof.
  eexists. split; [vm_compute; reflexivity|].
  refine (proj2 (proj2 (pirq_eoi_unmask_and_eoi (hv:=hv_accepts)
            (pirq_scenario false) 10
            (mk_irq_info IRQT_PIRQ 40 0 (u_pirq (mk_pirq_payload 10 0 0 32752)))
            true _ _ _)) _ _).
  - reflexivity.
  - reflexivity.
  - vm_compute. reflexivity.
  - vm_compute. reflexivity.
Defined.

(** C2 as stated fails in both directions.  With the GSI's bit set and
    [pirq_eoi_does_unmask] true (the hypervisor advertised the shared
    bitmap), [pirq_eoi] does not unmask: port 40 stays masked, although
    [unmask_evtchn] would clear its mask bit.  With the bit set and
    [pirq_eoi_does_unmask] false, [pirq_eoi] does unmask. *)
Lemma pirq_eoi_unmask_not_when_advertised :
  test_bit 10 (pirq_needs_eoi_bits (pirq_scenario true)) = Some true /\
  pirq_eoi_does_unmask (pirq_scenario true) = true /\
  (exists st', unmask_evtchn (hv:=hv_accepts) 40 (pirq_scenario true)
                 = Ok tt st' /\
               test_bit 40 (evtchn_mask (HYPERVISOR_shared_info st'))
                 = Some false) /\
  (exists st', pirq_eoi (hv:=hv_accepts) 10 (pirq_scenario true) = Ok tt st' /\
               test_bit 40 (evtchn_mask (HYPERVISOR_shared_info st'))
                 = Some true /\
               trace st' = [Hypercall (PHYSDEVOP_eoi 10)]) /\
  test_bit 10 (pirq_needs_eoi_bits (pirq_scenario false)) = Some true /\
  pirq_eoi_does_unmask (pirq_scenario false) = false /\
  (exists st', pirq_eoi (hv:=hv_accepts) 10 (pirq_scenario false) = Ok tt st' /\
               test_bit 40 (evtchn_mask (HYPERVISOR_shared_info st'))
                 = Some false).
Proof.
  split; [vm_compute; reflexivity|]. split; [reflexivity|].
  split; [eexists; split; vm_compute; reflexivity|].
  split; [eexists; split; [vm_compute; reflexivity|split; vm_compute; reflexivity]|].
  split; [vm_compute; reflexivity|]. split; [reflexivity|].
  eexists; split; vm_compute; reflexivity.
Qed.

(** ** More witnesses *)

Lemma find_unbound_irq_result_witness :
  exists st' cand,
    find_unbound_irq (plat:=scenario_platform) (core:=quiet_core) boot_state
      = Ok 511 st' /\
    16 < cand < 512 /\
    identity_mapped_irq (plat:=scenario_platform) cand = false /\
    irq_unused boot_state cand /\
    (511 = cand \/ 511 = -1).
Proof.
  edestruct (find_unbound_irq_result (plat:=scenario_platform)
               (core:=quiet_core) boot_state 511)
    as (cand & Hrange & Hid & Hunused & _ & Hcand & _).
  - vm_compute. split; discriminate.
  - reflexivity.
  - vm_compute. reflexivity.
  - eexists _, cand. split; [vm_compute; reflexivity|].
    split; [exact Hrange|]. split; [exact Hid|]. split; [exact Hunused|].
    exact Hcand.
Defined.

Lemma crowded_state_in_use (j : Z) :
  16 < j < 512 -> ~ irq_unused crowded_state j.
Proof.
  intros Hj. unfold irq_unused.
  replace (index (irq_descs crowded_state) j)
    with (Some (Some (mk_irq_desc foreign_chip None 0 0))).
  - cbn. intros [?|[? _]]; discriminate.
  - symmetry. apply index_Some. split; [lia|].
    apply (lookup_replicate_2 512). lia.
Qed.

Lemma find_unbound_irq_panics_witness :
  find_unbound_irq (plat:=scenario_platform) (core:=quiet_core) crowded_state
    = Stop PANIC.
Proof.
  apply (find_unbound_irq_panics (plat:=scenario_platform) (core:=quiet_core)
           crowded_state).
  - vm_compute. split; discriminate.
  - vm_compute. discriminate.
  - exact crowded_state_in_use.
Defined.

Lemma bind_evtchn_to_irq_fresh_witness :
  exists st',
    bind_evtchn_to_irq (plat:=scenario_platform) (core:=quiet_core)
      34 boot_state = Ok 511 st' /\
    irq_from_evtchn 34 st' = Ok 511 st' /\
    evtchn_from_irq 511 st' = Ok 34 st' /\
    trace st' = [] /\
    bind_evtchn_to_irq (plat:=scenario_platform) (core:=quiet_core) 34 st'
      = Ok 511 st'.
Proof.
  edestruct (bind_evtchn_to_irq_fresh (plat:=scenario_platform)
               (core:=quiet_core) boot_state 34 511)
    as (_ & Hirq & Hev & _ & _ & _ & Htrace & Hagain).
  - reflexivity.
  - vm_compute. reflexivity.
  - eexists. split; [vm_compute; reflexivity|].
    split; [exact Hirq|]. split; [exact Hev|]. split; [exact Htrace|].
    exact Hagain.
Defined.

Lemma bind_virq_to_irq_fresh_witness :
  exists st',
    bind_virq_to_irq (plat:=scenario_platform) (hv:=hv_accepts)
      (core:=quiet_core) 0 1 boot_state = Ok 511 st' /\
    trace st' = [Hypercall (EVTCHNOP_bind_virq 0 1)] /\
    index (evtchn_to_irq st') 32 = Some 511 /\
    index (irq_info st') 511 = Some (mk_irq_info IRQT_VIRQ 32 1 (u_virq 0)) /\
    bind_virq_to_irq (plat:=scenario_platform) (hv:=hv_accepts)
      (core:=quiet_core) 0 1 st' = Ok 511 st'.
Proof.
  edestruct (bind_virq_to_irq_fresh (plat:=scenario_platform) (hv:=hv_accepts)
               (core:=quiet_core) boot_state 0 1 (replicate 24 (-1)) 511)
    as (_ & Htrace & Htbl & Hinfo & _ & _ & Hagain).
  - reflexivity.
  - reflexivity.
  - vm_compute. reflexivity.
  - eexists. split; [vm_compute; reflexivity|].
    split; [exact Htrace|]. split; [exact Htbl|]. split; [exact Hinfo|].
    exact Hagain.
Defined.

Lemma bind_without_descriptor_witness :
  exists s1,
    find_unbound_irq (plat:=scenario_platform) (core:=no_memory_core)
      boot_state = Ok (-1) s1 /\
    bind_ipi_to_irq (plat:=scenario_platform) (hv:=hv_accepts)
      (core:=no_memory_core) 0 0 boot_state = Ok (-1) s1 /\
    trace s1 = [] /\
    bind_evtchn_to_irq (plat:=scenario_platform) (core:=no_memory_core)
      34 boot_state = Stop MEMORY.
Proof.
  edestruct (bind_without_descriptor (plat:=scenario_platform)
               (hv:=hv_accepts) (core:=no_memory_core) boot_state (-1))
    as (Hipi & Hevtchn & _).
  - vm_compute. reflexivity.
  - reflexivity.
  - destruct (Hipi 0 0 (replicate 4 (-1)) 0 0 0 0 eq_refl eq_refl)
      as (Hbind & _ & Htrace & _).
    eexists. split; [vm_compute; reflexivity|].
    split; [exact Hbind|]. split; [exact Htrace|].
    exact (Hevtchn 34 eq_refl).
Defined.

Lemma unbind_from_irq_idempotent_witness :
  exists st',
    unbind_from_irq (hv:=hv_accepts) (core:=quiet_core) 500 bound_scenario
      = Ok tt st' /\
    unbind_from_irq (hv:=hv_accepts) (core:=quiet_core) 500 st' = Ok tt st'.
Proof.
  edestruct (unbind_from_irq_idempotent (hv:=hv_accepts) (core:=quiet_core)
               bound_scenario 500 (mk_irq_info IRQT_VIRQ 42 1 (u_virq 0)))
    as (_ & Hagain).
  - reflexivity.
  - discriminate.
  - vm_compute. reflexivity.
  - eexists. split; [vm_compute; reflexivity|]. exact Hagain.
Defined.

(** In [evtchn_bound_state] every port is on CPU 0, and IRQ 511 is the
    only one with a port. *)
Lemma evtchn_bound_state_masks :
  port_cpu_consistent evtchn_bound_state /\ ports_distinct evtchn_bound_state.
Proof.
  assert (forall port irq,
            index (evtchn_to_irq evtchn_bound_state) port = Some irq ->
            (port = 34 /\ irq = 511) \/ irq = -1) as Htbl.
  { intros port irq Hp. apply index_Some in Hp as [Hlo Hp].
    change (evtchn_to_irq evtchn_bound_state)
      with (<[34%nat := 511]> (replicate 1024 (-1))) in Hp.
    apply list_lookup_insert_Some in Hp as [(Heq & <- & _)|[_ Hp]].
    - left. split; [lia|done].
    - right. by apply lookup_replicate in Hp as [-> _]. }
  split.
  - intros port cpu bits b Hb Ht.
    assert (bits = replicate 16 (if cpu =? 0 then Z.ones 64 else 0)) as ->.
    { apply index_Some in Hb as [Hlo Hb].
      change (cpu_evtchn_mask_p evtchn_bound_state)
        with [replicate 16 (Z.ones 64); replicate 16 0] in Hb.
      destruct (Z.to_nat cpu) as [|[|n]] eqn:Hn; cbn in Hb; [| |done].
      - replace cpu with 0 by lia. injection Hb as <-. reflexivity.
      - replace cpu with 1 by lia. injection Hb as <-. reflexivity. }
    apply test_bit_replicate in Ht as [Hp ->].
    exists 0. split.
    + destruct (index_lt (evtchn_to_irq evtchn_bound_state) port) as [irq Hirq];
        [change (length _) with 1024%nat; unfold BITS_PER_LONG in Hp; lia|].
      destruct (Htbl _ _ Hirq) as [[Hport _]|Hfree].
      * rewrite Hport. reflexivity.
      * rewrite Hfree in Hirq. by apply cpu_from_evtchn_unbound.
    + pose proof (bit_pos port) as Hm. unfold BITS_PER_LONG in *.
      destruct (Z.eqb_spec cpu 0) as [->|Hne].
      * rewrite Z.ones_spec_low by lia. by rewrite bool_decide_eq_true_2.
      * rewrite Z.bits_0. by rewrite bool_decide_eq_false_2.
  - intros p1 p2 irq Hp1 Hp2 Hne.
    destruct (Htbl _ _ Hp1) as [[H1 _]|?]; [|done].
    destruct (Htbl _ _ Hp2) as [[H2 _]|?]; [|done].
    by rewrite H1, H2.
Qed.

Lemma bind_evtchn_to_cpu_keeps_masks_witness :
  exists st',
    bind_evtchn_to_cpu 34 1 evtchn_bound_state = Ok tt st' /\
    port_cpu_consistent st' /\
    cpu_from_evtchn 34 st' = Ok 1 st'.
Proof.
  edestruct (bind_evtchn_to_cpu_keeps_masks evtchn_bound_state 34 1)
    as (Hmasks & _ & Hhome).
  - exact (proj1 evtchn_bound_state_masks).
  - exact (proj2 evtchn_bound_state_masks).
  - vm_compute. split; [discriminate|reflexivity].
  - vm_compute. reflexivity.
  - eexists. split; [vm_compute; reflexivity|].
    split; [exact Hmasks|exact Hhome].
Defined.

Lemma resume_invalidate_masks_witness :
  exists st',
    xen_irq_resume_invalidate (plat:=scenario_platform) bound_scenario
      = Ok tt st' /\
    port_cpu_consistent st' /\
    cpu_from_evtchn 42 st' = Ok 0 st'.
Proof.
  destruct (resume_invalidate_masks (plat:=scenario_platform) bound_scenario)
    as (st' & Hrun & Hmasks & _ & Hhome & _).
  - vm_compute. discriminate.
  - reflexivity.
  - reflexivity.
  - reflexivity.
  - vm_compute. discriminate.
  - exists st'. split; [exact Hrun|]. split; [exact Hmasks|].
    apply Hhome. vm_compute. split; [discriminate|reflexivity].
Defined.

Lemma shutdown_pirq_post_witness :
  exists st',
    shutdown_pirq (hv:=hv_accepts) 10 (pirq_scenario false) = Ok tt st' /\
    index (irq_info st') 10 =
      Some (mk_irq_info IRQT_PIRQ 0 0 (u_pirq (mk_pirq_payload 10 0 0 32752))) /\
    index (evtchn_to_irq st') 40 = Some (-1) /\
    trace st' = [Hypercall (EVTCHNOP_close 40)].
Proof.
  edestruct (shutdown_pirq_post (hv:=hv_accepts) (pirq_scenario false) 10
               (mk_irq_info IRQT_PIRQ 40 0
                  (u_pirq (mk_pirq_payload 10 0 0 32752))))
    as (_ & _ & Hpost).
  - reflexivity.
  - intros _. reflexivity.
  - vm_compute. reflexivity.
  - destruct (Hpost ltac:(discriminate)) as (Hinfo & Htbl & _ & Htrace & _).
    eexists. split; [vm_compute; reflexivity|].
    split; [exact Hinfo|]. split; [exact Htbl|exact Htrace].
Defined.

Lemma retrigger_irq_local_witness :
  exists st',
    retrigger_irq (hv:=hv_accepts) 20 idle_port_scenario = Ok 1 st' /\
    resend_irq_on_evtchn (hv:=hv_accepts) 20 idle_port_scenario = Ok 1 st' /\
    test_bit 7 (evtchn_pending (HYPERVISOR_shared_info st')) = Some true /\
    test_bit 7 (evtchn_mask (HYPERVISOR_shared_info st')) = Some false /\
    index (xen_vcpu st') 0 = Some (mk_vcpu_info 1 1) /\
    trace st' = [].
Proof.
  destruct (retrigger_irq_local (hv:=hv_accepts) idle_port_scenario 20
              (mk_irq_info IRQT_EVTCHN 7 0 u_zero) false (mk_vcpu_info 0 0))
    as (st' & Hre & Hres & Hpend & Hmask & Hvcpu & Htrace).
  - reflexivity.
  - vm_compute. split; reflexivity.
  - reflexivity.
  - vm_compute. reflexivity.
  - reflexivity.
  - vm_compute. reflexivity.
  - eexists. vm_compute. reflexivity.
  - exists st'. split; [exact Hre|]. split; [exact Hres|].
    split; [exact (Hpend 7)|]. split; [exact (Hmask 7)|].
    split; [exact Hvcpu|exact Htrace].
Defined.

Lemma upcall_leaves_flag_clear_witness :
  exists st' v,
    __xen_evtchn_do_upcall (core:=quiet_core) 200 scan_scenario = Ok tt st' /\
    index (xen_vcpu st') 0 = Some v /\ evtchn_upcall_pending v = 0 /\
    index (xed_nesting_count st') 0 = Some 0.
Proof.
  edestruct (upcall_leaves_flag_clear (core:=quiet_core) 200 scan_scenario)
    as ((v & Hv & Hflag) & Hcount & _).
  - vm_compute. reflexivity.
  - eexists _, v. split; [vm_compute; reflexivity|].
    split; [exact Hv|]. split; [exact Hflag|].
    exact (Hcount eq_refl).
Defined.

Lemma find_irq_by_gsi_first_witness :
  exists r,
    find_irq_by_gsi (plat:=scenario_platform) 10 (pirq_scenario false)
      = Ok r (pirq_scenario false) /\
    (r = -1 \/ pirq_with_gsi (pirq_scenario false) r 10).
Proof.
  destruct (find_irq_by_gsi_first (plat:=scenario_platform)
              (pirq_scenario false) 10) as (r & Hrun & Hspec).
  - vm_compute. split; discriminate.
  - exists r. split; [exact Hrun|].
    destruct Hspec as [[Hr _]|(_ & Hp & _)]; [by left|by right].
Defined.

Lemma pirq_query_unmask_post_witness :
  exists st',
    pirq_query_unmask (plat:=scenario_platform) (hv:=hv_accepts) 10
      (pirq_scenario false) = Ok tt st' /\
    trace st' = [Hypercall (PHYSDEVOP_irq_status_query 10)] /\
    pirq_needs_eoi 10 st' = Ok false st'.
Proof.
  destruct (proj2 (pirq_query_unmask_post (plat:=scenario_platform)
                     (hv:=hv_accepts) (pirq_scenario false) 10
                     (mk_irq_info IRQT_PIRQ 40 0
                        (u_pirq (mk_pirq_payload 10 0 0 32752)))
                     eq_refl eq_refl
                     ltac:(eexists; vm_compute; reflexivity)) eq_refl)
    as (st' & Hrun & Htrace & Hneed & _).
  exists st'. split; [exact Hrun|]. split; [exact Htrace|exact Hneed].
Defined.

Lemma irq_pending_round_trip_witness :
  exists s1 s2,
    xen_set_irq_pending 20 idle_port_scenario = Ok tt s1 /\
    xen_test_irq_pending 20 s1 = Ok true s1 /\
    xen_clear_irq_pending 20 s1 = Ok tt s2 /\
    xen_test_irq_pending 20 s2 = Ok false s2.
Proof.
  destruct (irq_pending_round_trip idle_port_scenario 20
              (mk_irq_info IRQT_EVTCHN 7 0 u_zero))
    as (p1 & p2 & Hset & Htest1 & Hclear & Htest2 & _).
  - reflexivity.
  - discriminate.
  - eexists. vm_compute. reflexivity.
  - eexists _, _. split; [exact Hset|]. split; [exact Htest1|].
    split; [exact Hclear|exact Htest2].
Defined.

Lemma restore_cpu_rebinds_witness :
  exists s1 s2,
    restore_cpu_virqs (plat:=scenario_platform) (hv:=hv_accepts) 1
      bound_scenario = Ok tt s1 /\
    restore_cpu_ipis (plat:=scenario_platform) (hv:=hv_accepts) 1 s1
      = Ok tt s2 /\
    virq_to_irq s2 = virq_to_irq bound_scenario /\
    trace s2 = [Hypercall (EVTCHNOP_bind_virq 0 1)].
Proof.
  edestruct (restore_cpu_rebinds (plat:=scenario_platform) (hv:=hv_accepts)
               bound_scenario 1 (<[0%nat := 500]> (replicate 24 (-1)))
               (replicate 4 (-1)))
    as (Hvirq & _ & Htrace).
  - reflexivity.
  - reflexivity.
  - vm_compute. reflexivity.
  - vm_compute. reflexivity.
  - eexists _, _. split; [vm_compute; reflexivity|].
    split; [vm_compute; reflexivity|]. split; [exact Hvirq|]. exact Htrace.
Defined.

Lemma notify_dropped_after_resume_witness :
  exists st',
    xen_irq_resume_invalidate (plat:=scenario_platform) bound_scenario
      = Ok tt st' /\
    notify_remote_via_irq (kern:=quiet_kernel) 502 st' = Ok tt st' /\
    xen_send_IPI_one (kern:=quiet_kernel) 0 0 st' = Ok tt st'.
Proof.
  destruct (notify_dropped_after_resume (plat:=scenario_platform)
              (kern:=quiet_kernel) bound_scenario)
    as (st' & Hrun & Hnotify & Hipi).
  - vm_compute. split; discriminate.
  - reflexivity.
  - reflexivity.
  - vm_compute. discriminate.
  - exists st'. split; [exact Hrun|]. split.
    + apply (Hnotify 502). vm_compute. split; [discriminate|reflexivity].
    + apply (Hipi 0 0 (<[0%nat := 501]> (replicate 4 (-1))) 501).
      * reflexivity.
      * reflexivity.
      * vm_compute. split; [discriminate|reflexivity].
Defined.

Lemma upcall_scan_terminates_witness :
  upcall_scan_words (core:=quiet_core) 200 0 0 0 0 33 0 scan_scenario
    <> Stop FUEL.
Proof.
  apply (upcall_scan_terminates (core:=quiet_core) 200 0 0 0 33 scan_scenario).
  - lia.
  - lia.
Defined.

Lemma bind_unbind_round_trip_witness :
  exists s1 s2,
    bind_evtchn_to_irq (plat:=scenario_platform) (core:=quiet_core)
      34 boot_state = Ok 511 s1 /\
    unbind_from_irq (hv:=hv_accepts) (core:=quiet_core) 511 s1 = Ok tt s2 /\
    evtchn_to_irq s2 = evtchn_to_irq boot_state /\
    trace s2 = [Hypercall (EVTCHNOP_close 34)].
Proof.
  edestruct (bind_unbind_round_trip (plat:=scenario_platform) (hv:=hv_accepts)
               (core:=quiet_core) (kern:=quiet_kernel) boot_state 34 511)
    as (Htbl & _ & Htrace & _).
  - reflexivity.
  - lia.
  - vm_compute. reflexivity.
  - vm_compute. reflexivity.
  - eexists _, _. split; [vm_compute; reflexivity|].
    split; [vm_compute; reflexivity|]. split; [exact Htbl|exact Htrace].
Defined.

Lemma upcall_scan_bits_dispatch_witness :
  exists st',
    upcall_scan_bits (core:=quiet_core) 65 0 0 10 0 scan_scenario = Ok tt st' /\
    trace st' = [HandleIrq 17; HandleIrq 19] /\
    test_bit 1 (evtchn_mask (HYPERVISOR_shared_info st')) = Some true /\
    test_bit 3 (evtchn_pending (HYPERVISOR_shared_info st')) = Some false.
Proof.
  destruct (upcall_scan_bits_dispatch (core:=quiet_core) 65 0 0 10 0
              scan_scenario)
    as (st' & Hrun & Htrace & Hmask & Hpend).
  - intros irq s. reflexivity.
  - vm_compute. repeat split; first [discriminate | reflexivity].
  - lia.
  - lia.
  - exists st'. split; [exact Hrun|]. split; [exact Htrace|].
    split; [exact (Hmask 1)|exact (Hpend 3)].
Defined.

Lemma mask_unmask_round_trip_witness :
  exists s1,
    mask_irq 20 idle_port_scenario = Ok tt s1 /\
    test_bit 7 (evtchn_mask (HYPERVISOR_shared_info s1)) = Some true /\
    unmask_irq (hv:=hv_accepts) 20 s1 = Ok tt idle_port_scenario.
Proof.
  apply (mask_unmask_round_trip (hv:=hv_accepts) idle_port_scenario 20
           (mk_irq_info IRQT_EVTCHN 7 0 u_zero)).
  - reflexivity.
  - discriminate.
  - reflexivity.
  - vm_compute. reflexivity.
  - vm_compute. reflexivity.
  - vm_compute. reflexivity.
Defined.
